(** * Performance analytics (src/core/analytics.py): a shallow embedding

    The Python module keeps, per user, a ledger of quiz results per content
    chunk and a registry from short file hashes to file names; it rolls the
    ledger up per file and parses free-form source references.

    Conventions of the embedding:
    - a Python [str] is a [string]; a character is a code point below 256;
    - a Python [int] is a [Z];
    - a Python [dict] is an insertion-ordered association list ([Dict]);
    - [None] (and an attribute that is missing) is [None];
    - a Python [float] is an IEEE 754 binary64 value ([PyFloat]), and
      [correct / attempts * 100] is computed with its two roundings;
    - persistence, logging and the clock are threaded through a [World]. *)

From Stdlib Require Import List String Ascii ZArith Lia Bool Arith.
From Stdlib Require Import Sorted Permutation Floats.SpecFloat.
Import ListNotations.

Local Open Scope string_scope.

(* ================================================================= *)
(** ** Python string operations used by the module *)

Module PyStr.

Definition code (c : ascii) : N := N_of_ascii c.

(** [s[:n]] *)
Fixpoint take (n : nat) (s : string) : string :=
  match n, s with
  | S n', String c s' => String c (take n' s')
  | _, _ => EmptyString
  end.

(** [s[n:]] *)
Fixpoint drop (n : nat) (s : string) : string :=
  match n, s with
  | S n', String _ s' => drop n' s'
  | _, _ => s
  end.

Fixpoint map (f : ascii -> ascii) (s : string) : string :=
  match s with
  | EmptyString => EmptyString
  | String c s' => String (f c) (map f s')
  end.

(** [s.replace(" ", "_")]: both strings have one character. *)
Definition replace_space (s : string) : string :=
  map (fun c => if Ascii.eqb c " " then "_"%char else c) s.

(** [str.lower] on one code point below 256: [A-Z] and the Latin-1
    capitals (À..Þ without the multiplication sign) move up by 32. *)
Definition lower_char (c : ascii) : ascii :=
  let n := code c in
  if ((65 <=? n) && (n <=? 90))%N
     || ((192 <=? n) && (n <=? 222) && negb (n =? 215))%N
  then ascii_of_N (n + 32) else c.

Definition lower (s : string) : string := map lower_char s.

(** [s.startswith(p)] *)
Fixpoint startswith (p s : string) : bool :=
  match p, s with
  | EmptyString, _ => true
  | String a p', String b s' => Ascii.eqb a b && startswith p' s'
  | String _ _, EmptyString => false
  end.

(** [s.split(sep, 1)] at the first occurrence of [sep], when there is one:
    the text before it and the text after it. *)
Fixpoint split_first (sep s : string) : option (string * string) :=
  if startswith sep s then Some (EmptyString, drop (String.length sep) s)
  else match s with
       | EmptyString => None
       | String c s' =>
           match split_first sep s' with
           | Some (l, r) => Some (String c l, r)
           | None => None
           end
       end.

(** [sub in s] *)
Definition contains (sub s : string) : bool :=
  match split_first sub s with Some _ => true | None => false end.

(** [s.split(sep)[0]] *)
Definition split_head (sep s : string) : string :=
  match split_first sep s with Some (l, _) => l | None => s end.

(** Truthiness of a string. *)
Definition nonempty (s : string) : bool :=
  match s with EmptyString => false | String _ _ => true end.

(** Truthiness of an optional string. *)
Definition truthy (o : option string) : bool :=
  match o with Some s => nonempty s | None => false end.

(** [max] of a non-empty list of strings; Python keeps the first of equal
    maxima, and compares code point by code point. *)
Fixpoint max_from (m : string) (l : list string) : string :=
  match l with
  | [] => m
  | x :: l' => max_from (if String.ltb m x then x else m) l'
  end.

Definition max_opt (l : list string) : option string :=
  match l with
  | [] => None
  | x :: l' => Some (max_from x l')
  end.

(** [s.encode()]: UTF-8 of code points below 256. *)
Fixpoint encode (s : string) : list Z :=
  match s with
  | EmptyString => []
  | String c s' =>
      let n := Z.of_N (code c) in
      (if (n <? 128)%Z then [n]
       else [Z.lor 192 (Z.shiftr n 6); Z.lor 128 (Z.land n 63)])
      ++ encode s'
  end.

End PyStr.

(* ================================================================= *)
(** ** hashlib.md5 (RFC 1321) *)

Module MD5.
Local Open Scope Z_scope.

Definition wrap32 (x : Z) : Z := Z.land x 0xffffffff.
Definition not32 (x : Z) : Z := Z.lxor x 0xffffffff.
Definition rotl32 (x c : Z) : Z :=
  wrap32 (Z.lor (Z.shiftl x c) (Z.shiftr x (32 - c))).

Definition shifts : list Z :=
  [7; 12; 17; 22; 7; 12; 17; 22; 7; 12; 17; 22; 7; 12; 17; 22;
   5; 9; 14; 20; 5; 9; 14; 20; 5; 9; 14; 20; 5; 9; 14; 20;
   4; 11; 16; 23; 4; 11; 16; 23; 4; 11; 16; 23; 4; 11; 16; 23;
   6; 10; 15; 21; 6; 10; 15; 21; 6; 10; 15; 21; 6; 10; 15; 21].

Definition K : list Z :=
  [0xd76aa478; 0xe8c7b756; 0x242070db; 0xc1bdceee; 0xf57c0faf; 0x4787c62a;
   0xa8304613; 0xfd469501; 0x698098d8; 0x8b44f7af; 0xffff5bb1; 0x895cd7be;
   0x6b901122; 0xfd987193; 0xa679438e; 0x49b40821; 0xf61e2562; 0xc040b340;
   0x265e5a51; 0xe9b6c7aa; 0xd62f105d; 0x02441453; 0xd8a1e681; 0xe7d3fbc8;
   0x21e1cde6; 0xc33707d6; 0xf4d50d87; 0x455a14ed; 0xa9e3e905; 0xfcefa3f8;
   0x676f02d9; 0x8d2a4c8a; 0xfffa3942; 0x8771f681; 0x6d9d6122; 0xfde5380c;
   0xa4beea44; 0x4bdecfa9; 0xf6bb4b60; 0xbebfbc70; 0x289b7ec6; 0xeaa127fa;
   0xd4ef3085; 0x04881d05; 0xd9d4d039; 0xe6db99e5; 0x1fa27cf8; 0xc4ac5665;
   0xf4292244; 0x432aff97; 0xab9423a7; 0xfc93a039; 0x655b59c3; 0x8f0ccc92;
   0xffeff47d; 0x85845dd1; 0x6fa87e4f; 0xfe2ce6e0; 0xa3014314; 0x4e0811a1;
   0xf7537e82; 0xbd3af235; 0x2ad7d2bb; 0xeb86d391].

(** The [n] low bytes of [x], least significant first. *)
Fixpoint le_bytes (n : nat) (x : Z) : list Z :=
  match n with
  | O => []
  | S n' => Z.land x 255 :: le_bytes n' (Z.shiftr x 8)
  end.

(** Little-endian value of a list of bytes. *)
Fixpoint le_value (bs : list Z) : Z :=
  match bs with
  | [] => 0
  | b :: bs' => b + 256 * le_value bs'
  end.

Definition pad (msg : list Z) : list Z :=
  let len := Z.of_nat (List.length msg) in
  msg ++ [0x80] ++ repeat 0 (Z.to_nat ((55 - len) mod 64))
      ++ le_bytes 8 (len * 8).

(** The sixteen 32-bit words of a 64-byte block. *)
Fixpoint words (n : nat) (block : list Z) : list Z :=
  match n with
  | O => []
  | S n' => le_value (firstn 4 block) :: words n' (skipn 4 block)
  end.

Definition state : Type := Z * Z * Z * Z.

Definition round (M : list Z) (st : state) (i : Z) : state :=
  let '(a, b, c, d) := st in
  let '(f, g) :=
    if i <? 16 then (Z.lor (Z.land b c) (Z.land (not32 b) d), i)
    else if i <? 32 then
      (Z.lor (Z.land d b) (Z.land (not32 d) c), (5 * i + 1) mod 16)
    else if i <? 48 then (Z.lxor (Z.lxor b c) d, (3 * i + 5) mod 16)
    else (Z.lxor c (Z.lor b (not32 d)), (7 * i) mod 16) in
  let f' := wrap32 (f + a + nth (Z.to_nat i) K 0 + nth (Z.to_nat g) M 0) in
  (d, wrap32 (b + rotl32 f' (nth (Z.to_nat i) shifts 0)), b, c).

Definition rounds : list Z := List.map Z.of_nat (seq 0 64).

Definition compress (st : state) (block : list Z) : state :=
  let '(a0, b0, c0, d0) := st in
  let '(a, b, c, d) := fold_left (round (words 16 block)) rounds st in
  (wrap32 (a0 + a), wrap32 (b0 + b), wrap32 (c0 + c), wrap32 (d0 + d)).

Fixpoint blocks (n : nat) (bs : list Z) : list (list Z) :=
  match n with
  | O => []
  | S n' => firstn 64 bs :: blocks n' (skipn 64 bs)
  end.

Definition init : state := (0x67452301, 0xefcdab89, 0x98badcfe, 0x10325476).

Definition digest_state (msg : list Z) : state :=
  let p := pad msg in
  fold_left compress (blocks (List.length p / 64) p) init.

Definition hexdigit (n : Z) : ascii :=
  nth (Z.to_nat n)
      ["0"; "1"; "2"; "3"; "4"; "5"; "6"; "7";
       "8"; "9"; "a"; "b"; "c"; "d"; "e"; "f"]%char "0"%char.

Definition hex_byte (b : Z) (rest : string) : string :=
  String (hexdigit (Z.shiftr b 4)) (String (hexdigit (Z.land b 15)) rest).

(** The four bytes of a word, least significant first, in hexadecimal. *)
Definition hex_word (w : Z) (rest : string) : string :=
  hex_byte (Z.land w 255)
    (hex_byte (Z.land (Z.shiftr w 8) 255)
      (hex_byte (Z.land (Z.shiftr w 16) 255)
        (hex_byte (Z.land (Z.shiftr w 24) 255) rest))).

(** [hashlib.md5(bytes).hexdigest()] *)
Definition hexdigest (msg : list Z) : string :=
  let '(a, b, c, d) := digest_state msg in
  hex_word a (hex_word b (hex_word c (hex_word d EmptyString))).

End MD5.

(* ================================================================= *)
(** ** The regular expressions of the module

    A backtracking matcher in continuation-passing style, as Python's [re]:
    alternatives are tried in order, repetitions are greedy.  The continuation
    receives the rest of the text, the number of characters consumed since the
    start of the match, and the text of capture group 1. *)

Module Re.

Inductive regex : Type :=
| Cls (p : ascii -> bool)              (* one character of a class *)
| Seq (r1 r2 : regex)                  (* r1 r2 *)
| Rep (min : nat) (p : ascii -> bool)  (* greedy p{min,} *)
| Grp (r : regex).                     (* ( r ), capture group 1 *)

Section Matcher.
Context {R : Type}.

Fixpoint rep (p : ascii -> bool) (min : nat) (s : string) (n : nat)
         (k : string -> nat -> option R) : option R :=
  match s with
  | String c s' =>
      if p c then
        match rep p (Nat.pred min) s' (S n) k with
        | Some x => Some x
        | None => if Nat.eqb min 0 then k s n else None
        end
      else if Nat.eqb min 0 then k s n else None
  | EmptyString => if Nat.eqb min 0 then k s n else None
  end.

Fixpoint run (r : regex) (s : string) (n : nat) (g : option string)
         (k : string -> nat -> option string -> option R) : option R :=
  match r with
  | Cls p =>
      match s with
      | String c s' => if p c then k s' (S n) g else None
      | EmptyString => None
      end
  | Seq r1 r2 => run r1 s n g (fun s1 n1 g1 => run r2 s1 n1 g1 k)
  | Rep min p => rep p min s n (fun s1 n1 => k s1 n1 g)
  | Grp r1 =>
      run r1 s n g (fun s1 n1 _ => k s1 n1 (Some (PyStr.take (n1 - n) s)))
  end.
End Matcher.

(** [re.match]: the length of the match at the start of [s] and group 1. *)
Definition match_at (r : regex) (s : string) : option (nat * option string) :=
  run r s 0 None (fun _ n g => Some (n, g)).

(** [re.search(r, s).group(1)]: the leftmost match; [None] without a match,
    the empty string when the group took no part in it. *)
Fixpoint search_group1 (r : regex) (s : string) : option string :=
  match match_at r s with
  | Some (_, g) => Some (match g with Some t => t | None => EmptyString end)
  | None =>
      match s with
      | EmptyString => None
      | String _ s' => search_group1 r s'
      end
  end.

(** [re.sub(r, '', s)]: every leftmost non-overlapping match is deleted;
    [skip] characters of a match found earlier are still to be dropped.  An
    empty match deletes nothing. *)
Fixpoint delete_from (r : regex) (skip : nat) (s : string) : string :=
  match s with
  | EmptyString => EmptyString
  | String c s' =>
      match skip with
      | S k => delete_from r k s'
      | O =>
          match match_at r s with
          | Some (S k, _) => delete_from r k s'
          | _ => String c (delete_from r 0 s')
          end
      end
  end.

Definition sub_delete (r : regex) (s : string) : string := delete_from r 0 s.

(** Character classes.  For [str] patterns [\s] is [str.isspace] and [\d] the
    decimal digits; below 256 these are the code points listed here. *)
Definition chr (a : ascii) : ascii -> bool := Ascii.eqb a.

Definition one_of (a b : ascii) : ascii -> bool :=
  fun c => Ascii.eqb c a || Ascii.eqb c b.

Definition is_space (c : ascii) : bool :=
  let n := PyStr.code c in
  (((9 <=? n) && (n <=? 13)) || ((28 <=? n) && (n <=? 32))
   || (n =? 133) || (n =? 160))%N.

Definition is_digit (c : ascii) : bool :=
  let n := PyStr.code c in ((48 <=? n) && (n <=? 57))%N.

(** A literal word followed by [r]. *)
Fixpoint lit (w : string) (r : regex) : regex :=
  match w with
  | EmptyString => r
  | String c w' => Seq (Cls (chr c)) (lit w' r)
  end.

(** [[Cc]hunk\s*(\d+)] *)
Definition chunk_re : regex :=
  Seq (Cls (one_of "C" "c")) (lit "hunk" (Seq (Rep 0 is_space) (Grp (Rep 1 is_digit)))).

(** [[Ee]XACT\s+quote\s*:] *)
Definition exact_quote_re : regex :=
  Seq (Cls (one_of "E" "e"))
      (lit "XACT" (Seq (Rep 1 is_space)
                       (lit "quote" (Seq (Rep 0 is_space) (Cls (chr ":")))))).

(** [quote\s*:] *)
Definition quote_re : regex :=
  lit "quote" (Seq (Rep 0 is_space) (Cls (chr ":"))).

End Re.

(* ================================================================= *)
(** ** Python dictionaries: insertion-ordered, keyed by strings *)

Module Dict.

Definition t (V : Type) : Type := list (string * V).

Section Ops.
Context {V : Type}.

(** [d.get(k)] *)
Fixpoint get (k : string) (d : t V) : option V :=
  match d with
  | [] => None
  | (k', v) :: d' => if String.eqb k k' then Some v else get k d'
  end.

(** [k in d] *)
Definition mem (k : string) (d : t V) : bool :=
  match get k d with Some _ => true | None => false end.

(** [d[k] = v]: a key that is present keeps its place, a new key goes to
    the end. *)
Fixpoint set (k : string) (v : V) (d : t V) : t V :=
  match d with
  | [] => [(k, v)]
  | (k', v') :: d' =>
      if String.eqb k k' then (k, v) :: d' else (k', v') :: set k v d'
  end.

Definition keys (d : t V) : list string := List.map fst d.
Definition values (d : t V) : list V := List.map snd d.

(** Truthiness of a dictionary. *)
Definition nonempty (d : t V) : bool :=
  match d with [] => false | _ :: _ => true end.

(** A dictionary has no key twice. *)
Definition wf (d : t V) : Prop := NoDup (keys d).
End Ops.

End Dict.

(* ================================================================= *)
(** ** Python floats: IEEE 754 binary64 *)

Module PyFloat.

(** A float in the representation of the Standard Library's specification of
    floating-point arithmetic: a signed zero, a signed infinity, NaN, or
    [(-1)^s * m * 2^e]. *)
Definition t : Type := spec_float.

Definition prec : Z := 53.
Definition emax : Z := 1024.

(** [0.0] *)
Definition zero : t := S754_zero false.

(** [float(z)], the conversion of the integer operand of a mixed operation:
    rounded to nearest, ties to even. *)
Definition of_int (z : Z) : t := binary_normalize prec emax z 0 false.

(** An integer as the exact operand of a division. *)
Definition exact (z : Z) : t :=
  match z with
  | Z0 => S754_zero false
  | Zpos m => S754_finite false m 0
  | Zneg m => S754_finite true m 0
  end.

(** [a / b] on two integers, [b] not zero: the quotient of the integers
    themselves, rounded once to nearest, ties to even.  Where the quotient
    lies beyond the floats (2^1024 or more in absolute value, which takes an
    operand above 1e308) Python raises OverflowError; that exception is not
    modelled, the value is the infinity here. *)
Definition true_div (a b : Z) : t := SFdiv prec emax (exact a) (exact b).

(** [x * y] *)
Definition mul (x y : t) : t := SFmul prec emax x y.

(** [x < y], [x <= y] and [x == y]; all three are false on NaN. *)
Definition ltb (x y : t) : bool := SFltb x y.
Definition leb (x y : t) : bool := SFleb x y.
Definition eqb (x y : t) : bool := SFeqb x y.

Definition is_nan (x : t) : bool :=
  match x with S754_nan => true | _ => false end.

End PyFloat.

(* ================================================================= *)
(** ** Data model *)

(** An entry of a chunk's question history. *)
Record Question : Type := mkQuestion {
  q_question : string;
  q_correct : bool;
  q_timestamp : string
}.

(** A Chunk Record of the ledger [state.chunk_performance]. *)
Record ChunkRecord : Type := mkChunkRecord {
  cr_correct : Z;
  cr_incorrect : Z;
  cr_attempts : Z;
  cr_last_attempt : option string;
  cr_source_reference : string;
  cr_filename : option string;
  cr_questions : list Question
}.

(** The two attributes of the persisted state that the module uses; an
    attribute that is missing and one that is [None] are treated alike by
    every function below, and both are [None] here. *)
Record State : Type := mkState {
  file_mapping : option (Dict.t string);
  chunk_performance : option (Dict.t ChunkRecord)
}.

(** The metrics dictionaries built by [get_chunk_performance] and
    [get_all_chunk_performance]; a key that a dictionary lacks reads as
    [None]. *)
Record Metrics : Type := mkMetrics {
  m_correct : Z;
  m_incorrect : Z;
  m_attempts : Z;
  m_accuracy : PyFloat.t;
  m_source_reference : string;
  m_filename : option string;
  m_last_attempt : option string
}.

(** A per-file rollup of [group_chunks_by_file]. *)
Record FileRollup : Type := mkFileRollup {
  f_file_hash : string;
  f_filename : option string;
  f_chunks : Dict.t Metrics;
  f_total_attempts : Z;
  f_total_correct : Z;
  f_total_incorrect : Z;
  f_chunks_with_data : Z;
  f_accuracy : PyFloat.t;
  f_last_attempt : option string
}.

(* ================================================================= *)
(** ** The collaborators: persistence, logging, clock *)

Inductive Effect : Type :=
| Saved (username : option string) (st : State)   (* a call of save_state *)
| Info (msg : string).                            (* logger.get_logger().info *)

Record World : Type := mkWorld {
  store : option string -> State;   (* the persisted snapshot of each user *)
  trace : list Effect;              (* writes and events, oldest first *)
  clock : nat -> string;            (* successive readings of the clock *)
  ticks : nat                       (* readings taken so far *)
}.

Definition M (A : Type) : Type := World -> A * World.

Definition ret {A : Type} (a : A) : M A := fun w => (a, w).

Definition bind {A B : Type} (c : M A) (k : A -> M B) : M B :=
  fun w => let (a, w') := c w in k a w'.

Declare Scope py_scope.
Delimit Scope py_scope with py.
Notation "x <- c1 ;; c2" := (bind c1 (fun x => c2))
  (at level 61, c1 at next level, right associativity) : py_scope.
Notation "c1 ;; c2" := (bind c1 (fun _ => c2))
  (at level 61, right associativity) : py_scope.
Local Open Scope py_scope.

Definition user_eqb (a b : option string) : bool :=
  match a, b with
  | Some x, Some y => String.eqb x y
  | None, None => true
  | _, _ => false
  end.

(** Modelled from the spec: [load_state] of core/memory.py, which is not part
    of the sources at hand.  It returns the snapshot persisted for the user. *)
Definition load_state (username : option string) : M State :=
  fun w => (store w username, w).

(** Modelled from the spec: [save_state] of core/memory.py, which is not part
    of the sources at hand.  It overwrites the snapshot persisted for the
    user, and only that one. *)
Definition save_state (st : State) (username : option string) : M unit :=
  fun w =>
    (tt, mkWorld (fun u => if user_eqb u username then st else store w u)
                 (trace w ++ [Saved username st])%list (clock w) (ticks w)).

Definition info (msg : string) : M unit :=
  fun w => (tt, mkWorld (store w) (trace w ++ [Info msg])%list
                        (clock w) (ticks w)).

(** [datetime.now().isoformat()] *)
Definition now : M string :=
  fun w => (clock w (ticks w),
            mkWorld (store w) (trace w) (clock w) (S (ticks w))).

Fixpoint for_each {A S : Type} (l : list A) (body : S -> A -> M S) (s : S)
  : M S :=
  match l with
  | [] => ret s
  | x :: l' => s' <- body s x ;; for_each l' body s'
  end.

(** [d if d is not None else {}] *)
Definition or_empty {V : Type} (d : option (Dict.t V)) : Dict.t V :=
  match d with Some m => m | None => [] end.

(* ================================================================= *)
(** ** File registry *)

(** [hashlib.md5(filename.encode()).hexdigest()[:8]] *)
Definition file_hash_of (filename : string) : string :=
  PyStr.take 8 (MD5.hexdigest (PyStr.encode filename)).

Definition register_file (filename : string) (username : option string)
  : M string :=
  state <- load_state username ;;
  let mapping := or_empty (file_mapping state) in
  let file_hash := file_hash_of filename in
  (if negb (Dict.mem file_hash mapping) then
     save_state (mkState (Some (Dict.set file_hash filename mapping))
                         (chunk_performance state)) username ;;
     info ("Registered file: " ++ filename ++ " -> " ++ file_hash)
   else ret tt) ;;
  ret file_hash.

(* ================================================================= *)
(** ** Chunk performance ledger *)

Definition new_record (source_reference : string) (filename : option string)
  : ChunkRecord :=
  mkChunkRecord 0 0 0 None source_reference filename [].

Definition with_filename (r : ChunkRecord) (filename : option string)
  : ChunkRecord :=
  mkChunkRecord (cr_correct r) (cr_incorrect r) (cr_attempts r)
                (cr_last_attempt r) (cr_source_reference r) filename
                (cr_questions r).

(** [attempts += 1] and one of [correct += 1], [incorrect += 1]. *)
Definition count_answer (is_correct : bool) (r : ChunkRecord) : ChunkRecord :=
  mkChunkRecord (if is_correct then cr_correct r + 1 else cr_correct r)
                (if is_correct then cr_incorrect r else cr_incorrect r + 1)
                (cr_attempts r + 1)
                (cr_last_attempt r) (cr_source_reference r) (cr_filename r)
                (cr_questions r).

Definition with_last_attempt (r : ChunkRecord) (t : string) : ChunkRecord :=
  mkChunkRecord (cr_correct r) (cr_incorrect r) (cr_attempts r)
                (Some t) (cr_source_reference r) (cr_filename r)
                (cr_questions r).

Definition with_questions (r : ChunkRecord) (qs : list Question)
  : ChunkRecord :=
  mkChunkRecord (cr_correct r) (cr_incorrect r) (cr_attempts r)
                (cr_last_attempt r) (cr_source_reference r) (cr_filename r)
                qs.

(** [qs = qs[-10:]] when [len(qs) > 10]. *)
Definition keep_last_10 (qs : list Question) : list Question :=
  if (10 <? List.length qs)%nat then skipn (List.length qs - 10)%nat qs
  else qs.

(** The key under which a call is recorded: [chunk_id if chunk_id else
    source_reference]. *)
Definition ledger_key (chunk_id source_reference : string) : string :=
  if PyStr.nonempty chunk_id then chunk_id else source_reference.

Definition record_quiz_answer
    (chunk_id source_reference : string) (is_correct : bool)
    (question_text : string) (username : option string)
    (filename : option string) : M unit :=
  state <- load_state username ;;
  let perf := or_empty (chunk_performance state) in
  let key := ledger_key chunk_id source_reference in
  let r0 :=
    match Dict.get key perf with
    | None => new_record source_reference filename
    | Some r =>
        if PyStr.truthy filename && negb (PyStr.truthy (cr_filename r))
        then with_filename r filename else r
    end in
  let r1 := count_answer is_correct r0 in
  t <- now ;;
  let r2 := with_last_attempt r1 t in
  r3 <- (if PyStr.nonempty question_text then
           t' <- now ;;
           ret (with_questions r2
                  (keep_last_10
                     (cr_questions r2
                      ++ [mkQuestion (PyStr.take 200 question_text)
                                     is_correct t'])%list))
         else ret r2) ;;
  save_state (mkState (file_mapping state) (Some (Dict.set key r3 perf)))
             username ;;
  info ("Recorded quiz answer for " ++ key ++ ": "
        ++ (if is_correct then "correct" else "incorrect")).

(** [(correct / attempts * 100) if attempts > 0 else 0.0]: the division of
    the two integers gives a float, which is multiplied by [float(100)]. *)
Definition accuracy_of (correct attempts : Z) : PyFloat.t :=
  if (0 <? attempts)%Z
  then PyFloat.mul (PyFloat.true_div correct attempts) (PyFloat.of_int 100)
  else PyFloat.zero.

(** [perf.get(name, default)] on the result of [ledger.get(chunk_id, {})]. *)
Definition field {A : Type} (perf : option ChunkRecord)
    (name : ChunkRecord -> A) (default : A) : A :=
  match perf with Some r => name r | None => default end.

Definition get_chunk_performance (chunk_id : string)
    (username : option string) : M Metrics :=
  state <- load_state username ;;
  match chunk_performance state with
  | None => ret (mkMetrics 0 0 0 PyFloat.zero "" None None)
  | Some ledger =>
      let perf := Dict.get chunk_id ledger in
      let attempts := field perf cr_attempts 0%Z in
      let correct := field perf cr_correct 0%Z in
      let accuracy := accuracy_of correct attempts in
      ret (mkMetrics correct (field perf cr_incorrect 0%Z) attempts accuracy
                     (field perf cr_source_reference "") None
                     (field perf cr_last_attempt None))
  end.

Definition metrics_of (perf : ChunkRecord) : Metrics :=
  mkMetrics (cr_correct perf) (cr_incorrect perf) (cr_attempts perf)
            (accuracy_of (cr_correct perf) (cr_attempts perf))
            (cr_source_reference perf) (cr_filename perf)
            (cr_last_attempt perf).

Definition get_all_chunk_performance (username : option string)
  : M (Dict.t Metrics) :=
  state <- load_state username ;;
  match chunk_performance state with
  | None => ret []
  | Some ledger =>
      ret (fold_left (fun result item =>
                        Dict.set (fst item) (metrics_of (snd item)) result)
                     ledger [])
  end.

(* ================================================================= *)
(** ** File aggregator *)

(** [filename == "unknown_file"] *)
Definition is_unknown_file (filename : option string) : bool :=
  match filename with
  | Some s => String.eqb s "unknown_file"
  | None => false
  end.

(** One turn of the loop of [backfill_file_mapping_from_chunks]; the
    accumulator is [state.file_mapping] and the flag [updated]. *)
Definition backfill_step (acc : Dict.t string * bool)
    (item : string * ChunkRecord) : M (Dict.t string * bool) :=
  let '(mapping, updated) := acc in
  let '(chunk_id, perf) := item in
  match cr_filename perf with
  | Some filename =>
      if PyStr.nonempty filename && negb (String.eqb filename "unknown_file")
      then
        if PyStr.contains "_chunk_" chunk_id then
          let file_hash := PyStr.split_head "_chunk_" chunk_id in
          if negb (Dict.mem file_hash mapping) then
            info ("Backfilled file mapping: " ++ filename ++ " -> "
                  ++ file_hash) ;;
            ret (Dict.set file_hash filename mapping, true)
          else ret acc
        else ret acc
      else ret acc
  | None => ret acc
  end.

Definition backfill_file_mapping_from_chunks (username : option string)
  : M unit :=
  state <- load_state username ;;
  if negb (Dict.nonempty (or_empty (chunk_performance state))) then ret tt
  else
    acc <- for_each (or_empty (chunk_performance state)) backfill_step
                    (or_empty (file_mapping state), false) ;;
    if snd acc then
      save_state (mkState (Some (fst acc)) (chunk_performance state)) username
    else ret tt.

(** The file identifier of a chunk key: the text before the first
    ["_chunk_"], or the bucket ["unknown"]. *)
Definition bucket_of (chunk_id : string) : string :=
  if PyStr.contains "_chunk_" chunk_id
  then PyStr.split_head "_chunk_" chunk_id
  else "unknown".

(** The rollup created at the first sight of a file identifier.  The keys
    [accuracy] and [last_attempt] are only written by the closing pass. *)
Definition new_rollup (file_hash : string) (filename : option string)
  : FileRollup :=
  mkFileRollup file_hash filename [] 0 0 0 0 PyFloat.zero None.

Definition rollup_with_filename (r : FileRollup) (filename : option string)
  : FileRollup :=
  mkFileRollup (f_file_hash r) filename (f_chunks r) (f_total_attempts r)
               (f_total_correct r) (f_total_incorrect r)
               (f_chunks_with_data r) (f_accuracy r) (f_last_attempt r).

(** [state.file_mapping.get(file_hash)] when the mapping is there and not
    empty; [otherwise] when it is not. *)
Definition mapping_lookup (state : State) (file_hash : string)
    (otherwise : option string) : option string :=
  match file_mapping state with
  | Some mapping =>
      if Dict.nonempty mapping then Dict.get file_hash mapping else otherwise
  | None => otherwise
  end.

(** The filename of a new rollup (the branch [file_hash not in files]). *)
Definition seed_filename (file_hash : string) (perf : Metrics)
    (username : option string) : M (option string) :=
  let filename := m_filename perf in
  if negb (PyStr.truthy filename) || is_unknown_file filename then
    state <- load_state username ;;
    ret (mapping_lookup state file_hash filename)
  else ret filename.

(** The filename of a rollup that exists (the two [elif] branches). *)
Definition refresh_filename (file_hash : string) (perf : Metrics)
    (r : FileRollup) (username : option string) : M (option string) :=
  if PyStr.truthy (m_filename perf) && negb (PyStr.truthy (f_filename r)) then
    let filename := m_filename perf in
    (if negb (is_unknown_file filename) then
       state <- load_state username ;;
       let mapping := or_empty (file_mapping state) in
       if negb (Dict.mem file_hash mapping) then
         let name := match filename with Some s => s | None => "" end in
         save_state (mkState (Some (Dict.set file_hash name mapping))
                             (chunk_performance state)) username ;;
         info ("Auto-registered file from chunk data: " ++ name ++ " -> "
               ++ file_hash)
       else ret tt
     else ret tt) ;;
    ret filename
  else if negb (PyStr.truthy (f_filename r)) || is_unknown_file (f_filename r)
  then
    state <- load_state username ;;
    let mapped_filename := mapping_lookup state file_hash None in
    if PyStr.truthy mapped_filename then ret mapped_filename
    else ret (f_filename r)
  else ret (f_filename r).

(** The statements after the [if]/[elif] chain: the chunk joins the map of
    the rollup and the totals grow. *)
Definition add_chunk (chunk_id : string) (perf : Metrics) (r : FileRollup)
  : FileRollup :=
  mkFileRollup (f_file_hash r) (f_filename r)
               (Dict.set chunk_id perf (f_chunks r))
               (f_total_attempts r + m_attempts perf)
               (f_total_correct r + m_correct perf)
               (f_total_incorrect r + m_incorrect perf)
               (if (0 <? m_attempts perf)%Z then f_chunks_with_data r + 1
                else f_chunks_with_data r)
               (f_accuracy r) (f_last_attempt r).

(** One turn of the first loop of [group_chunks_by_file]. *)
Definition group_step (username : option string) (files : Dict.t FileRollup)
    (item : string * Metrics) : M (Dict.t FileRollup) :=
  let '(chunk_id, perf) := item in
  let file_hash := bucket_of chunk_id in
  r <- match Dict.get file_hash files with
       | None =>
           filename <- seed_filename file_hash perf username ;;
           ret (new_rollup file_hash filename)
       | Some r =>
           filename <- refresh_filename file_hash perf r username ;;
           ret (rollup_with_filename r filename)
       end ;;
  ret (Dict.set file_hash (add_chunk chunk_id perf r) files).

(** The [last_attempt] values of a chunk map that are truthy. *)
Fixpoint last_attempts (chunks : list Metrics) : list string :=
  match chunks with
  | [] => []
  | p :: chunks' =>
      match m_last_attempt p with
      | Some t => if PyStr.nonempty t then t :: last_attempts chunks'
                  else last_attempts chunks'
      | None => last_attempts chunks'
      end
  end.

(** One turn of the closing loop: accuracy and most recent attempt. *)
Definition close_rollup (r : FileRollup) : FileRollup :=
  mkFileRollup (f_file_hash r) (f_filename r) (f_chunks r)
               (f_total_attempts r) (f_total_correct r) (f_total_incorrect r)
               (f_chunks_with_data r)
               (accuracy_of (f_total_correct r) (f_total_attempts r))
               (PyStr.max_opt (last_attempts (Dict.values (f_chunks r)))).

Definition group_chunks_by_file (all_perf : Dict.t Metrics)
    (username : option string) : M (Dict.t FileRollup) :=
  backfill_file_mapping_from_chunks username ;;
  files <- for_each all_perf (group_step username) [] ;;
  ret (List.map (fun entry => (fst entry, close_rollup (snd entry))) files).

(* ================================================================= *)
(** ** Reference parser *)

Definition extract_chunk_id_from_reference (source_reference : string)
    (filename : option string) : string :=
  let chunk_num :=
    match Re.search_group1 Re.chunk_re source_reference with
    | Some digits => digits
    | None => "unknown"
    end in
  if PyStr.truthy filename then
    let file_hash :=
      file_hash_of (match filename with Some s => s | None => "" end) in
    file_hash ++ "_chunk_" ++ chunk_num
  else PyStr.lower (PyStr.replace_space (PyStr.take 50 source_reference)).

(** The first step of [format_topic_name] on a non-empty reference: the two
    substitutions that delete ["EXACT quote:"] and ["quote:"] markers from
    the working text. *)
Definition format_topic_name_step1 (source_reference : string) : string :=
  let text := source_reference in
  let text := Re.sub_delete Re.exact_quote_re text in
  let text := Re.sub_delete Re.quote_re text in
  text.

(* ================================================================= *)
(** ** Concrete worlds, for the examples *)

Definition empty_state : State := mkState None None.

Definition world_of (st : State) : World :=
  mkWorld (fun _ => st) [] (fun n => "2024-01-01T00:00:00") 0.

(* ================================================================= *)
(** ** Insight engine *)

(** An entry of the lists of weak and strong areas. *)
Record Area : Type := mkArea {
  a_chunk_id : string;
  a_source_reference : string;
  a_accuracy : PyFloat.t;
  a_correct : Z;
  a_incorrect : Z;
  a_attempts : Z;
  a_last_attempt : option string
}.

Definition area_of (chunk_id : string) (perf : Metrics) : Area :=
  mkArea chunk_id (m_source_reference perf) (m_accuracy perf)
         (m_correct perf) (m_incorrect perf) (m_attempts perf)
         (m_last_attempt perf).

(** [list.sort] is stable: [x], which stood before the elements of [l],
    goes in front of the first element that may not precede it. *)
Fixpoint insert_by {A : Type} (may_precede : A -> A -> bool) (x : A)
    (l : list A) : list A :=
  match l with
  | [] => [x]
  | y :: l' =>
      if may_precede x y then x :: y :: l'
      else y :: insert_by may_precede x l'
  end.

Definition sort_by {A : Type} (may_precede : A -> A -> bool) (l : list A)
  : list A :=
  fold_right (insert_by may_precede) [] l.

(** [sort(key=accuracy)]: smaller accuracies first; the sort compares keys
    with [<] only, and [x] stays in front of [y] unless [y < x]. *)
Definition worst_first (x y : Area) : bool :=
  negb (PyFloat.ltb (a_accuracy y) (a_accuracy x)).

(** [sort(key=accuracy, reverse=True)]: greater accuracies first; [x] stays
    in front of [y] unless [x < y]. *)
Definition best_first (x y : Area) : bool :=
  negb (PyFloat.ltb (a_accuracy x) (a_accuracy y)).

(** The defaults are [threshold=60.0] and [min_attempts=2]. *)
Definition get_weak_areas (threshold : PyFloat.t) (min_attempts : Z)
    (username : option string) : M (list Area) :=
  all_perf <- get_all_chunk_performance username ;;
  let weak_areas :=
    List.map (fun item => area_of (fst item) (snd item))
      (List.filter
         (fun item => (min_attempts <=? m_attempts (snd item))%Z
                      && PyFloat.ltb (m_accuracy (snd item)) threshold)
         all_perf) in
  ret (sort_by worst_first weak_areas).

(** The defaults are [threshold=80.0] and [min_attempts=2]. *)
Definition get_strong_areas (threshold : PyFloat.t) (min_attempts : Z)
    (username : option string) : M (list Area) :=
  all_perf <- get_all_chunk_performance username ;;
  let strong_areas :=
    List.map (fun item => area_of (fst item) (snd item))
      (List.filter
         (fun item => (min_attempts <=? m_attempts (snd item))%Z
                      && PyFloat.leb threshold (m_accuracy (snd item)))
         all_perf) in
  ret (sort_by best_first strong_areas).

Record Summary : Type := mkSummary {
  s_total_chunks : Z;
  s_total_attempts : Z;
  s_total_correct : Z;
  s_total_incorrect : Z;
  s_overall_accuracy : PyFloat.t;
  s_chunks_with_data : Z
}.

(** [sum(...)] of integers. *)
Definition py_sum (l : list Z) : Z := fold_left Z.add l 0%Z.

Definition get_performance_summary (username : option string) : M Summary :=
  all_perf <- get_all_chunk_performance username ;;
  if negb (Dict.nonempty all_perf)
  then ret (mkSummary 0 0 0 0 PyFloat.zero 0)
  else
    let total_attempts := py_sum (List.map m_attempts (Dict.values all_perf)) in
    let total_correct := py_sum (List.map m_correct (Dict.values all_perf)) in
    let total_incorrect :=
      py_sum (List.map m_incorrect (Dict.values all_perf)) in
    let chunks_with_data :=
      Z.of_nat (List.length
                  (List.filter (fun p => (0 <? m_attempts p)%Z)
                               (Dict.values all_perf))) in
    let overall_accuracy := accuracy_of total_correct total_attempts in
    ret (mkSummary (Z.of_nat (List.length all_perf)) total_attempts
                   total_correct total_incorrect overall_accuracy
                   chunks_with_data).

(* ================================================================= *)
(** ** Vocabulary of the statements *)

(** The ledger of a user, and one of its entries. *)
Definition ledger_of (w : World) (username : option string)
  : Dict.t ChunkRecord :=
  or_empty (chunk_performance (store w username)).

Definition entry (key : string) (username : option string) (w : World)
  : option ChunkRecord :=
  Dict.get key (ledger_of w username).

(** The registry of a user. *)
Definition registry_of (w : World) (username : option string)
  : Dict.t string :=
  or_empty (file_mapping (store w username)).

(** The arguments of one call of [record_quiz_answer]. *)
Record Call : Type := mkCall {
  c_chunk_id : string;
  c_source_reference : string;
  c_is_correct : bool;
  c_question_text : string;
  c_username : option string;
  c_filename : option string
}.

Definition do_call (c : Call) : M unit :=
  record_quiz_answer (c_chunk_id c) (c_source_reference c) (c_is_correct c)
                     (c_question_text c) (c_username c) (c_filename c).

(** The world after a sequence of calls, first call first. *)
Fixpoint run_calls (calls : list Call) (w : World) : World :=
  match calls with
  | [] => w
  | c :: calls' => run_calls calls' (snd (do_call c w))
  end.

(** The call is recorded under [key] in the ledger of [username]. *)
Definition hits (key : string) (username : option string) (c : Call) : bool :=
  String.eqb (ledger_key (c_chunk_id c) (c_source_reference c)) key
  && user_eqb (c_username c) username.

Definition calls_for (key : string) (username : option string)
    (calls : list Call) : list Call :=
  List.filter (hits key username) calls.

Definition correct_ones (calls : list Call) : list Call :=
  List.filter c_is_correct calls.

Definition asked (calls : list Call) : list Call :=
  List.filter (fun c => PyStr.nonempty (c_question_text c)) calls.

(** The last [n] elements of a list. *)
Definition lastn {A : Type} (n : nat) (l : list A) : list A :=
  skipn (List.length l - n) l.

(** The question entries that a sequence of calls writes for [key], oldest
    first, when the clock has been read [t] times before: every call reads
    the clock once for [last_attempt] and once more for the entry when it has
    a question text. *)
Fixpoint history (key : string) (username : option string)
    (clk : nat -> string) (t : nat) (calls : list Call) : list Question :=
  match calls with
  | [] => []
  | c :: calls' =>
      if PyStr.nonempty (c_question_text c) then
        (if hits key username c
         then [mkQuestion (PyStr.take 200 (c_question_text c))
                          (c_is_correct c) (clk (S t))]
         else [])
        ++ history key username clk (S (S t)) calls'
      else history key username clk (S t) calls'
  end%list.

Definition questions_of (e : option ChunkRecord) : list Question :=
  match e with Some r => cr_questions r | None => [] end.

(** [attempts == correct + incorrect] *)
Definition balanced (r : ChunkRecord) : Prop :=
  cr_attempts r = (cr_correct r + cr_incorrect r)%Z.

(** Sum of a counter over the values of a dictionary. *)
Definition total {V : Type} (f : V -> Z) (d : Dict.t V) : Z :=
  fold_right (fun e acc => (f (snd e) + acc)%Z) 0%Z d.

(** Every character of [s] satisfies [p]. *)
Fixpoint all_chars (p : ascii -> bool) (s : string) : bool :=
  match s with
  | EmptyString => true
  | String c s' => p c && all_chars p s'
  end.

(** [s] does not start with a character that satisfies [p]. *)
Definition not_headed_by (p : ascii -> bool) (s : string) : bool :=
  match s with
  | EmptyString => true
  | String c _ => negb (p c)
  end.

(** The chunk map of a rollup that may not exist yet. *)
Definition chunks_of (o : option FileRollup) : Dict.t Metrics :=
  match o with Some r => f_chunks r | None => [] end.

(** Every chunk key of a table of rollups sits under its own file
    identifier. *)
Definition consistent (files : Dict.t FileRollup) : Prop :=
  forall fh r k,
    Dict.get fh files = Some r -> Dict.mem k (f_chunks r) = true ->
    bucket_of k = fh.

(** A character that can start one of the two quote markers. *)
Definition starts_marker (a : ascii) : bool :=
  Re.one_of "E" "e" a || Re.chr "q" a.

(** The text [s] starts with a chunk token whose number is [d]: "Chunk" or
    "chunk", whitespace or none, then the digits [d], at least one and as
    many as there are. *)
Definition chunk_token (s d : string) : Prop :=
  exists c ws post,
    s = String c "hunk" ++ ws ++ d ++ post
    /\ (c = "C" \/ c = "c")%char
    /\ all_chars Re.is_space ws = true
    /\ all_chars Re.is_digit d = true
    /\ PyStr.nonempty d = true
    /\ not_headed_by Re.is_digit post = true.

(** A marker of the first substitution of [format_topic_name]: "EXACT" or
    "eXACT", whitespace (at least one character), "quote", whitespace or
    none, a colon. *)
Definition exact_quote_marker (m : string) : Prop :=
  exists c ws ws',
    m = String c "XACT" ++ ws ++ "quote" ++ ws' ++ ":"
    /\ (c = "E" \/ c = "e")%char
    /\ all_chars Re.is_space ws = true
    /\ PyStr.nonempty ws = true
    /\ all_chars Re.is_space ws' = true.

(** A marker of the second substitution: "quote", whitespace or none, a
    colon. *)
Definition quote_marker (m : string) : Prop :=
  exists ws',
    m = "quote" ++ ws' ++ ":" /\ all_chars Re.is_space ws' = true.

(** The text [s] starts with a marker. *)
Definition starts_with (marker : string -> Prop) (s : string) : Prop :=
  exists m rest, marker m /\ s = m ++ rest.

(** One when the chunk has an attempt, zero otherwise. *)
Definition with_data (perf : Metrics) : Z :=
  if (0 <? m_attempts perf)%Z then 1%Z else 0%Z.

(** A filename that is neither missing, nor empty, nor the placeholder. *)
Definition real_filename (filename : option string) : bool :=
  PyStr.truthy filename && negb (is_unknown_file filename).

(** A rollup is in step with its own chunk map. *)
Record rollup_sound (fh : string) (r : FileRollup) : Prop := {
  sound_file_hash : f_file_hash r = fh;
  sound_attempts : f_total_attempts r = total m_attempts (f_chunks r);
  sound_correct : f_total_correct r = total m_correct (f_chunks r);
  sound_incorrect : f_total_incorrect r = total m_incorrect (f_chunks r);
  sound_with_data : f_chunks_with_data r = total with_data (f_chunks r);
  sound_chunks : f_chunks r <> []
}.

(** The registry entry that a ledger record can supply: its file identifier
    and its filename, when the key has the form of a chunk key and the
    filename is neither empty nor the placeholder. *)
Definition backfill_candidate (item : string * ChunkRecord)
  : option (string * string) :=
  match cr_filename (snd item) with
  | Some filename =>
      if real_filename (Some filename)
         && PyStr.contains "_chunk_" (fst item)
      then Some (PyStr.split_head "_chunk_" (fst item), filename)
      else None
  | None => None
  end.

Definition is_info (e : Effect) : bool :=
  match e with Info _ => true | Saved _ _ => false end.

(** The world [w'] differs from [w] by registry entries of the user, all
    new and with a filename that is neither empty nor the placeholder. *)
Definition registry_extends (u : option string) (w w' : World) : Prop :=
  chunk_performance (store w' u) = chunk_performance (store w u)
  /\ (forall u', user_eqb u' u = false -> store w' u' = store w u')
  /\ (forall fh v, Dict.get fh (registry_of w u) = Some v ->
                   Dict.get fh (registry_of w' u) = Some v)
  /\ (forall fh v, Dict.get fh (registry_of w' u) = Some v ->
                   Dict.get fh (registry_of w u) = Some v
                   \/ real_filename (Some v) = true)
  /\ clock w' = clock w /\ ticks w' = ticks w.

(** A digit of a hexadecimal digest: 0-9 or a-f. *)
Definition is_hex (c : ascii) : bool :=
  let n := PyStr.code c in
  (((48 <=? n) && (n <=? 57)) || ((97 <=? n) && (n <=? 102)))%N.

(** A capital letter A-Z. *)
Definition is_upper_ascii (c : ascii) : bool :=
  let n := PyStr.code c in ((65 <=? n) && (n <=? 90))%N.

Definition no_colon (s : string) : Prop :=
  all_chars (fun c => negb (Ascii.eqb c ":")) s = true.

(** The regular expression can only match a text that ends with a colon. *)
Fixpoint ends_with_colon (r : Re.regex) : Prop :=
  match r with
  | Re.Cls p => forall c, p c = true -> c = ":"%char
  | Re.Seq _ r2 => ends_with_colon r2
  | Re.Rep _ _ => False
  | Re.Grp _ => False
  end.

(** The conditions of the loops of get_weak_areas and get_strong_areas. *)
Definition weak_item (threshold : PyFloat.t) (min_attempts : Z)
    (item : string * Metrics) : bool :=
  (min_attempts <=? m_attempts (snd item))%Z
  && PyFloat.ltb (m_accuracy (snd item)) threshold.

Definition strong_item (threshold : PyFloat.t) (min_attempts : Z)
    (item : string * Metrics) : bool :=
  (min_attempts <=? m_attempts (snd item))%Z
  && PyFloat.leb threshold (m_accuracy (snd item)).

(** The accuracy of the area compares equal to [q]. *)
Definition same_accuracy (q : PyFloat.t) (a : Area) : bool :=
  PyFloat.eqb (a_accuracy a) q.

(** The accuracy of the area is a number, not NaN. *)
Definition accuracy_is_number (a : Area) : Prop :=
  PyFloat.is_nan (a_accuracy a) = false.

(** The distinct elements of a list, in the order of their first
    occurrence. *)
Definition first_seen (l : list string) : list string :=
  fold_left (fun seen k =>
               if existsb (String.eqb k) seen then seen
               else (seen ++ [k])%list)
            l [].

(* ================================================================= *)
(** ** Sample data *)

(** Twelve answers with a question text under one key, every other one
    correct, and one answer under another key. *)
Definition sample_calls : list Call :=
  (List.map (fun n => mkCall "36975731_chunk_1" "Chunk 1 - Introduction"
                             (Nat.even n) "What is a chunk?" None
                             (Some "doc.pdf"))
            (seq 0 12)
   ++ [mkCall "" "Chunk 2 - Outlook" true "" None None])%list.

(** A ledger with one record: three of four answers correct. *)
Definition sample_ledger : Dict.t ChunkRecord :=
  [("36975731_chunk_1",
    mkChunkRecord 3 1 4 (Some "2024-01-02T10:00:00") "Chunk 1 - Introduction"
                  (Some "doc.pdf") [])].

(** A ledger whose record carries the placeholder filename. *)
Definition placeholder_ledger : Dict.t ChunkRecord :=
  [("36975731_chunk_1",
    mkChunkRecord 1 0 1 (Some "2024-01-02T10:00:00") "Chunk 1 - Introduction"
                  (Some "unknown_file") [])].

Definition sample_metrics (filename : option string) : Metrics :=
  mkMetrics 1 1 2 (accuracy_of 1 2) "Chunk 1 - Introduction" filename
            (Some "2024-01-02T10:00:00").

Definition sample_perf : Dict.t Metrics :=
  [("36975731_chunk_1", sample_metrics (Some "doc.pdf"));
   ("36975731_chunk_2", sample_metrics None);
   ("legacy key", sample_metrics None)].

(** A ledger whose record has 29 of 50 answers correct: the accuracy is the
    float 57.99999999999999. *)
Definition rounding_ledger : Dict.t ChunkRecord :=
  [("36975731_chunk_3",
    mkChunkRecord 29 21 50 (Some "2024-01-04T08:00:00") "Chunk 3 - Rounding"
                  None [])].

(** A ledger with a strong and a weak chunk. *)
Definition mixed_ledger : Dict.t ChunkRecord :=
  [("36975731_chunk_1",
    mkChunkRecord 3 1 4 (Some "2024-01-02T10:00:00") "Chunk 1 - Introduction"
                  (Some "doc.pdf") []);
   ("36975731_chunk_2",
    mkChunkRecord 1 3 4 (Some "2024-01-03T09:00:00") "Chunk 2 - Outlook"
                  None [])].

(* ================================================================= *)
(** * Properties *)

(** ** Dictionaries *)

Lemma user_eqb_refl : forall u, user_eqb u u = true.
Proof. intros [s|]; simpl; auto using String.eqb_refl. Qed.

Lemma user_eqb_eq : forall a b, user_eqb a b = true <-> a = b.
Proof.
  intros [x|] [y|]; simpl; split; intros H; try congruence.
  - apply String.eqb_eq in H. congruence.
  - inversion H. apply String.eqb_refl.
Qed.

Section DictFacts.
Context {V : Type}.
Implicit Types (d : Dict.t V) (k : string) (v : V).

Lemma get_set_same : forall d k v, Dict.get k (Dict.set k v d) = Some v.
Proof.
  induction d as [|[k' v'] d IH]; intros k v; simpl.
  - now rewrite String.eqb_refl.
  - destruct (String.eqb k k') eqn:E; simpl.
    + now rewrite String.eqb_refl.
    + rewrite E. apply IH.
Qed.

Lemma get_set_other : forall d k k' v,
  k <> k' -> Dict.get k' (Dict.set k v d) = Dict.get k' d.
Proof.
  induction d as [|[k0 v0] d IH]; intros k k' v Hne; simpl.
  - destruct (String.eqb_spec k' k); congruence.
  - destruct (String.eqb_spec k k0) as [->|Hk]; simpl.
    + destruct (String.eqb_spec k' k0); congruence.
    + destruct (String.eqb_spec k' k0); auto.
Qed.

Lemma mem_set_same : forall d k v, Dict.mem k (Dict.set k v d) = true.
Proof. intros. unfold Dict.mem. now rewrite get_set_same. Qed.

Lemma get_In : forall d k v, Dict.get k d = Some v -> In (k, v) d.
Proof.
  induction d as [|[k0 v0] d IH]; intros k v; simpl; [discriminate|].
  destruct (String.eqb_spec k k0) as [->|Hk]; intros H.
  - left. congruence.
  - right. auto.
Qed.

Lemma get_None_keys : forall d k, Dict.get k d = None -> ~ In k (Dict.keys d).
Proof.
  induction d as [|[k0 v0] d IH]; intros k; simpl; [tauto|].
  destruct (String.eqb_spec k k0) as [->|Hk]; [discriminate|].
  intros H [E|HI]; [congruence | eapply IH; eauto].
Qed.

Lemma In_get_wf : forall d k v,
  Dict.wf d -> In (k, v) d -> Dict.get k d = Some v.
Proof.
  unfold Dict.wf.
  induction d as [|[k0 v0] d IH]; intros k v Hwf HI; simpl in *; [tauto|].
  inversion Hwf as [|? ? Hnot Hwf']; subst.
  destruct HI as [E|HI].
  - inversion E; subst. now rewrite String.eqb_refl.
  - destruct (String.eqb_spec k k0) as [->|Hk].
    + exfalso. apply Hnot. change (In (fst (k0, v)) (List.map fst d)).
      now apply in_map.
    + auto.
Qed.

Lemma keys_set : forall d k v,
  Dict.keys (Dict.set k v d)
  = if Dict.mem k d then Dict.keys d else (Dict.keys d ++ [k])%list.
Proof.
  unfold Dict.mem.
  induction d as [|[k0 v0] d IH]; intros k v; simpl; [reflexivity|].
  destruct (String.eqb_spec k k0) as [->|Hk]; simpl; [reflexivity|].
  rewrite IH. destruct (Dict.get k d); reflexivity.
Qed.

Lemma wf_set : forall d k v, Dict.wf d -> Dict.wf (Dict.set k v d).
Proof.
  unfold Dict.wf. intros d k v Hwf. rewrite keys_set.
  destruct (Dict.mem k d) eqn:E; [assumption|].
  unfold Dict.mem in E. destruct (Dict.get k d) eqn:G; [discriminate|].
  apply get_None_keys in G.
  apply NoDup_rev in Hwf.
  rewrite <- (rev_involutive (Dict.keys d ++ [k])%list).
  apply NoDup_rev. rewrite rev_app_distr. simpl. constructor; auto.
  now rewrite <- in_rev.
Qed.

Lemma total_set : forall (f : V -> Z) d k v,
  total f (Dict.set k v d)
  = (total f d + f v
     - match Dict.get k d with Some old => f old | None => 0 end)%Z.
Proof.
  induction d as [|[k0 v0] d IH]; intros k v; simpl.
  - lia.
  - destruct (String.eqb_spec k k0) as [->|Hk]; simpl.
    + lia.
    + rewrite IH. lia.
Qed.
End DictFacts.

(** ** Recording answers *)


Lemma record_quiz_answer_effect :
  forall cid sr ic qt u fn w,
    let key := ledger_key cid sr in
    let e := entry key u w in
    let w' := snd (record_quiz_answer cid sr ic qt u fn w) in
    clock w' = clock w
    /\ ticks w' = (if PyStr.nonempty qt then S (S (ticks w)) else S (ticks w))
    /\ (forall u', u' <> u -> store w' u' = store w u')
    /\ file_mapping (store w' u) = file_mapping (store w u)
    /\ exists r,
        chunk_performance (store w' u) = Some (Dict.set key r (ledger_of w u))
        /\ cr_attempts r = (field e cr_attempts 0 + 1)%Z
        /\ cr_correct r
           = (field e cr_correct 0 + if ic then 1 else 0)%Z
        /\ cr_incorrect r
           = (field e cr_incorrect 0 + if ic then 0 else 1)%Z
        /\ cr_source_reference r = field e cr_source_reference sr
        /\ cr_questions r
           = if PyStr.nonempty qt
             then keep_last_10
                    (questions_of e
                     ++ [mkQuestion (PyStr.take 200 qt) ic
                                    (clock w (S (ticks w)))])%list
             else questions_of e.
Proof.
  intros cid sr ic qt u fn w key e w'.
  subst w'. unfold record_quiz_answer. fold key.
  unfold bind, ret, load_state, save_state, info, now.
  fold (ledger_of w u). fold (entry key u w). fold e. clearbody e.
  destruct (PyStr.nonempty qt) eqn:Hq; cbn -[PyStr.take keep_last_10];
    rewrite user_eqb_refl;
    (repeat split;
     [ intros u' Hu; destruct (user_eqb u' u) eqn:E; auto;
       apply user_eqb_eq in E; congruence
     | eexists; split; [reflexivity|];
       destruct e as [r|]; cbn -[PyStr.take keep_last_10];
       [ destruct (PyStr.truthy fn && negb (PyStr.truthy (cr_filename r)))
       | ]; cbn -[PyStr.take keep_last_10]; destruct ic;
       repeat split; try lia ]).
Qed.

(** The record that one call stores under its key, field by field. *)
Lemma record_quiz_answer_entry :
  forall cid sr ic qt u fn w,
    let key := ledger_key cid sr in
    let e := entry key u w in
    let w' := snd (record_quiz_answer cid sr ic qt u fn w) in
    entry key u w'
    = Some (mkChunkRecord
              (field e cr_correct 0 + if ic then 1 else 0)%Z
              (field e cr_incorrect 0 + if ic then 0 else 1)%Z
              (field e cr_attempts 0 + 1)%Z
              (Some (clock w (ticks w)))
              (field e cr_source_reference sr)
              (match e with
               | None => fn
               | Some r0 =>
                   if PyStr.truthy fn && negb (PyStr.truthy (cr_filename r0))
                   then fn else cr_filename r0
               end)
              (if PyStr.nonempty qt
               then keep_last_10
                      (questions_of e
                       ++ [mkQuestion (PyStr.take 200 qt) ic
                                      (clock w (S (ticks w)))])%list
               else questions_of e)).
Proof.
  intros cid sr ic qt u fn w key e w'.
  subst w'. unfold entry at 1, ledger_of, record_quiz_answer. fold key.
  unfold bind, ret, load_state, save_state, info, now.
  fold (ledger_of w u). fold (entry key u w). fold e. clearbody e.
  destruct (PyStr.nonempty qt) eqn:Hq; cbn -[PyStr.take keep_last_10];
    rewrite user_eqb_refl; cbn -[PyStr.take keep_last_10];
    rewrite get_set_same; f_equal;
    (destruct e as [r|]; cbn -[PyStr.take keep_last_10];
     [ destruct (PyStr.truthy fn && negb (PyStr.truthy (cr_filename r)))
     | ];
     unfold with_questions, with_last_attempt, count_answer, with_filename,
            new_record;
     cbn -[PyStr.take keep_last_10]; destruct ic;
     f_equal; try lia; reflexivity).
Qed.

(** What one call does to an entry of a ledger. *)
Lemma do_call_entry :
  forall c w k u,
    let e := entry k u w in
    let e' := entry k u (snd (do_call c w)) in
    if hits k u c then
      exists r,
        e' = Some r
        /\ cr_attempts r = (field e cr_attempts 0 + 1)%Z
        /\ cr_correct r
           = (field e cr_correct 0 + if c_is_correct c then 1 else 0)%Z
        /\ cr_incorrect r
           = (field e cr_incorrect 0 + if c_is_correct c then 0 else 1)%Z
        /\ cr_source_reference r
           = field e cr_source_reference (c_source_reference c)
        /\ cr_questions r
           = if PyStr.nonempty (c_question_text c)
             then keep_last_10
                    (questions_of e
                     ++ [mkQuestion (PyStr.take 200 (c_question_text c))
                                    (c_is_correct c)
                                    (clock w (S (ticks w)))])%list
             else questions_of e
    else e' = e.
Proof.
  intros c w k u e e'. subst e e'. unfold do_call.
  destruct (record_quiz_answer_effect (c_chunk_id c) (c_source_reference c)
              (c_is_correct c) (c_question_text c) (c_username c)
              (c_filename c) w)
    as (_ & _ & Hother & _ & r & Hperf & Hrest).
  unfold hits.
  destruct (String.eqb_spec
              (ledger_key (c_chunk_id c) (c_source_reference c)) k)
    as [Hk|Hk]; simpl.
  - destruct (user_eqb (c_username c) u) eqn:Hu.
    + apply user_eqb_eq in Hu. subst u. rewrite Hk in *.
      exists r. split; [|exact Hrest].
      unfold entry at 1, ledger_of at 1. rewrite Hperf. simpl.
      apply get_set_same.
    + unfold entry, ledger_of. rewrite Hother; [reflexivity|].
      intros ->. now rewrite user_eqb_refl in Hu.
  - destruct (user_eqb u (c_username c)) eqn:Hu.
    + apply user_eqb_eq in Hu. subst u.
      unfold entry at 1, ledger_of at 1. rewrite Hperf. simpl.
      now apply get_set_other.
    + unfold entry, ledger_of. rewrite Hother; [reflexivity|].
      intros ->. now rewrite user_eqb_refl in Hu.
Qed.

Lemma do_call_clock :
  forall c w,
    clock (snd (do_call c w)) = clock w
    /\ ticks (snd (do_call c w))
       = if PyStr.nonempty (c_question_text c) then S (S (ticks w))
         else S (ticks w).
Proof.
  intros c w. unfold do_call.
  destruct (record_quiz_answer_effect (c_chunk_id c) (c_source_reference c)
              (c_is_correct c) (c_question_text c) (c_username c)
              (c_filename c) w) as (Hc & Ht & _).
  auto.
Qed.

(** ** Counters of the ledger *)

Lemma run_calls_counts :
  forall calls w k u,
    let e := entry k u w in
    let e' := entry k u (run_calls calls w) in
    let hit := calls_for k u calls in
    field e' cr_attempts 0%Z
    = (field e cr_attempts 0 + Z.of_nat (List.length hit))%Z
    /\ field e' cr_correct 0%Z
       = (field e cr_correct 0
          + Z.of_nat (List.length (correct_ones hit)))%Z
    /\ field e' cr_incorrect 0%Z
       = (field e cr_incorrect 0
          + (Z.of_nat (List.length hit)
             - Z.of_nat (List.length (correct_ones hit))))%Z
    /\ (hit <> [] \/ e <> None -> e' <> None).
Proof.
  induction calls as [|c calls IH]; intros w k u.
  - simpl. repeat split; try lia. intros [H|H]; congruence.
  - cbn [run_calls]. cbv zeta.
    specialize (IH (snd (do_call c w)) k u). cbv zeta in IH.
    destruct IH as (Ha & Hc & Hi & Hne).
    pose proof (do_call_entry c w k u) as Hstep. cbv zeta in Hstep.
    unfold calls_for, correct_ones in *. cbn [filter].
    destruct (hits k u c) eqn:Hh.
    + destruct Hstep as (r & Hr & Hra & Hrc & Hri & _).
      rewrite Hr in *. cbn [field] in Ha, Hc, Hi.
      cbn [filter].
      destruct (c_is_correct c); cbn [List.length];
        rewrite ?Nat2Z.inj_succ; repeat split; try lia.
      all: intros _; apply Hne; right; congruence.
    + rewrite Hstep in *. repeat split; auto.
Qed.

Lemma balanced_step :
  forall c w u,
    (forall k r, entry k u w = Some r -> balanced r) ->
    forall k r, entry k u (snd (do_call c w)) = Some r -> balanced r.
Proof.
  intros c w u Hinv k r Hr.
  pose proof (do_call_entry c w k u) as Hstep. simpl in Hstep.
  destruct (hits k u c).
  - destruct Hstep as (r' & Hr' & Ha & Hc & Hi & _).
    rewrite Hr in Hr'. inversion Hr'; subst r'. unfold balanced.
    rewrite Ha, Hc, Hi.
    destruct (entry k u w) as [r0|] eqn:E; simpl.
    + specialize (Hinv k r0 E). unfold balanced in Hinv.
      destruct (c_is_correct c); lia.
    + destruct (c_is_correct c); lia.
  - rewrite Hstep in Hr. eauto.
Qed.

(** C3. After N calls of record_quiz_answer recorded under a key that was
    not in the ledger, k of them correct, the record of the key has
    attempts = N, correct = k and incorrect = N - k (calls for other keys or
    users may come in between); and when every record of a ledger has
    attempts = correct + incorrect, every record has it after any sequence of
    calls. *)
Theorem record_quiz_answer_counts :
  forall (calls : list Call) (w : World) (key : string)
         (username : option string),
    let N := Z.of_nat (List.length (calls_for key username calls)) in
    let k :=
      Z.of_nat (List.length (correct_ones (calls_for key username calls))) in
    (entry key username w = None ->
     calls_for key username calls <> [] ->
     exists r,
       entry key username (run_calls calls w) = Some r
       /\ cr_attempts r = N /\ cr_correct r = k
       /\ cr_incorrect r = (N - k)%Z)
    /\ ((forall key' r, entry key' username w = Some r -> balanced r) ->
        forall key' r,
          entry key' username (run_calls calls w) = Some r -> balanced r).
Proof.
  intros calls w key username N k. split.
  - intros Hnone Hhit.
    destruct (run_calls_counts calls w key username)
      as (Ha & Hc & Hi & Hne).
    rewrite Hnone in Ha, Hc, Hi. simpl in Ha, Hc, Hi.
    destruct (entry key username (run_calls calls w)) as [r|] eqn:E.
    + exists r. simpl in *. subst N k. repeat split; lia.
    + exfalso. apply Hne; auto.
  - clear N k. revert w.
    induction calls as [|c calls IH]; intros w Hinv; simpl; [exact Hinv|].
    apply IH. now apply balanced_step.
Qed.

(** ** Question history *)

Lemma keep_last_10_lastn : forall qs, keep_last_10 qs = lastn 10 qs.
Proof.
  intros qs. unfold keep_last_10, lastn.
  destruct (Nat.ltb_spec 10 (List.length qs)) as [H|H]; [reflexivity|].
  replace (List.length qs - 10) with 0 by lia. reflexivity.
Qed.

Lemma lastn_length : forall {A} n (l : list A),
  List.length (lastn n l) = Nat.min (List.length l) n.
Proof. intros. unfold lastn. rewrite length_skipn. lia. Qed.

Lemma lastn_snoc : forall {A} n (l : list A) x,
  lastn (S n) (l ++ [x]) = (lastn n l ++ [x])%list.
Proof.
  intros A n l x. unfold lastn. rewrite length_app. simpl List.length.
  replace (List.length l + 1 - S n) with (List.length l - n) by lia.
  rewrite skipn_app.
  replace (List.length l - n - List.length l) with 0 by lia.
  reflexivity.
Qed.

Lemma lastn_lastn : forall {A} n m (l : list A),
  n <= m -> lastn n (lastn m l) = lastn n l.
Proof.
  intros A n m l Hnm. unfold lastn. rewrite length_skipn, skipn_skipn.
  f_equal. lia.
Qed.

Lemma lastn_push : forall {A} n (l : list A) x,
  lastn (S n) (lastn (S n) l ++ [x]) = lastn (S n) (l ++ [x]).
Proof.
  intros. rewrite !lastn_snoc. rewrite lastn_lastn by lia. reflexivity.
Qed.

Lemma run_calls_questions :
  forall calls w k u past,
    questions_of (entry k u w) = lastn 10 past ->
    questions_of (entry k u (run_calls calls w))
    = lastn 10 (past ++ history k u (clock w) (ticks w) calls).
Proof.
  induction calls as [|c calls IH]; intros w k u past Hpast.
  - simpl. now rewrite app_nil_r.
  - cbn [run_calls history].
    pose proof (do_call_entry c w k u) as Hstep. cbv zeta in Hstep.
    destruct (do_call_clock c w) as [Hclk Htk].
    destruct (PyStr.nonempty (c_question_text c)) eqn:Hq.
    + destruct (hits k u c) eqn:Hh.
      * destruct Hstep as (r & Hr & _ & _ & _ & _ & Hqs).
        rewrite app_assoc.
        erewrite IH; [rewrite Hclk, Htk; reflexivity|].
        rewrite Hr. cbn [questions_of]. rewrite Hqs, Hpast.
        rewrite keep_last_10_lastn. apply lastn_push.
      * cbn [app].
        erewrite IH; [rewrite Hclk, Htk; reflexivity|]. now rewrite Hstep.
    + erewrite IH; [rewrite Hclk, Htk; reflexivity|].
      destruct (hits k u c) eqn:Hh.
      * destruct Hstep as (r & Hr & _ & _ & _ & _ & Hqs).
        rewrite Hr. cbn [questions_of]. now rewrite Hqs.
      * now rewrite Hstep.
Qed.

Lemma take_length : forall n s,
  String.length (PyStr.take n s) = Nat.min n (String.length s).
Proof.
  induction n as [|n IH]; intros [|c s]; simpl; auto.
Qed.

Lemma history_calls : forall calls k u clk t,
  List.map (fun q => (q_question q, q_correct q)) (history k u clk t calls)
  = List.map (fun c => (PyStr.take 200 (c_question_text c), c_is_correct c))
             (asked (calls_for k u calls)).
Proof.
  unfold asked, calls_for.
  induction calls as [|c calls IH]; intros k u clk t; [reflexivity|].
  cbn [history filter].
  destruct (PyStr.nonempty (c_question_text c)) eqn:Hq;
    destruct (hits k u c) eqn:Hh; cbn [filter app List.map];
    rewrite ?Hq; cbn [List.map]; rewrite ?IH; reflexivity.
Qed.

Lemma history_truncated : forall calls k u clk t,
  Forall (fun q => String.length (q_question q) <= 200)
         (history k u clk t calls).
Proof.
  induction calls as [|c calls IH]; intros k u clk t; cbn [history];
    [constructor|].
  destruct (PyStr.nonempty (c_question_text c)); [|apply IH].
  destruct (hits k u c); cbn [app]; [|apply IH].
  constructor; [|apply IH]. cbn [q_question]. rewrite take_length. lia.
Qed.

Lemma Forall_lastn : forall {A} (P : A -> Prop) n l,
  Forall P l -> Forall P (lastn n l).
Proof.
  intros A P n l H. unfold lastn.
  rewrite <- (firstn_skipn (List.length l - n) l) in H.
  apply Forall_app in H. tauto.
Qed.

(** C4. After any sequence of record_quiz_answer calls, for a key that was
    not in the ledger before, the questions list of the record is the last
    10 of the entries written by the calls recorded under the key with a
    non-empty question text (oldest first, with text, correctness and
    timestamp); it has min(n, 10) entries, n being the number of those calls,
    and every stored text has at most 200 characters. *)
Theorem record_quiz_answer_questions_bounded :
  forall (calls : list Call) (w : World) (key : string)
         (username : option string),
    entry key username w = None ->
    let written := history key username (clock w) (ticks w) calls in
    let n := List.length (asked (calls_for key username calls)) in
    let stored := questions_of (entry key username (run_calls calls w)) in
    stored = lastn 10 written
    /\ List.length stored = Nat.min n 10
    /\ List.map (fun q => (q_question q, q_correct q)) written
       = List.map (fun c => (PyStr.take 200 (c_question_text c),
                             c_is_correct c))
                  (asked (calls_for key username calls))
    /\ Forall (fun q => String.length (q_question q) <= 200) stored.
Proof.
  intros calls w key username Hnone written n stored.
  assert (Hs : stored = lastn 10 written).
  { subst stored written.
    apply (run_calls_questions calls w key username []).
    now rewrite Hnone. }
  assert (Hn : List.length written = n).
  { subst written n.
    rewrite <- (length_map (fun q => (q_question q, q_correct q))).
    rewrite history_calls. apply length_map. }
  repeat split.
  - exact Hs.
  - rewrite Hs, lastn_length. lia.
  - apply history_calls.
  - rewrite Hs. apply Forall_lastn, history_truncated.
Qed.

(** ** Reading the ledger *)

(** C2. get_chunk_performance returns zeroed metrics (counts 0, accuracy
    0.0) when the ledger is absent from the state or lacks the key; otherwise
    it returns the counters of the record, with accuracy
    correct / attempts * 100 when attempts > 0 and 0.0 when attempts is 0 (or
    less); it writes nothing.  The accuracy is the float that Python
    computes: the quotient of the two integers rounded to binary64, times
    100.0, rounded again (75.0 for 3 of 4, 57.99999999999999 for 29 of
    50). *)
Theorem get_chunk_performance_metrics :
  forall (chunk_id : string) (username : option string) (w : World),
    let m := fst (get_chunk_performance chunk_id username w) in
    let ledger := chunk_performance (store w username) in
    ((ledger = None
      \/ exists l, ledger = Some l /\ Dict.get chunk_id l = None) ->
     m_correct m = 0%Z /\ m_incorrect m = 0%Z /\ m_attempts m = 0%Z
     /\ m_accuracy m = PyFloat.zero /\ m_source_reference m = ""
     /\ m_last_attempt m = None)
    /\ (forall l r,
          ledger = Some l -> Dict.get chunk_id l = Some r ->
          m_correct m = cr_correct r /\ m_incorrect m = cr_incorrect r
          /\ m_attempts m = cr_attempts r
          /\ m_source_reference m = cr_source_reference r
          /\ m_last_attempt m = cr_last_attempt r
          /\ ((0 < cr_attempts r)%Z ->
              m_accuracy m
              = PyFloat.mul (PyFloat.true_div (cr_correct r) (cr_attempts r))
                            (PyFloat.of_int 100))
          /\ ((cr_attempts r <= 0)%Z -> m_accuracy m = PyFloat.zero))
    /\ snd (get_chunk_performance chunk_id username w) = w.
Proof.
  intros chunk_id username w m ledger. subst m.
  unfold get_chunk_performance, bind, load_state, ret. fold ledger.
  split; [|split].
  - intros [Hl | (l & Hl & Hk)]; rewrite Hl; cbn; [tauto|].
    rewrite Hk. cbn. tauto.
  - intros l r Hl Hk. rewrite Hl. cbn. rewrite Hk. cbn [field].
    unfold accuracy_of. repeat split.
    + intros Hpos. apply Z.ltb_lt in Hpos. now rewrite Hpos.
    + intros Hle. apply Z.ltb_ge in Hle. now rewrite Hle.
  - destruct ledger; reflexivity.
Qed.

(** ** Recording under the source reference *)

(** C10. A call of record_quiz_answer with an empty chunk_id is recorded
    under the key equal to source_reference: after the call that key holds a
    record with the counters of the record it held before (zero when there
    was none, and then the new record keeps the source reference) plus this
    answer, with the reading of the clock as last_attempt, with the
    filename of the call when there was no record or none with a filename,
    and with the question appended to the history (the last 10 are kept)
    when there is a question text; every other key of the ledger, the empty
    key among them, is as before. *)
Theorem record_quiz_answer_empty_chunk_id :
  forall (source_reference : string) (is_correct : bool)
         (question_text : string) (username filename : option string)
         (w : World),
    let before := entry source_reference username w in
    let w' :=
      snd (record_quiz_answer "" source_reference is_correct question_text
                              username filename w) in
    (exists r,
        entry source_reference username w' = Some r
        /\ cr_attempts r = (field before cr_attempts 0 + 1)%Z
        /\ cr_correct r
           = (field before cr_correct 0 + if is_correct then 1 else 0)%Z
        /\ cr_incorrect r
           = (field before cr_incorrect 0 + if is_correct then 0 else 1)%Z
        /\ cr_source_reference r
           = field before cr_source_reference source_reference
        /\ cr_last_attempt r = Some (clock w (ticks w))
        /\ cr_filename r
           = match before with
             | None => filename
             | Some r0 =>
                 if PyStr.truthy filename
                    && negb (PyStr.truthy (cr_filename r0))
                 then filename else cr_filename r0
             end
        /\ cr_questions r
           = if PyStr.nonempty question_text
             then keep_last_10
                    (questions_of before
                     ++ [mkQuestion (PyStr.take 200 question_text) is_correct
                                    (clock w (S (ticks w)))])%list
             else questions_of before)
    /\ (forall key, key <> source_reference ->
                    entry key username w' = entry key username w)
    /\ (source_reference <> "" ->
        entry "" username w' = entry "" username w).
Proof.
  intros sr ic qt u fn w before w'.
  pose (c := mkCall "" sr ic qt u fn).
  assert (Hother : forall key, key <> sr ->
                               entry key u w' = entry key u w).
  { intros key Hkey.
    pose proof (do_call_entry c w key u) as H. cbv zeta in H.
    unfold hits in H. cbn in H.
    destruct (String.eqb_spec sr key) as [E|E]; [congruence|].
    exact H. }
  split; [|split; [exact Hother|]].
  - pose proof (record_quiz_answer_entry "" sr ic qt u fn w) as H.
    cbv zeta in H. change (ledger_key "" sr) with sr in H.
    fold before in H. fold w' in H.
    eexists. split; [exact H|]. cbn -[PyStr.take keep_last_10].
    repeat split.
  - intros Hne. apply Hother. congruence.
Qed.

(** ** Registration *)

Lemma hexdigest_length : forall msg, String.length (MD5.hexdigest msg) = 32.
Proof.
  intros msg. unfold MD5.hexdigest.
  destruct (MD5.digest_state msg) as [[[a b] c] d]. reflexivity.
Qed.

Lemma file_hash_of_length : forall filename,
  String.length (file_hash_of filename) = 8.
Proof.
  intros. unfold file_hash_of. rewrite take_length, hexdigest_length.
  reflexivity.
Qed.

(** C5. Calling register_file twice with a filename (for the same user)
    returns the same identifier of 8 characters both times; the second call
    leaves the world as the first left it: no write, no event, the same
    registry.  The first call writes once and emits one event when the
    identifier was not registered, and nothing otherwise. *)
Theorem register_file_idempotent :
  forall (filename : string) (username : option string) (w : World),
    let first := register_file filename username w in
    let second := register_file filename username (snd first) in
    fst second = fst first
    /\ String.length (fst first) = 8
    /\ snd second = snd first
    /\ trace (snd second) = trace (snd first)
    /\ Dict.mem (fst first) (registry_of (snd first) username) = true
    /\ trace (snd first)
       = if Dict.mem (fst first) (registry_of w username) then trace w
         else (trace w
               ++ [Saved username
                         (mkState (Some (Dict.set (fst first) filename
                                                  (registry_of w username)))
                                  (chunk_performance (store w username)));
                   Info ("Registered file: " ++ filename ++ " -> "
                         ++ fst first)])%list.
Proof.
  intros filename username w first second.
  assert (Hfst : forall w0, fst (register_file filename username w0)
                            = file_hash_of filename).
  { intros w0. unfold register_file, bind, load_state, ret, save_state, info.
    destruct (negb _); reflexivity. }
  assert (Hreg : Dict.mem (file_hash_of filename)
                          (registry_of (snd first) username) = true).
  { subst first.
    unfold register_file, bind, load_state, ret, save_state, info.
    fold (registry_of w username).
    destruct (Dict.mem (file_hash_of filename) (registry_of w username))
      eqn:E; cbn.
    - exact E.
    - unfold registry_of. cbn. rewrite user_eqb_refl. cbn.
      apply mem_set_same. }
  assert (Hsnd : snd second = snd first).
  { subst second. generalize dependent (snd first). intros w1 Hw1.
    unfold register_file, bind, load_state, ret.
    fold (registry_of w1 username). rewrite Hw1. reflexivity. }
  repeat split.
  - subst first second. now rewrite !Hfst.
  - subst first. rewrite Hfst. apply file_hash_of_length.
  - exact Hsnd.
  - now rewrite Hsnd.
  - subst first. rewrite Hfst. exact Hreg.
  - subst first. rewrite Hfst.
    unfold register_file, bind, load_state, ret, save_state, info.
    fold (registry_of w username).
    destruct (Dict.mem (file_hash_of filename) (registry_of w username));
      cbn; [reflexivity|].
    rewrite <- app_assoc. reflexivity.
Qed.

(** ** Regular expressions *)

Lemma rep_greedy :
  forall {R} (p : ascii -> bool) ws min rest n (k : string -> nat -> option R) x,
    all_chars p ws = true ->
    not_headed_by p rest = true ->
    min <= String.length ws ->
    k rest (n + String.length ws) = Some x ->
    Re.rep p min (ws ++ rest) n k = Some x.
Proof.
  intros R p ws. induction ws as [|a ws IH]; intros min rest n k x Hall Hrest Hmin Hk.
  - simpl in *. replace min with 0 by lia. rewrite Nat.add_0_r in Hk.
    destruct rest as [|c rest]; simpl in *; [exact Hk|].
    apply negb_true_iff in Hrest. now rewrite Hrest.
  - simpl in Hall. apply andb_true_iff in Hall. destruct Hall as [Ha Hall].
    cbn [append Re.rep]. rewrite Ha.
    rewrite (IH (Nat.pred min) rest (S n) k x); auto.
    + simpl in Hmin. lia.
    + simpl in Hk. now rewrite Nat.add_succ_r in Hk.
Qed.

Lemma take_app_length : forall d post,
  PyStr.take (String.length d) (d ++ post) = d.
Proof. induction d as [|a d IH]; intros; simpl; [now destruct post|now rewrite IH]. Qed.

Lemma digit_not_space : forall a, Re.is_digit a = true -> Re.is_space a = false.
Proof.
  intros a. destruct a as [[] [] [] [] [] [] [] []]; cbn; congruence.
Qed.

Lemma chunk_re_match :
  forall c ws d post,
    Re.one_of "C" "c" c = true ->
    all_chars Re.is_space ws = true ->
    all_chars Re.is_digit d = true ->
    PyStr.nonempty d = true ->
    not_headed_by Re.is_digit post = true ->
    Re.match_at Re.chunk_re (String c "hunk" ++ ws ++ d ++ post)
    = Some (5 + String.length ws + String.length d, Some d).
Proof.
  intros c ws d post Hc Hws Hd Hne Hpost.
  unfold Re.match_at, Re.chunk_re. cbn [Re.run Re.lit append].
  rewrite Hc. cbn.
  apply rep_greedy; auto.
  - destruct d as [|a d]; [discriminate|]. cbn in *.
    apply andb_true_iff in Hd. destruct Hd as [Ha _].
    now rewrite (digit_not_space a Ha).
  - lia.
  - cbn [Re.run]. apply rep_greedy; auto.
    + destruct d; [discriminate|simpl; lia].
    + replace (5 + String.length ws + String.length d - (5 + String.length ws))
        with (String.length d) by lia.
      now rewrite take_app_length.
Qed.

Lemma rep_inv :
  forall {R} p s min n (k : string -> nat -> option R) x,
    Re.rep p min s n k = Some x ->
    exists ws rest,
      s = ws ++ rest /\ all_chars p ws = true
      /\ min <= String.length ws
      /\ k rest (n + String.length ws) = Some x.
Proof.
  intros R p s. induction s as [|c s IH]; intros min n k x H.
  - cbn in H. destruct (Nat.eqb_spec min 0); [|discriminate].
    exists "", "". cbn. rewrite Nat.add_0_r. repeat split; auto. lia.
  - cbn [Re.rep] in H.
    assert (Hstop : (if Nat.eqb min 0 then k (String c s) n else None)
                    = Some x ->
                    exists ws rest,
                      String c s = ws ++ rest /\ all_chars p ws = true
                      /\ min <= String.length ws
                      /\ k rest (n + String.length ws) = Some x).
    { intros H0. destruct (Nat.eqb_spec min 0); [|discriminate].
      exists "", (String c s). cbn. rewrite Nat.add_0_r.
      repeat split; auto. lia. }
    destruct (p c) eqn:Hp; [|now apply Hstop].
    destruct (Re.rep p (Nat.pred min) s (S n) k) as [y|] eqn:E;
      [|now apply Hstop].
    inversion H; subst y.
    destruct (IH _ _ _ _ E) as (ws & rest & Hs & Hall & Hmin & Hk).
    exists (String c ws), rest. cbn. rewrite Hp, Hall.
    repeat split; auto; [now rewrite Hs|lia|].
    now rewrite Nat.add_succ_r.
Qed.

Lemma app_assoc_s : forall a b c : string, (a ++ b) ++ c = a ++ b ++ c.
Proof. induction a as [|x a IH]; intros; cbn; [reflexivity|now rewrite IH]. Qed.

Lemma length_app_s : forall a b : string,
  String.length (a ++ b) = String.length a + String.length b.
Proof. induction a as [|x a IH]; intros; cbn; [reflexivity|now rewrite IH]. Qed.

Lemma run_cls_inv :
  forall {R} p s n g (k : string -> nat -> option string -> option R) x,
    Re.run (Re.Cls p) s n g k = Some x ->
    exists c s', s = String c s' /\ p c = true /\ k s' (S n) g = Some x.
Proof.
  intros R p s n g k x H. cbn [Re.run] in H.
  destruct s as [|c s]; [discriminate|].
  destruct (p c) eqn:E; [|discriminate]. eauto.
Qed.

Lemma run_seq_eq :
  forall {R} r1 r2 s n g (k : string -> nat -> option string -> option R),
    Re.run (Re.Seq r1 r2) s n g k
    = Re.run r1 s n g (fun s1 n1 g1 => Re.run r2 s1 n1 g1 k).
Proof. reflexivity. Qed.

Lemma run_rep_eq :
  forall {R} min p s n g (k : string -> nat -> option string -> option R),
    Re.run (Re.Rep min p) s n g k = Re.rep p min s n (fun s1 n1 => k s1 n1 g).
Proof. reflexivity. Qed.

Lemma run_grp_eq :
  forall {R} r s n g (k : string -> nat -> option string -> option R),
    Re.run (Re.Grp r) s n g k
    = Re.run r s n g
        (fun s1 n1 _ => k s1 n1 (Some (PyStr.take (n1 - n) s))).
Proof. reflexivity. Qed.

Lemma run_lit_split :
  forall {R} word r s n g (k : string -> nat -> option string -> option R) x,
    Re.run (Re.lit word r) s n g k = Some x ->
    exists s', s = word ++ s'
               /\ Re.run r s' (n + String.length word) g k = Some x.
Proof.
  intros R word. induction word as [|a word IH]; intros r s n g k x H.
  - cbn in *. exists s. now rewrite Nat.add_0_r.
  - cbn [Re.lit] in H. rewrite run_seq_eq in H. apply run_cls_inv in H.
    destruct H as (c & s0 & Hs0 & E & H). subst s.
    unfold Re.chr in E. apply Ascii.eqb_eq in E. subst c.
    destruct (IH _ _ _ _ _ _ H) as (s' & Hs & Hr).
    exists s'. cbn. rewrite Hs. split; [reflexivity|].
    now rewrite Nat.add_succ_r.
Qed.

Lemma run_lit_app :
  forall {R} word r s n g (k : string -> nat -> option string -> option R),
    Re.run (Re.lit word r) (word ++ s) n g k
    = Re.run r s (n + String.length word) g k.
Proof.
  intros R word. induction word as [|a word IH]; intros r s n g k.
  - cbn. now rewrite Nat.add_0_r.
  - cbn [Re.lit append]. rewrite run_seq_eq. cbn [Re.run].
    unfold Re.chr at 1. rewrite Ascii.eqb_refl.
    rewrite IH. cbn. now rewrite Nat.add_succ_r.
Qed.

(** The longest prefix of characters of a class. *)
Lemma longest_prefix : forall p s,
  exists a b,
    s = a ++ b /\ all_chars p a = true /\ not_headed_by p b = true.
Proof.
  intros p s. induction s as [|c s IH].
  - exists "", "". auto.
  - destruct (p c) eqn:E.
    + destruct IH as (a & b & Hs & Ha & Hb).
      exists (String c a), b. cbn. rewrite E, Ha, Hs. auto.
    + exists "", (String c s). cbn. rewrite E. auto.
Qed.

Lemma chunk_token_match : forall s d,
  chunk_token s d ->
  exists n, Re.match_at Re.chunk_re s = Some (n, Some d).
Proof.
  intros s d (c & ws & post & Hs & Hc & Hws & Hd & Hne & Hpost). subst s.
  eexists. apply chunk_re_match; auto.
  destruct Hc; subst; reflexivity.
Qed.

Lemma chunk_match_token : forall s n g,
  Re.match_at Re.chunk_re s = Some (n, g) ->
  exists d, g = Some d /\ chunk_token s d.
Proof.
  intros s n g Hm. pose proof Hm as H.
  unfold Re.match_at, Re.chunk_re in H.
  rewrite run_seq_eq in H. apply run_cls_inv in H.
  destruct H as (c & s1 & Hs & Hc & H).
  apply run_lit_split in H. destruct H as (s2 & Hs1 & H).
  rewrite run_seq_eq, run_rep_eq in H. apply rep_inv in H.
  destruct H as (ws & s3 & Hs2 & Hws & _ & H).
  rewrite run_grp_eq, run_rep_eq in H. apply rep_inv in H.
  destruct H as (d0 & post0 & Hs3 & Hd0 & Hmin & _).
  destruct (longest_prefix Re.is_digit s3) as (d & post & Hs3' & Hd & Hpost).
  assert (Hne : PyStr.nonempty d = true).
  { destruct d as [|a d]; [|reflexivity]. exfalso.
    cbn in Hs3'. rewrite Hs3' in Hs3. rewrite Hs3 in Hpost.
    destruct d0 as [|a0 d0]; [cbn in Hmin; lia|].
    cbn in Hd0, Hpost.
    apply andb_true_iff in Hd0. destruct Hd0 as [Ha0 _].
    rewrite Ha0 in Hpost. discriminate. }
  assert (Htok : chunk_token s d).
  { exists c, ws, post. rewrite Hs, Hs1, Hs2, Hs3'. repeat split; auto.
    unfold Re.one_of in Hc. apply orb_true_iff in Hc.
    destruct Hc as [Hc|Hc]; apply Ascii.eqb_eq in Hc; auto. }
  exists d. split; [|exact Htok].
  destruct (chunk_token_match s d Htok) as [n' Hm']. congruence.
Qed.

Lemma chunk_no_token : forall s,
  Re.match_at Re.chunk_re s = None <-> (forall d, ~ chunk_token s d).
Proof.
  intros s. split.
  - intros H d Htok. apply chunk_token_match in Htok.
    destruct Htok as [n Hn]. congruence.
  - intros H. destruct (Re.match_at Re.chunk_re s) as [[n g]|] eqn:E;
      [|reflexivity].
    apply chunk_match_token in E. destruct E as (d & _ & Htok).
    now destruct (H d).
Qed.

(** re.search *)
Lemma search_found : forall r pre rest n g,
  (forall pre' rest',
      pre ++ rest = pre' ++ rest' ->
      String.length pre' < String.length pre ->
      Re.match_at r rest' = None) ->
  Re.match_at r rest = Some (n, g) ->
  Re.search_group1 r (pre ++ rest)
  = Some (match g with Some t => t | None => "" end).
Proof.
  intros r pre. induction pre as [|a pre IH]; intros rest n g Hbefore Hm.
  - cbn [append]. destruct rest; cbn [Re.search_group1]; now rewrite Hm.
  - cbn [append Re.search_group1].
    rewrite (Hbefore "" (String a (pre ++ rest)) eq_refl) by (cbn; lia).
    apply (IH rest n g); [|exact Hm].
    intros pre' rest' Hs Hlen.
    apply (Hbefore (String a pre') rest'); cbn; [now rewrite Hs|lia].
Qed.

Lemma search_none : forall r s,
  (forall pre rest, s = pre ++ rest -> Re.match_at r rest = None) ->
  Re.search_group1 r s = None.
Proof.
  intros r s. induction s as [|a s IH]; intros H.
  - cbn. now rewrite (H "" "" eq_refl).
  - cbn [Re.search_group1]. rewrite (H "" (String a s) eq_refl).
    apply IH. intros pre rest Hs. apply (H (String a pre) rest).
    cbn. now rewrite Hs.
Qed.

Lemma search_cases : forall r s,
  (exists pre rest n g,
      s = pre ++ rest /\ Re.match_at r rest = Some (n, g)
      /\ forall pre' rest',
           s = pre' ++ rest' ->
           String.length pre' < String.length pre ->
           Re.match_at r rest' = None)
  \/ (forall pre rest, s = pre ++ rest -> Re.match_at r rest = None).
Proof.
  intros r s. induction s as [|a s IH].
  - destruct (Re.match_at r "") as [[n g]|] eqn:E.
    + left. exists "", "", n, g. repeat split; auto.
      intros pre' rest' _ Hlen. cbn in Hlen. lia.
    + right. intros pre rest Hs.
      destruct pre; [|discriminate]. cbn in Hs. now subst rest.
  - destruct (Re.match_at r (String a s)) as [[n g]|] eqn:E.
    + left. exists "", (String a s), n, g. repeat split; auto.
      intros pre' rest' _ Hlen. cbn in Hlen. lia.
    + destruct IH as [(pre & rest & n & g & Hs & Hm & Hbefore)|Hnone].
      * left. exists (String a pre), rest, n, g. subst s.
        repeat split; auto.
        intros pre' rest' Hs' Hlen. destruct pre' as [|b pre'].
        -- cbn in Hs'. now subst rest'.
        -- cbn in Hs'. inversion Hs'; subst.
           apply (Hbefore pre' rest'); [assumption|cbn in Hlen; lia].
      * right. intros pre rest Hs. destruct pre as [|b pre].
        -- cbn in Hs. now subst rest.
        -- cbn in Hs. inversion Hs; subst. eapply Hnone; eauto.
Qed.

(** ** Chunk keys from references *)

Lemma split_drop : forall pre rest : string,
  rest = PyStr.drop (String.length pre) (pre ++ rest).
Proof.
  induction pre as [|a pre IH]; intros rest; cbn; [now destruct rest|apply IH].
Qed.

(** C7 (amended). extract_chunk_id_from_reference takes the chunk number
    from the leftmost chunk token of the reference: "Chunk" or "chunk" (only
    the first letter may have either case), whitespace or none, and digits,
    all the digits that follow.  Whatever stands before that token, the
    number is its digits; a reference in which no position starts a token
    gives the number "unknown"; every reference is of one of the two kinds.
    So "Chunk 3" and "chunk 3" give 3, "CHUNK 3" and "Chunk - 3" give
    "unknown".  With a non-empty filename the result is
    "{identifier}_chunk_{number}". *)
Theorem extract_chunk_id_first_letter_case :
  forall (filename ref : string),
    PyStr.nonempty filename = true ->
    (forall pre rest d,
        ref = pre ++ rest ->
        chunk_token rest d ->
        (forall pre' rest' d',
            ref = pre' ++ rest' ->
            String.length pre' < String.length pre ->
            ~ chunk_token rest' d') ->
        extract_chunk_id_from_reference ref (Some filename)
        = file_hash_of filename ++ "_chunk_" ++ d)
    /\ ((forall pre rest d, ref = pre ++ rest -> ~ chunk_token rest d) ->
        extract_chunk_id_from_reference ref (Some filename)
        = file_hash_of filename ++ "_chunk_unknown")
    /\ ((exists pre rest d,
            ref = pre ++ rest /\ chunk_token rest d
            /\ forall pre' rest' d',
                 ref = pre' ++ rest' ->
                 String.length pre' < String.length pre ->
                 ~ chunk_token rest' d')
        \/ (forall pre rest d, ref = pre ++ rest -> ~ chunk_token rest d))
    /\ extract_chunk_id_from_reference "Chunk 3" (Some filename)
       = file_hash_of filename ++ "_chunk_3"
    /\ extract_chunk_id_from_reference "chunk 3" (Some filename)
       = file_hash_of filename ++ "_chunk_3"
    /\ extract_chunk_id_from_reference "CHUNK 3" (Some filename)
       = file_hash_of filename ++ "_chunk_unknown"
    /\ extract_chunk_id_from_reference "Chunk - 3" (Some filename)
       = file_hash_of filename ++ "_chunk_unknown".
Proof.
  intros filename ref Hfn.
  assert (Hkey : forall r number,
             (match Re.search_group1 Re.chunk_re r with
              | Some digits => digits
              | None => "unknown"
              end) = number ->
             extract_chunk_id_from_reference r (Some filename)
             = file_hash_of filename ++ "_chunk_" ++ number).
  { intros r number <-. unfold extract_chunk_id_from_reference.
    cbn [PyStr.truthy]. now rewrite Hfn. }
  split; [|split; [|split]].
  - intros pre rest d Href Htok Hleft. apply Hkey. subst ref.
    destruct (chunk_token_match rest d Htok) as [n Hm].
    rewrite (search_found Re.chunk_re pre rest n (Some d)); auto.
    intros pre' rest' Hs Hlen. apply chunk_no_token.
    intros d'. now apply (Hleft pre' rest' d').
  - intros Hnone. apply Hkey. rewrite search_none; [reflexivity|].
    intros pre rest Hs. apply chunk_no_token. intros d. eapply Hnone; eauto.
  - destruct (search_cases Re.chunk_re ref)
      as [(pre & rest & n & g & Hs & Hm & Hbefore)|Hnone].
    + left. apply chunk_match_token in Hm. destruct Hm as (d & _ & Htok).
      exists pre, rest, d. repeat split; auto.
      intros pre' rest' d' Hs' Hlen.
      now apply (proj1 (chunk_no_token rest') (Hbefore pre' rest' Hs' Hlen)).
    + right. intros pre rest d Hs.
      now apply (proj1 (chunk_no_token rest) (Hnone pre rest Hs)).
  - repeat split; apply Hkey; reflexivity.
Qed.

(** ** Quote markers *)

Lemma delete_skip : forall r m post,
  Re.delete_from r (String.length m) (m ++ post) = Re.delete_from r 0 post.
Proof.
  intros r m post. induction m as [|a m IH]; [reflexivity|].
  cbn [String.length append Re.delete_from]. exact IH.
Qed.

Lemma delete_pass :
  forall r (p : ascii -> bool),
    (forall c s, p c = false -> Re.match_at r (String c s) = None) ->
    forall pre t,
      all_chars (fun a => negb (p a)) pre = true ->
      Re.delete_from r 0 (pre ++ t) = pre ++ Re.delete_from r 0 t.
Proof.
  intros r p Hp pre t. induction pre as [|a pre IH]; intros Hall; [reflexivity|].
  simpl in Hall. apply andb_true_iff in Hall. destruct Hall as [Ha Hall].
  apply negb_true_iff in Ha.
  cbn [append Re.delete_from]. rewrite (Hp a _ Ha). now rewrite IH.
Qed.

Lemma exact_quote_re_first : forall c s,
  Re.one_of "E" "e" c = false ->
  Re.match_at Re.exact_quote_re (String c s) = None.
Proof.
  intros c s H. unfold Re.match_at, Re.exact_quote_re. cbn. now rewrite H.
Qed.

Lemma quote_re_first : forall c s,
  Re.chr "q" c = false -> Re.match_at Re.quote_re (String c s) = None.
Proof.
  intros c s H. unfold Re.match_at, Re.quote_re. cbn -[Re.chr]. now rewrite H.
Qed.

Lemma step1_pass : forall pre,
  all_chars (fun a => negb (starts_marker a)) pre = true ->
  all_chars (fun a => negb (Re.one_of "E" "e" a)) pre = true
  /\ all_chars (fun a => negb (Re.chr "q" a)) pre = true.
Proof.
  induction pre as [|a pre IH]; cbn [all_chars]; [auto|].
  intros H. apply andb_true_iff in H. destruct H as [Ha H].
  destruct (IH H) as [H1 H2]. rewrite H1, H2.
  unfold starts_marker in Ha. apply negb_true_iff, orb_false_iff in Ha.
  destruct Ha as [Ha1 Ha2]. rewrite Ha1, Ha2. auto.
Qed.

Lemma delete_Exact : forall post,
  Re.sub_delete Re.exact_quote_re ("Exact quote:" ++ post)
  = "Exact quote:" ++ Re.sub_delete Re.exact_quote_re post.
Proof. intros. reflexivity. Qed.

Lemma delete_exact : forall post,
  Re.sub_delete Re.exact_quote_re ("exact quote:" ++ post)
  = "exact quote:" ++ Re.sub_delete Re.exact_quote_re post.
Proof. intros. reflexivity. Qed.

Lemma delete_quote_after_Exact : forall t,
  Re.sub_delete Re.quote_re ("Exact quote:" ++ t)
  = "Exact " ++ Re.sub_delete Re.quote_re t.
Proof. intros. reflexivity. Qed.

Lemma delete_quote_after_exact : forall t,
  Re.sub_delete Re.quote_re ("exact quote:" ++ t)
  = "exact " ++ Re.sub_delete Re.quote_re t.
Proof. intros. reflexivity. Qed.

Lemma step1_prefix : forall pre t,
  all_chars (fun a => negb (starts_marker a)) pre = true ->
  Re.sub_delete Re.quote_re (Re.sub_delete Re.exact_quote_re (pre ++ t))
  = pre ++ Re.sub_delete Re.quote_re (Re.sub_delete Re.exact_quote_re t).
Proof.
  intros pre t Hpre. destruct (step1_pass pre Hpre) as [HE Hq].
  unfold Re.sub_delete.
  rewrite (delete_pass _ _ exact_quote_re_first) by exact HE.
  now rewrite (delete_pass _ _ quote_re_first) by exact Hq.
Qed.

Lemma exact_marker_match : forall m rest,
  exact_quote_marker m ->
  Re.match_at Re.exact_quote_re (m ++ rest) = Some (String.length m, None).
Proof.
  intros m rest (c & ws & ws' & Hm & Hc & Hws & Hne & Hws'). subst m.
  assert (Hc' : Re.one_of "E" "e" c = true)
    by (destruct Hc; subst; reflexivity).
  assert (E : (String c "XACT" ++ ws ++ "quote" ++ ws' ++ ":") ++ rest
              = String c ("XACT" ++ ws ++ "quote" ++ ws' ++ ":" ++ rest)).
  { rewrite !app_assoc_s. reflexivity. }
  rewrite E. unfold Re.match_at, Re.exact_quote_re.
  rewrite run_seq_eq. cbn [Re.run]. rewrite Hc'.
  rewrite run_lit_app, run_seq_eq, run_rep_eq.
  apply rep_greedy; auto.
  - destruct ws; [discriminate|cbn; lia].
  - rewrite run_lit_app, run_seq_eq, run_rep_eq.
    apply rep_greedy; auto; [lia|].
    cbn. repeat (rewrite length_app_s; cbn). do 2 f_equal. lia.
Qed.

Lemma exact_match_marker : forall s x,
  Re.match_at Re.exact_quote_re s = Some x ->
  starts_with exact_quote_marker s.
Proof.
  intros s x H. unfold Re.match_at, Re.exact_quote_re in H.
  rewrite run_seq_eq in H. apply run_cls_inv in H.
  destruct H as (c & s1 & Hs & Hc & H).
  apply run_lit_split in H. destruct H as (s2 & Hs1 & H).
  rewrite run_seq_eq, run_rep_eq in H. apply rep_inv in H.
  destruct H as (ws & s3 & Hs2 & Hws & Hmin & H).
  apply run_lit_split in H. destruct H as (s4 & Hs3 & H).
  rewrite run_seq_eq, run_rep_eq in H. apply rep_inv in H.
  destruct H as (ws' & s5 & Hs4 & Hws' & _ & H).
  apply run_cls_inv in H. destruct H as (c' & s6 & Hs5 & Hc'' & _).
  unfold Re.chr in Hc''. apply Ascii.eqb_eq in Hc''. subst c'.
  exists (String c "XACT" ++ ws ++ "quote" ++ ws' ++ ":"), s6. split.
  - exists c, ws, ws'. repeat split; auto.
    + unfold Re.one_of in Hc. apply orb_true_iff in Hc.
      destruct Hc as [Hc|Hc]; apply Ascii.eqb_eq in Hc; auto.
    + destruct ws; [cbn in Hmin; lia|reflexivity].
  - rewrite Hs, Hs1, Hs2, Hs3, Hs4, Hs5. rewrite !app_assoc_s. reflexivity.
Qed.

Lemma quote_marker_match : forall m rest,
  quote_marker m ->
  Re.match_at Re.quote_re (m ++ rest) = Some (String.length m, None).
Proof.
  intros m rest (ws' & Hm & Hws'). subst m.
  rewrite !app_assoc_s. unfold Re.match_at, Re.quote_re.
  rewrite run_lit_app, run_seq_eq, run_rep_eq.
  apply rep_greedy; auto; [lia|].
  cbn. rewrite !length_app_s. cbn. do 2 f_equal. lia.
Qed.

Lemma quote_match_marker : forall s x,
  Re.match_at Re.quote_re s = Some x -> starts_with quote_marker s.
Proof.
  intros s x H. unfold Re.match_at, Re.quote_re in H.
  apply run_lit_split in H. destruct H as (s4 & Hs3 & H).
  rewrite run_seq_eq, run_rep_eq in H. apply rep_inv in H.
  destruct H as (ws' & s5 & Hs4 & Hws' & _ & H).
  apply run_cls_inv in H. destruct H as (c' & s6 & Hs5 & Hc'' & _).
  unfold Re.chr in Hc''. apply Ascii.eqb_eq in Hc''. subst c'.
  exists ("quote" ++ ws' ++ ":"), s6. split.
  - exists ws'. auto.
  - rewrite Hs3, Hs4, Hs5. rewrite !app_assoc_s. reflexivity.
Qed.

Lemma delete_marker : forall r m rest g,
  PyStr.nonempty m = true ->
  Re.match_at r (m ++ rest) = Some (String.length m, g) ->
  Re.sub_delete r (m ++ rest) = Re.sub_delete r rest.
Proof.
  intros r m rest g Hne H. destruct m as [|a m]; [discriminate|].
  unfold Re.sub_delete. cbn [append String.length] in *.
  cbn [Re.delete_from]. rewrite H. apply delete_skip.
Qed.

Lemma delete_keep : forall r c s,
  Re.match_at r (String c s) = None ->
  Re.sub_delete r (String c s) = String c (Re.sub_delete r s).
Proof.
  intros r c s H. unfold Re.sub_delete. cbn [Re.delete_from]. now rewrite H.
Qed.

Lemma delete_prefix : forall r pre s,
  (forall pre1 pre2,
      pre = pre1 ++ pre2 -> PyStr.nonempty pre2 = true ->
      Re.match_at r (pre2 ++ s) = None) ->
  Re.sub_delete r (pre ++ s) = pre ++ Re.sub_delete r s.
Proof.
  intros r pre s. induction pre as [|a pre IH]; intros H; [reflexivity|].
  cbn [append]. rewrite delete_keep.
  - rewrite IH; [reflexivity|].
    intros pre1 pre2 Hp Hne. apply (H (String a pre1) pre2); [|exact Hne].
    cbn. now rewrite Hp.
  - apply (H "" (String a pre)); reflexivity.
Qed.

(** C9 (amended). Step 1 of format_topic_name is two substitutions, one
    after the other.  The first deletes, from left to right, every marker
    made of "EXACT" or "eXACT" (only the first letter may have either case),
    whitespace, "quote", whitespace or none, and a colon, and keeps every
    character at which no such marker starts; the second does the same with
    the markers made of "quote", whitespace or none, and a colon.  So a
    marker spelled "EXACT" or "eXACT" is gone from the working text, while
    with the spellings "Exact" and "exact" only "quote:" is deleted and the
    word stays. *)
Theorem format_topic_name_strips_EXACT_quote :
  let strip_exact := Re.sub_delete Re.exact_quote_re in
  let strip_quote := Re.sub_delete Re.quote_re in
  (forall ref, format_topic_name_step1 ref = strip_quote (strip_exact ref))
  /\ (strip_exact "" = ""
      /\ (forall m rest,
            exact_quote_marker m -> strip_exact (m ++ rest) = strip_exact rest)
      /\ (forall c s,
            ~ starts_with exact_quote_marker (String c s) ->
            strip_exact (String c s) = String c (strip_exact s)))
  /\ (strip_quote "" = ""
      /\ (forall m rest,
            quote_marker m -> strip_quote (m ++ rest) = strip_quote rest)
      /\ (forall c s,
            ~ starts_with quote_marker (String c s) ->
            strip_quote (String c s) = String c (strip_quote s)))
  /\ (forall pre m post,
        exact_quote_marker m ->
        (forall pre1 pre2,
            pre = pre1 ++ pre2 -> PyStr.nonempty pre2 = true ->
            ~ starts_with exact_quote_marker (pre2 ++ m ++ post)) ->
        strip_exact (pre ++ m ++ post) = pre ++ strip_exact post)
  /\ (forall pre m post,
        exact_quote_marker m ->
        all_chars (fun a => negb (starts_marker a)) pre = true ->
        format_topic_name_step1 (pre ++ m ++ post)
        = pre ++ format_topic_name_step1 post)
  /\ (forall pre post,
        all_chars (fun a => negb (starts_marker a)) pre = true ->
        format_topic_name_step1 (pre ++ "Exact quote:" ++ post)
        = pre ++ "Exact " ++ format_topic_name_step1 post
        /\ format_topic_name_step1 (pre ++ "exact quote:" ++ post)
           = pre ++ "exact " ++ format_topic_name_step1 post).
Proof.
  intros strip_exact strip_quote.
  assert (HE : forall m rest,
             exact_quote_marker m ->
             strip_exact (m ++ rest) = strip_exact rest).
  { intros m rest Hm. apply (delete_marker _ _ _ None).
    - destruct Hm as (c & ws & ws' & -> & _). reflexivity.
    - now apply exact_marker_match. }
  assert (HEk : forall c s,
             ~ starts_with exact_quote_marker (String c s) ->
             Re.match_at Re.exact_quote_re (String c s) = None).
  { intros c s Hn.
    destruct (Re.match_at Re.exact_quote_re (String c s)) eqn:E;
      [|reflexivity].
    apply exact_match_marker in E. contradiction. }
  split; [reflexivity|].
  split; [split; [reflexivity|split; [exact HE|]]|].
  { intros c s Hn. apply delete_keep. now apply HEk. }
  split; [split; [reflexivity|split]|].
  { intros m rest Hm. apply (delete_marker _ _ _ None).
    - destruct Hm as (ws' & -> & _). reflexivity.
    - now apply quote_marker_match. }
  { intros c s Hn. apply delete_keep.
    destruct (Re.match_at Re.quote_re (String c s)) eqn:E; [|reflexivity].
    apply quote_match_marker in E. contradiction. }
  split.
  { intros pre m post Hm Hpre. unfold strip_exact.
    rewrite delete_prefix.
    - f_equal. now apply HE.
    - intros pre1 pre2 Hp Hne. destruct pre2 as [|a pre2]; [discriminate|].
      apply HEk. exact (Hpre pre1 (String a pre2) Hp Hne). }
  split.
  { intros pre m post Hm Hpre. unfold format_topic_name_step1.
    rewrite (step1_prefix pre) by exact Hpre.
    fold strip_exact. now rewrite HE. }
  intros pre post Hpre. unfold format_topic_name_step1.
  rewrite !(step1_prefix pre) by exact Hpre.
  rewrite delete_Exact, delete_exact.
  rewrite delete_quote_after_Exact, delete_quote_after_exact.
  split; reflexivity.
Qed.

Lemma format_topic_name_strips_EXACT_quote_witness :
  format_topic_name_step1
    ("Chunk 3 - "
     ++ (String "e" "XACT" ++ String "009" " " ++ "quote" ++ " " ++ ":")
     ++ " 'AWS'")
  = "Chunk 3 - " ++ format_topic_name_step1 " 'AWS'".
Proof.
  refine (proj1 (proj2 (proj2 (proj2 (proj2
            format_topic_name_strips_EXACT_quote))))
            "Chunk 3 - "
            (String "e" "XACT" ++ String "009" " " ++ "quote" ++ " " ++ ":")
            " 'AWS'" _ eq_refl).
  exists "e"%char, (String "009" " "), " ". repeat split. now right.
Defined.

(** C9 as stated fails: with the spelling "Exact" the marker is not
    removed. *)
Lemma format_topic_name_keeps_Exact :
  ~ (forall word post : string,
        PyStr.lower word = "exact" ->
        format_topic_name_step1 (word ++ " quote:" ++ post)
        = format_topic_name_step1 post).
Proof.
  intros H. specialize (H "Exact" " 'AWS offers scalable cloud'" eq_refl).
  vm_compute in H. discriminate H.
Qed.

Lemma extract_chunk_id_first_letter_case_witness :
  extract_chunk_id_from_reference "Section 2, Chunk 3 - Intro"
                                  (Some "doc.pdf")
  = file_hash_of "doc.pdf" ++ "_chunk_" ++ "3".
Proof.
  refine (proj1 (extract_chunk_id_first_letter_case
                   "doc.pdf" "Section 2, Chunk 3 - Intro" eq_refl)
                "Section 2, " "Chunk 3 - Intro" "3" eq_refl _ _).
  - exists "C"%char, " ", " - Intro". repeat split. now left.
  - intros pre' rest' d' Hs Hlen Htok.
    apply chunk_token_match in Htok. destruct Htok as [n Hm].
    rewrite (split_drop pre' rest'), <- Hs in Hm.
    cbn [String.length] in Hlen.
    generalize dependent (String.length pre'). intros len Hlen Hm.
    do 11 (destruct len as [|len]; [vm_compute in Hm; discriminate Hm|]).
    lia.
Defined.

(** C7 as stated fails: "CHUNK 3" does not yield chunk number 3. *)
Lemma extract_chunk_id_CHUNK_unknown :
  extract_chunk_id_from_reference "CHUNK 3" (Some "doc.pdf")
  = "36975731_chunk_unknown"
  /\ extract_chunk_id_from_reference "CHUNK 3" (Some "doc.pdf")
     <> extract_chunk_id_from_reference "Chunk 3" (Some "doc.pdf").
Proof. split; [vm_compute; reflexivity | vm_compute; discriminate]. Qed.

(** ** Splitting a key at its first separator *)

Lemma startswith_app : forall p t, PyStr.startswith p (p ++ t) = true.
Proof.
  induction p as [|a p IH]; intros t; cbn; [reflexivity|].
  now rewrite Ascii.eqb_refl, IH.
Qed.

Lemma startswith_split : forall p s,
  PyStr.startswith p s = true -> s = p ++ PyStr.drop (String.length p) s.
Proof.
  induction p as [|a p IH]; intros s H; cbn in *; [reflexivity|].
  destruct s as [|b s]; [discriminate|].
  apply andb_true_iff in H. destruct H as [Hab H].
  apply Ascii.eqb_eq in Hab. subst b. cbn. f_equal. now apply IH.
Qed.

Lemma split_first_sound : forall sep s l r,
  PyStr.split_first sep s = Some (l, r) -> s = l ++ sep ++ r.
Proof.
  intros sep s. induction s as [|c s IH]; intros l r H.
  - cbn in H. destruct (PyStr.startswith sep "") eqn:E; [|discriminate].
    inversion H; subst. cbn. now apply startswith_split in E.
  - cbn [PyStr.split_first] in H.
    destruct (PyStr.startswith sep (String c s)) eqn:E.
    + inversion H; subst. cbn [append]. now apply startswith_split in E.
    + destruct (PyStr.split_first sep s) as [[l0 r0]|]; [|discriminate].
      inversion H; subst. cbn. f_equal. now apply IH.
Qed.

Lemma split_first_leftmost : forall sep s l r a b,
  PyStr.split_first sep s = Some (l, r) -> s = a ++ sep ++ b ->
  String.length l <= String.length a.
Proof.
  intros sep s. induction s as [|c s IH]; intros l r a b H Hs.
  - cbn in H. destruct (PyStr.startswith sep ""); [|discriminate].
    inversion H; subst. cbn. lia.
  - cbn [PyStr.split_first] in H.
    destruct (PyStr.startswith sep (String c s)) eqn:E.
    + inversion H; subst. cbn. lia.
    + destruct (PyStr.split_first sep s) as [[l0 r0]|] eqn:E0;
        [|discriminate].
      inversion H; subst. destruct a as [|a0 a].
      * cbn in Hs. rewrite Hs, startswith_app in E. discriminate.
      * cbn in Hs. inversion Hs; subst. cbn.
        specialize (IH l0 r a b eq_refl eq_refl). lia.
Qed.

Lemma split_first_complete : forall sep a b,
  PyStr.contains sep (a ++ sep ++ b) = true.
Proof.
  intros sep a b. unfold PyStr.contains.
  induction a as [|c a IH].
  - cbn [append]. destruct (sep ++ b) eqn:E; cbn [PyStr.split_first];
      rewrite <- E, startswith_app; reflexivity.
  - cbn [append PyStr.split_first].
    destruct (PyStr.startswith sep (String c (a ++ sep ++ b)));
      [reflexivity|].
    destruct (PyStr.split_first sep (a ++ sep ++ b)) as [[l r]|];
      [reflexivity|discriminate].
Qed.

(** The file identifier of a key, without reference to the way it is
    computed: the shortest prefix that is followed by "_chunk_", or
    "unknown" when "_chunk_" occurs nowhere in the key. *)
Lemma bucket_of_identifier : forall k,
  (exists rest,
      k = bucket_of k ++ "_chunk_" ++ rest
      /\ forall a b, k = a ++ "_chunk_" ++ b ->
                     String.length (bucket_of k) <= String.length a)
  \/ (bucket_of k = "unknown"
      /\ forall a b, k <> a ++ "_chunk_" ++ b).
Proof.
  intros k. unfold bucket_of, PyStr.split_head.
  destruct (PyStr.contains "_chunk_" k) eqn:Hc.
  - left. unfold PyStr.contains in Hc.
    destruct (PyStr.split_first "_chunk_" k) as [[l r]|] eqn:E;
      [|discriminate].
    exists r. split; [now apply split_first_sound|].
    intros a b Hk. eapply split_first_leftmost; eauto.
  - right. split; [reflexivity|].
    intros a b Hk. rewrite Hk, split_first_complete in Hc. discriminate.
Qed.

(** ** Aggregation per file *)

Lemma group_step_shape :
  forall u files k m w,
  exists filename,
    fst (group_step u files (k, m) w)
    = Dict.set (bucket_of k)
        (add_chunk k m
           (match Dict.get (bucket_of k) files with
            | Some r => rollup_with_filename r filename
            | None => new_rollup (bucket_of k) filename
            end))
        files.
Proof.
  intros u files k m w. unfold group_step, bind, ret.
  destruct (Dict.get (bucket_of k) files) as [r|].
  - destruct (refresh_filename (bucket_of k) m r u w) as [fn w'] eqn:E.
    exists fn. reflexivity.
  - destruct (seed_filename (bucket_of k) m u w) as [fn w'] eqn:E.
    exists fn. reflexivity.
Qed.

Lemma group_step_get :
  forall u files k m w fh,
    let files1 := fst (group_step u files (k, m) w) in
    if String.eqb (bucket_of k) fh then
      exists r1,
        Dict.get fh files1 = Some r1
        /\ f_chunks r1 = Dict.set k m (chunks_of (Dict.get fh files))
    else Dict.get fh files1 = Dict.get fh files.
Proof.
  intros u files k m w fh files1. subst files1.
  destruct (group_step_shape u files k m w) as [fn ->].
  destruct (String.eqb_spec (bucket_of k) fh) as [<-|Hne].
  - rewrite get_set_same. eexists. split; [reflexivity|].
    destruct (Dict.get (bucket_of k) files); reflexivity.
  - now apply get_set_other.
Qed.

Lemma group_step_total :
  forall u files k m w,
    let files1 := fst (group_step u files (k, m) w) in
    total f_total_attempts files1
    = (total f_total_attempts files + m_attempts m)%Z
    /\ total f_total_correct files1
       = (total f_total_correct files + m_correct m)%Z
    /\ total f_total_incorrect files1
       = (total f_total_incorrect files + m_incorrect m)%Z.
Proof.
  intros u files k m w files1. subst files1.
  destruct (group_step_shape u files k m w) as [fn ->].
  rewrite !total_set.
  destruct (Dict.get (bucket_of k) files) as [r|]; cbn; repeat split; lia.
Qed.

Lemma group_step_wf :
  forall u files item w,
    Dict.wf files -> Dict.wf (fst (group_step u files item w)).
Proof.
  intros u files [k m] w Hwf.
  destruct (group_step_shape u files k m w) as [fn ->].
  now apply wf_set.
Qed.

Lemma mem_set : forall {V} (d : Dict.t V) k k' v,
  Dict.mem k' (Dict.set k v d) = String.eqb k k' || Dict.mem k' d.
Proof.
  intros V d k k' v. unfold Dict.mem.
  destruct (String.eqb_spec k k') as [<-|Hne].
  - now rewrite get_set_same.
  - now rewrite get_set_other.
Qed.

Lemma group_step_consistent :
  forall u files item w,
    consistent files -> consistent (fst (group_step u files item w)).
Proof.
  intros u files [k m] w Hc fh r k' Hget Hmem.
  pose proof (group_step_get u files k m w fh) as Hstep. cbv zeta in Hstep.
  destruct (String.eqb_spec (bucket_of k) fh) as [Hb|Hb].
  - destruct Hstep as (r1 & Hr1 & Hch).
    rewrite Hget in Hr1. inversion Hr1; subst r1.
    rewrite Hch, mem_set in Hmem.
    destruct (String.eqb_spec k k') as [<-|Hk]; [exact Hb|].
    cbn in Hmem.
    destruct (Dict.get fh files) as [r0|] eqn:E; [|discriminate].
    eapply Hc; eauto.
  - rewrite Hstep in Hget. eapply Hc; eauto.
Qed.

(** The loop over the chunks, from any table of rollups. *)
Lemma group_loop :
  forall u items files w,
    let files' := fst (for_each items (group_step u) files w) in
    (total f_total_attempts files'
     = (total f_total_attempts files + total m_attempts items)%Z
     /\ total f_total_correct files'
        = (total f_total_correct files + total m_correct items)%Z
     /\ total f_total_incorrect files'
        = (total f_total_incorrect files + total m_incorrect items)%Z)
    /\ (Dict.wf files -> Dict.wf files')
    /\ (consistent files -> consistent files')
    /\ (forall fh r k,
          Dict.get fh files = Some r -> Dict.mem k (f_chunks r) = true ->
          exists r', Dict.get fh files' = Some r'
                     /\ Dict.mem k (f_chunks r') = true)
    /\ (forall fh r k v,
          Dict.get fh files = Some r -> Dict.get k (f_chunks r) = Some v ->
          ~ In k (Dict.keys items) ->
          exists r', Dict.get fh files' = Some r'
                     /\ Dict.get k (f_chunks r') = Some v)
    /\ (forall fh r' k,
          Dict.get fh files' = Some r' -> Dict.mem k (f_chunks r') = true ->
          Dict.mem k (chunks_of (Dict.get fh files)) = true
          \/ In k (Dict.keys items))
    /\ (forall k m,
          In (k, m) items ->
          exists r', Dict.get (bucket_of k) files' = Some r'
                     /\ Dict.mem k (f_chunks r') = true
                     /\ (Dict.wf items -> Dict.get k (f_chunks r') = Some m)).
Proof.
  intros u items. induction items as [|[k m] items IH]; intros files w.
  - cbv zeta. cbn [for_each]. unfold ret. cbn [fst].
    split; [cbn [total fold_right]; repeat split; lia|].
    cbn [Dict.keys List.map].
    split; [auto|]. split; [auto|].
    split; [intros fh r k Hg Hm; eauto|].
    split; [intros fh r k v Hg Hk _; eauto|].
    split; [intros fh r' k Hg Hm; left; now rewrite Hg|].
    intros k m [].
  - cbn [for_each]. unfold bind.
    destruct (group_step u files (k, m) w) as [files1 w1] eqn:E1.
    assert (Hf1 : files1 = fst (group_step u files (k, m) w))
      by now rewrite E1.
    specialize (IH files1 w1). cbv zeta in IH.
    destruct IH as (Htot & Hwf & Hcons & Hmem & Hget & Hback & Hin).
    pose proof (group_step_total u files k m w) as Hst. cbv zeta in Hst.
    rewrite <- Hf1 in Hst. destruct Hst as (Ha & Hc & Hi).
    destruct Htot as (Ha' & Hc' & Hi').
    cbv zeta. cbn [total fold_right snd].
    fold (total m_attempts items) (total m_correct items)
         (total m_incorrect items).
    split; [repeat split; lia|].
    split; [intros H; apply Hwf; rewrite Hf1; now apply group_step_wf|].
    split; [intros H; apply Hcons; rewrite Hf1;
            now apply group_step_consistent|].
    assert (Hstep : forall fh,
               if String.eqb (bucket_of k) fh then
                 exists r1, Dict.get fh files1 = Some r1
                   /\ f_chunks r1
                      = Dict.set k m (chunks_of (Dict.get fh files))
               else Dict.get fh files1 = Dict.get fh files).
    { intros fh. rewrite Hf1. apply group_step_get. }
    split; [|split; [|split; [|]]].
    + intros fh r k0 Hg Hm. specialize (Hstep fh).
      destruct (String.eqb (bucket_of k) fh).
      * destruct Hstep as (r1 & Hr1 & Hch).
        apply (Hmem fh r1 k0 Hr1). rewrite Hch, mem_set, Hg. cbn.
        rewrite Hm. apply orb_true_r.
      * apply (Hmem fh r k0); [congruence|exact Hm].
    + intros fh r k0 v Hg Hk Hnot. specialize (Hstep fh).
      cbn in Hnot.
      assert (Hne : k <> k0) by tauto.
      assert (Hno : ~ In k0 (Dict.keys items)) by tauto.
      destruct (String.eqb (bucket_of k) fh).
      * destruct Hstep as (r1 & Hr1 & Hch).
        apply (Hget fh r1 k0 v Hr1); [|exact Hno].
        rewrite Hch, Hg. cbn. now rewrite get_set_other.
      * apply (Hget fh r k0 v); [congruence|exact Hk|exact Hno].
    + intros fh r' k0 Hg Hm.
      destruct (Hback fh r' k0 Hg Hm) as [H1|H1]; [|right; cbn; tauto].
      specialize (Hstep fh).
      destruct (String.eqb (bucket_of k) fh).
      * destruct Hstep as (r1 & Hr1 & Hch).
        rewrite Hr1 in H1. cbn in H1. rewrite Hch, mem_set in H1.
        destruct (String.eqb_spec k k0) as [<-|Hk];
          [right; cbn; tauto | left; exact H1].
      * rewrite Hstep in H1. now left.
    + intros k0 m0 [Heq|HIn].
      * inversion Heq; subst k0 m0.
        pose proof (Hstep (bucket_of k)) as Hs.
        rewrite String.eqb_refl in Hs. destruct Hs as (r1 & Hr1 & Hch).
        assert (Hm1 : Dict.mem k (f_chunks r1) = true)
          by (rewrite Hch; apply mem_set_same).
        destruct (Hmem _ _ _ Hr1 Hm1) as (r' & Hr' & Hm').
        exists r'. repeat split; auto.
        intros Hwfi. unfold Dict.wf in Hwfi. cbn in Hwfi.
        inversion Hwfi as [|? ? Hnot Hnd]; subst.
        destruct (Hget (bucket_of k) r1 k m Hr1) as (r'' & Hr'' & Hk'');
          [rewrite Hch; apply get_set_same | exact Hnot |].
        congruence.
      * destruct (Hin k0 m0 HIn) as (r' & Hr' & Hm' & Hw').
        exists r'. repeat split; auto.
        intros Hwfi. apply Hw'. unfold Dict.wf in *. cbn in Hwfi.
        now inversion Hwfi.
Qed.

Lemma get_close : forall files fh,
  Dict.get fh (List.map (fun e => (fst e, close_rollup (snd e))) files)
  = option_map close_rollup (Dict.get fh files).
Proof.
  induction files as [|[k r] files IH]; intros fh; cbn; [reflexivity|].
  destruct (String.eqb fh k); [reflexivity|apply IH].
Qed.

Lemma keys_close : forall files,
  Dict.keys (List.map (fun e => (fst e, close_rollup (snd e))) files)
  = Dict.keys files.
Proof.
  induction files as [|[k r] files IH]; cbn; [reflexivity|].
  f_equal. exact IH.
Qed.

Lemma total_close : forall (f : FileRollup -> Z) files,
  (forall r, f (close_rollup r) = f r) ->
  total f (List.map (fun e => (fst e, close_rollup (snd e))) files)
  = total f files.
Proof.
  intros f files Hf. induction files as [|[k r] files IH]; cbn;
    [reflexivity|].
  rewrite Hf. f_equal. exact IH.
Qed.

Lemma group_chunks_by_file_unfold :
  forall all_perf u w,
    fst (group_chunks_by_file all_perf u w)
    = List.map (fun e => (fst e, close_rollup (snd e)))
        (fst (for_each all_perf (group_step u) []
                       (snd (backfill_file_mapping_from_chunks u w)))).
Proof.
  intros all_perf u w. unfold group_chunks_by_file, bind, ret.
  destruct (backfill_file_mapping_from_chunks u w) as [[] w1]. cbn [snd].
  destruct (for_each all_perf (group_step u) [] w1) as [files w2].
  reflexivity.
Qed.

(** C1. group_chunks_by_file partitions its input: the totals of the
    rollups add up to the totals of the input metrics (attempts, correct and
    incorrect); no file identifier has two rollups; every input chunk key is
    in the chunk map of exactly one rollup, where it holds the metrics of
    the key: the rollup of the prefix before the first "_chunk_" of the key
    (the key is that prefix, "_chunk_" and a rest, and no shorter prefix of
    the key is followed by "_chunk_"), or the rollup "unknown" when
    "_chunk_" occurs nowhere in the key; and the chunk maps hold no other
    keys. *)
Theorem group_chunks_by_file_partition :
  forall (all_perf : Dict.t Metrics) (username : option string) (w : World),
    let files := fst (group_chunks_by_file all_perf username w) in
    total f_total_attempts files = total m_attempts all_perf
    /\ total f_total_correct files = total m_correct all_perf
    /\ total f_total_incorrect files = total m_incorrect all_perf
    /\ Dict.wf files
    /\ (forall k m,
          In (k, m) all_perf ->
          exists fh r,
            Dict.get fh files = Some r
            /\ Dict.mem k (f_chunks r) = true
            /\ (Dict.wf all_perf -> Dict.get k (f_chunks r) = Some m)
            /\ (forall fh' r',
                  Dict.get fh' files = Some r' ->
                  Dict.mem k (f_chunks r') = true -> fh' = fh)
            /\ fh = bucket_of k
            /\ ((exists rest,
                    k = fh ++ "_chunk_" ++ rest
                    /\ forall a b,
                         k = a ++ "_chunk_" ++ b ->
                         String.length fh <= String.length a)
                \/ (fh = "unknown"
                    /\ forall a b, k <> a ++ "_chunk_" ++ b)))
    /\ (forall fh r k,
          Dict.get fh files = Some r -> Dict.mem k (f_chunks r) = true ->
          In k (Dict.keys all_perf)).
Proof.
  intros all_perf u w files. subst files.
  rewrite group_chunks_by_file_unfold.
  set (w1 := snd (backfill_file_mapping_from_chunks u w)).
  destruct (group_loop u all_perf [] w1)
    as ((Ha & Hc & Hi) & Hwf & Hcons & _ & _ & Hback & Hin).
  set (files := fst (for_each all_perf (group_step u) [] w1)) in *.
  assert (Hcons' : consistent files).
  { apply Hcons. intros fh r k Hg. discriminate Hg. }
  rewrite !total_close by reflexivity.
  split; [exact Ha|]. split; [exact Hc|]. split; [exact Hi|].
  split.
  { unfold Dict.wf. rewrite keys_close. apply Hwf. constructor. }
  split.
  - intros k m HIn.
    destruct (Hin k m HIn) as (r & Hr & Hm & Hw).
    exists (bucket_of k), (close_rollup r).
    split; [rewrite get_close, Hr; reflexivity|].
    split; [exact Hm|]. split; [exact Hw|].
    split; [|split; [reflexivity|apply bucket_of_identifier]].
    intros fh r' Hg Hm'. rewrite get_close in Hg.
    destruct (Dict.get fh files) as [r0|] eqn:E; [|discriminate].
    cbn in Hg. inversion Hg; subst r'. cbn in Hm'.
    symmetry. eapply Hcons'; eauto.
  - intros fh r k Hg Hm. rewrite get_close in Hg.
    destruct (Dict.get fh files) as [r0|] eqn:E; [|discriminate].
    cbn in Hg. inversion Hg; subst r. cbn in Hm.
    destruct (Hback fh r0 k E Hm) as [H|H]; [discriminate H|exact H].
Qed.

(** ** Instances on sample data *)

Lemma record_quiz_answer_counts_witness :
  exists r,
    entry "36975731_chunk_1" None
          (run_calls sample_calls (world_of empty_state)) = Some r
    /\ cr_attempts r = 12%Z /\ cr_correct r = 6%Z /\ cr_incorrect r = 6%Z.
Proof.
  apply (proj1 (record_quiz_answer_counts
                  sample_calls (world_of empty_state)
                  "36975731_chunk_1" None)).
  - reflexivity.
  - vm_compute. discriminate.
Defined.

Lemma record_quiz_answer_questions_bounded_witness :
  List.length
    (questions_of (entry "36975731_chunk_1" None
                         (run_calls sample_calls (world_of empty_state))))
  = 10.
Proof.
  exact (proj1 (proj2 (record_quiz_answer_questions_bounded
                         sample_calls (world_of empty_state)
                         "36975731_chunk_1" None eq_refl))).
Defined.

Lemma get_chunk_performance_metrics_witness :
  m_accuracy (fst (get_chunk_performance
                     "36975731_chunk_1" None
                     (world_of (mkState None (Some sample_ledger)))))
  = PyFloat.of_int 75
  /\ m_accuracy (fst (get_chunk_performance
                        "36975731_chunk_3" None
                        (world_of (mkState None (Some rounding_ledger)))))
     = S754_finite false 8162774324609023 (-47)
  /\ m_accuracy (fst (get_chunk_performance
                        "36975731_chunk_1" None (world_of empty_state)))
     = PyFloat.zero.
Proof.
  split; [|split].
  - destruct (get_chunk_performance_metrics
                "36975731_chunk_1" None
                (world_of (mkState None (Some sample_ledger))))
      as (_ & H & _).
    destruct (H sample_ledger
                (mkChunkRecord 3 1 4 (Some "2024-01-02T10:00:00")
                               "Chunk 1 - Introduction" (Some "doc.pdf") [])
                eq_refl eq_refl)
      as (_ & _ & _ & _ & _ & Hacc & _).
    rewrite Hacc by reflexivity. vm_compute. reflexivity.
  - destruct (get_chunk_performance_metrics
                "36975731_chunk_3" None
                (world_of (mkState None (Some rounding_ledger))))
      as (_ & H & _).
    destruct (H rounding_ledger
                (mkChunkRecord 29 21 50 (Some "2024-01-04T08:00:00")
                               "Chunk 3 - Rounding" None [])
                eq_refl eq_refl)
      as (_ & _ & _ & _ & _ & Hacc & _).
    rewrite Hacc by reflexivity. vm_compute. reflexivity.
  - destruct (get_chunk_performance_metrics
                "36975731_chunk_1" None (world_of empty_state))
      as (H & _ & _).
    destruct (H (or_introl eq_refl)) as (_ & _ & _ & Hacc & _).
    exact Hacc.
Defined.

Lemma record_quiz_answer_empty_chunk_id_witness :
  let w' :=
    snd (record_quiz_answer "" "Chunk 2 - Outlook" true "What is next?" None
                            (Some "doc.pdf")
                            (world_of (mkState None (Some sample_ledger)))) in
  (exists r,
      entry "Chunk 2 - Outlook" None w' = Some r
      /\ cr_attempts r = 1%Z /\ cr_correct r = 1%Z /\ cr_incorrect r = 0%Z
      /\ cr_source_reference r = "Chunk 2 - Outlook"
      /\ cr_last_attempt r = Some "2024-01-01T00:00:00"
      /\ cr_filename r = Some "doc.pdf"
      /\ cr_questions r
         = [mkQuestion "What is next?" true "2024-01-01T00:00:00"])
  /\ entry "36975731_chunk_1" None w'
     = Some (mkChunkRecord 3 1 4 (Some "2024-01-02T10:00:00")
                           "Chunk 1 - Introduction" (Some "doc.pdf") [])
  /\ entry "" None w' = None.
Proof.
  destruct (record_quiz_answer_empty_chunk_id
              "Chunk 2 - Outlook" true "What is next?" None (Some "doc.pdf")
              (world_of (mkState None (Some sample_ledger))))
    as ((r & Hr & Ha & Hc & Hi & Hs & Hl & Hf & Hq) & Hother & Hempty).
  split; [|split].
  - exists r. repeat split; assumption.
  - rewrite (Hother "36975731_chunk_1"); [reflexivity|discriminate].
  - rewrite Hempty; [reflexivity|discriminate].
Defined.

Lemma group_chunks_by_file_partition_witness :
  let files :=
    fst (group_chunks_by_file
           [("36975731_chunk_1", sample_metrics (Some "doc.pdf"));
            ("legacy key", sample_metrics None)]
           None (world_of empty_state)) in
  (exists r,
      Dict.get "unknown" files = Some r
      /\ Dict.mem "legacy key" (f_chunks r) = true)
  /\ (exists r,
        Dict.get "36975731" files = Some r
        /\ Dict.mem "36975731_chunk_1" (f_chunks r) = true).
Proof.
  intros files.
  pose proof (proj1 (proj2 (proj2 (proj2 (proj2
                (group_chunks_by_file_partition
                   [("36975731_chunk_1", sample_metrics (Some "doc.pdf"));
                    ("legacy key", sample_metrics None)]
                   None (world_of empty_state))))))) as H.
  cbv zeta in H. fold files in H. split.
  - destruct (H "legacy key" (sample_metrics None)
                (or_intror (or_introl eq_refl)))
      as (fh & r & Hr & Hm & _ & _ & _ & [(rest & Hk & _)|[Hfh _]]).
    + exfalso.
      pose proof (split_first_complete "_chunk_" fh rest) as Hc.
      rewrite <- Hk in Hc. vm_compute in Hc. discriminate Hc.
    + subst fh. exists r. split; assumption.
  - destruct (H "36975731_chunk_1" (sample_metrics (Some "doc.pdf"))
                (or_introl eq_refl))
      as (fh & r & Hr & Hm & _ & _ & Hfh & _).
    assert (E : fh = "36975731") by (rewrite Hfh; reflexivity).
    subst fh. exists r. split; assumption.
Defined.

(** ** The slug of a reference without a chunk number *)

(** C8 (amended). For "Some free text without chunk marker" and no filename,
    extract_chunk_id_from_reference returns the first 50 characters in lower
    case with spaces replaced by underscores,
    "some_free_text_without_chunk_marker"; this slug contains "_chunk_"
    (from " chunk "), so group_chunks_by_file puts it under the file
    identifier "some_free_text_without" and builds no other rollup. *)
Theorem slug_of_free_text :
  forall (perf : Metrics) (username : option string) (w : World),
    let ref := "Some free text without chunk marker" in
    let slug := extract_chunk_id_from_reference ref None in
    slug = "some_free_text_without_chunk_marker"
    /\ slug = PyStr.lower (PyStr.replace_space (PyStr.take 50 ref))
    /\ PyStr.contains "_chunk_" slug = true
    /\ Dict.keys (fst (group_chunks_by_file [(slug, perf)] username w))
       = ["some_free_text_without"].
Proof.
  intros perf u w ref slug.
  assert (Hs : slug = "some_free_text_without_chunk_marker")
    by (vm_compute; reflexivity).
  split; [exact Hs|]. split; [reflexivity|].
  split; [rewrite Hs; reflexivity|].
  rewrite Hs, group_chunks_by_file_unfold, keys_close.
  cbn [for_each]. unfold bind, ret.
  set (w1 := snd (backfill_file_mapping_from_chunks u w)).
  destruct (group_step_shape u [] "some_free_text_without_chunk_marker"
                             perf w1) as [fn Hfn].
  destruct (group_step u [] ("some_free_text_without_chunk_marker", perf) w1)
    as [files w2].
  cbn [fst] in *. rewrite Hfn. reflexivity.
Qed.

(** C8 as stated fails: the slug contains "_chunk_" and its file identifier
    is not "unknown". *)
Lemma slug_of_free_text_has_chunk_marker :
  PyStr.contains "_chunk_"
    (extract_chunk_id_from_reference
       "Some free text without chunk marker" None) = true
  /\ bucket_of (extract_chunk_id_from_reference
                  "Some free text without chunk marker" None)
     <> "unknown".
Proof. split; [vm_compute; reflexivity | vm_compute; discriminate]. Qed.

(** ** The placeholder filename *)

(** C6, at the inputs where the code departs from it.  A chunk whose only
    filename is "unknown_file" seeds its rollup with that filename when the
    registry is empty, and hands it to a rollup that has no filename yet;
    and record_quiz_answer does not replace a stored "unknown_file" by the
    filename of the call. *)
Theorem unknown_file_kept_as_filename :
  option_map f_filename
    (Dict.get "36975731"
       (fst (group_chunks_by_file
               [("36975731_chunk_1", sample_metrics (Some "unknown_file"))]
               None (world_of empty_state))))
  = Some (Some "unknown_file")
  /\ option_map f_filename
       (Dict.get "36975731"
          (fst (group_chunks_by_file
                  [("36975731_chunk_1", sample_metrics None);
                   ("36975731_chunk_2", sample_metrics (Some "unknown_file"))]
                  None (world_of empty_state))))
     = Some (Some "unknown_file")
  /\ option_map cr_filename
       (entry "36975731_chunk_1" None
          (snd (record_quiz_answer
                  "36975731_chunk_1" "Chunk 1 - Introduction" true ""
                  None (Some "doc.pdf")
                  (world_of (mkState None (Some placeholder_ledger))))))
     = Some (Some "unknown_file").
Proof. repeat split; vm_compute; reflexivity. Qed.

(* ================================================================= *)
(** * Further properties of the module *)

(** ** What a recorded answer writes *)

Lemma record_quiz_answer_store :
  forall cid sr ic qt u fn w,
    let key := ledger_key cid sr in
    let e := entry key u w in
    let w' := snd (record_quiz_answer cid sr ic qt u fn w) in
    exists r,
      store w' u = mkState (file_mapping (store w u))
                           (Some (Dict.set key r (ledger_of w u)))
      /\ trace w'
         = (trace w
            ++ [Saved u (store w' u);
                Info ("Recorded quiz answer for " ++ key ++ ": "
                      ++ (if ic then "correct" else "incorrect"))])%list
      /\ (forall u', store w' u'
                     = if user_eqb u' u then store w' u else store w u')
      /\ cr_last_attempt r = Some (clock w (ticks w))
      /\ cr_filename r
         = match e with
           | None => fn
           | Some r0 =>
               if PyStr.truthy fn && negb (PyStr.truthy (cr_filename r0))
               then fn else cr_filename r0
           end
      /\ cr_source_reference r = field e cr_source_reference sr.
Proof.
  intros cid sr ic qt u fn w key e w'.
  subst w'. unfold record_quiz_answer. fold key.
  unfold bind, ret, load_state, save_state, info, now.
  fold (ledger_of w u). fold (entry key u w). fold e. clearbody e.
  destruct (PyStr.nonempty qt) eqn:Hq; cbn -[PyStr.take keep_last_10];
    rewrite user_eqb_refl;
    (eexists; split; [reflexivity|]; split;
     [ rewrite <- app_assoc; reflexivity |];
     split; [intros u'; destruct (user_eqb u' u); reflexivity|];
     destruct e as [r0|]; cbn -[PyStr.take keep_last_10];
     [ destruct (PyStr.truthy fn && negb (PyStr.truthy (cr_filename r0)))
     | ]; cbn -[PyStr.take keep_last_10]; auto).
Qed.

(** X1. One call of record_quiz_answer persists once and emits one event,
    in this order; it changes nothing but the ledger of its user, where a
    key that is present keeps its place and a new key goes to the end; it
    reads the clock twice when there is a question text and once
    otherwise. *)
Theorem record_quiz_answer_writes_once :
  forall (chunk_id source_reference : string) (is_correct : bool)
         (question_text : string) (username filename : option string)
         (w : World),
    let key := ledger_key chunk_id source_reference in
    let w' :=
      snd (record_quiz_answer chunk_id source_reference is_correct
                              question_text username filename w) in
    trace w'
    = (trace w
       ++ [Saved username (store w' username);
           Info ("Recorded quiz answer for " ++ key ++ ": "
                 ++ (if is_correct then "correct" else "incorrect"))])%list
    /\ (forall u', store w' u'
                   = if user_eqb u' username then store w' username
                     else store w u')
    /\ file_mapping (store w' username) = file_mapping (store w username)
    /\ Dict.keys (ledger_of w' username)
       = (if Dict.mem key (ledger_of w username)
          then Dict.keys (ledger_of w username)
          else Dict.keys (ledger_of w username) ++ [key])%list
    /\ clock w' = clock w
    /\ ticks w' = (if PyStr.nonempty question_text then 2 else 1)
                  + ticks w.
Proof.
  intros cid sr ic qt u fn w key w'.
  destruct (record_quiz_answer_store cid sr ic qt u fn w)
    as (r & Hst & Htr & Hu & _).
  destruct (record_quiz_answer_effect cid sr ic qt u fn w)
    as (Hc & Ht & _).
  fold w' in Hst, Htr, Hu, Hc, Ht. fold key in Hst.
  repeat split; auto.
  - now rewrite Hst.
  - unfold ledger_of at 1. rewrite Hst. cbn. apply keys_set.
  - rewrite Ht. destruct (PyStr.nonempty qt); reflexivity.
Qed.

(** ** What a record keeps *)

Lemma do_call_identity :
  forall c w k u r,
    entry k u w = Some r ->
    exists r',
      entry k u (snd (do_call c w)) = Some r'
      /\ cr_source_reference r' = cr_source_reference r
      /\ (PyStr.truthy (cr_filename r) = true ->
          cr_filename r' = cr_filename r).
Proof.
  intros c w k u r Hr.
  pose proof (do_call_entry c w k u) as Hstep. cbv zeta in Hstep.
  destruct (hits k u c) eqn:Hh.
  - unfold hits in Hh. apply andb_true_iff in Hh. destruct Hh as [Hk Hu].
    apply String.eqb_eq in Hk. apply user_eqb_eq in Hu.
    destruct (record_quiz_answer_store (c_chunk_id c) (c_source_reference c)
                (c_is_correct c) (c_question_text c) (c_username c)
                (c_filename c) w) as (r1 & Hst & _ & _ & _ & Hfn & Hsr).
    subst k u. rewrite Hr in Hfn, Hsr. cbn in Hsr.
    exists r1. split.
    + unfold do_call, entry, ledger_of. rewrite Hst. cbn.
      apply get_set_same.
    + split; [exact Hsr|]. intros Ht. rewrite Hfn, Ht.
      now rewrite andb_false_r.
  - exists r. rewrite Hstep. auto.
Qed.

(** X2. A record of the ledger is never deleted by record_quiz_answer, its
    source_reference stays as it was set at creation, and its filename,
    once non-empty, is never replaced, whatever calls follow. *)
Theorem record_keeps_source_and_filename :
  forall (calls : list Call) (w : World) (key : string)
         (username : option string) (r : ChunkRecord),
    entry key username w = Some r ->
    exists r',
      entry key username (run_calls calls w) = Some r'
      /\ cr_source_reference r' = cr_source_reference r
      /\ (PyStr.truthy (cr_filename r) = true ->
          cr_filename r' = cr_filename r).
Proof.
  induction calls as [|c calls IH]; intros w key u r Hr.
  - exists r. auto.
  - cbn [run_calls].
    destruct (do_call_identity c w key u r Hr) as (r1 & Hr1 & Hs1 & Hf1).
    destruct (IH _ key u r1 Hr1) as (r' & Hr' & Hs' & Hf').
    exists r'. split; [exact Hr'|]. split; [congruence|].
    intros Ht. rewrite Hf'; [auto|]. now rewrite Hf1.
Qed.

Lemma record_keeps_source_and_filename_witness :
  exists r',
    entry "36975731_chunk_1" None
          (run_calls sample_calls
                     (world_of (mkState None (Some sample_ledger))))
    = Some r'
    /\ cr_source_reference r' = "Chunk 1 - Introduction"
    /\ (PyStr.truthy (Some "doc.pdf") = true ->
        cr_filename r' = Some "doc.pdf").
Proof.
  exact (record_keeps_source_and_filename
           sample_calls (world_of (mkState None (Some sample_ledger)))
           "36975731_chunk_1" None
           (mkChunkRecord 3 1 4 (Some "2024-01-02T10:00:00")
                          "Chunk 1 - Introduction" (Some "doc.pdf") [])
           eq_refl).
Defined.

(** ** Reading after writing *)

Lemma get_chunk_performance_entry :
  forall k u w,
    let m := fst (get_chunk_performance k u w) in
    let e := entry k u w in
    m_attempts m = field e cr_attempts 0%Z
    /\ m_correct m = field e cr_correct 0%Z
    /\ m_incorrect m = field e cr_incorrect 0%Z
    /\ m_last_attempt m = field e cr_last_attempt None
    /\ m_source_reference m = field e cr_source_reference ""
    /\ m_accuracy m = accuracy_of (m_correct m) (m_attempts m).
Proof.
  intros k u w. cbv zeta.
  unfold get_chunk_performance, bind, load_state, ret, entry, ledger_of.
  destruct (chunk_performance (store w u)) as [l|]; cbn.
  - repeat split.
  - repeat split.
Qed.

(** X3. Reading a key with get_chunk_performance after an answer was
    recorded under it shows one attempt more, one more correct or incorrect
    answer, the clock reading of the call as last attempt, and the accuracy
    of the new counters; this holds from any state, also without a ledger. *)
Theorem get_chunk_performance_after_record :
  forall (chunk_id source_reference : string) (is_correct : bool)
         (question_text : string) (username filename : option string)
         (w : World),
    let key := ledger_key chunk_id source_reference in
    let before := fst (get_chunk_performance key username w) in
    let after :=
      fst (get_chunk_performance key username
             (snd (record_quiz_answer chunk_id source_reference is_correct
                                      question_text username filename w))) in
    m_attempts after = (m_attempts before + 1)%Z
    /\ m_correct after
       = (m_correct before + if is_correct then 1 else 0)%Z
    /\ m_incorrect after
       = (m_incorrect before + if is_correct then 0 else 1)%Z
    /\ m_last_attempt after = Some (clock w (ticks w))
    /\ m_accuracy after = accuracy_of (m_correct after) (m_attempts after).
Proof.
  intros cid sr ic qt u fn w key before after.
  pose proof (get_chunk_performance_entry key u w) as Hb.
  pose proof (get_chunk_performance_entry key u
                (snd (record_quiz_answer cid sr ic qt u fn w))) as Ha.
  cbv zeta in Hb, Ha. fold before in Hb. fold after in Ha.
  destruct Hb as (Hb1 & Hb2 & Hb3 & _).
  destruct Ha as (Ha1 & Ha2 & Ha3 & Ha4 & _ & Ha6).
  destruct (record_quiz_answer_effect cid sr ic qt u fn w)
    as (_ & _ & _ & _ & r & Hperf & Hra & Hrc & Hri & _).
  destruct (record_quiz_answer_store cid sr ic qt u fn w)
    as (r2 & Hst & _ & _ & Hla & _).
  fold key in Hperf, Hra, Hrc, Hri, Hst.
  assert (He : entry key u (snd (record_quiz_answer cid sr ic qt u fn w))
               = Some r).
  { unfold entry at 1, ledger_of at 1. rewrite Hperf. cbn.
    apply get_set_same. }
  assert (He2 : entry key u (snd (record_quiz_answer cid sr ic qt u fn w))
                = Some r2).
  { unfold entry at 1, ledger_of at 1. rewrite Hst. cbn.
    apply get_set_same. }
  assert (r2 = r) by congruence. subst r2.
  rewrite He in Ha1, Ha2, Ha3, Ha4. cbn in Ha1, Ha2, Ha3, Ha4.
  repeat split; try congruence.
Qed.

(** ** All metrics of a ledger *)

Lemma set_absent : forall {V} (d : Dict.t V) k v,
  Dict.get k d = None -> Dict.set k v d = (d ++ [(k, v)])%list.
Proof.
  induction d as [|[k0 v0] d IH]; intros k v H; cbn in *; [reflexivity|].
  destruct (String.eqb k k0); [discriminate|]. now rewrite IH.
Qed.

Lemma get_app_None : forall {V} (d1 d2 : Dict.t V) k,
  Dict.get k d1 = None -> Dict.get k (d1 ++ d2)%list = Dict.get k d2.
Proof.
  induction d1 as [|[k0 v0] d1 IH]; intros d2 k H; cbn in *; [reflexivity|].
  destruct (String.eqb k k0); [discriminate|]. now apply IH.
Qed.

Lemma not_In_get_None : forall {V} (d : Dict.t V) k,
  ~ In k (Dict.keys d) -> Dict.get k d = None.
Proof.
  induction d as [|[k0 v0] d IH]; intros k H; cbn in *; [reflexivity|].
  destruct (String.eqb_spec k k0) as [->|Hne]; [tauto|]. apply IH. tauto.
Qed.

Lemma get_map_values : forall {V W} (g : V -> W) (d : Dict.t V) k,
  Dict.get k (List.map (fun e => (fst e, g (snd e))) d)
  = option_map g (Dict.get k d).
Proof.
  induction d as [|[k0 v0] d IH]; intros k; cbn; [reflexivity|].
  destruct (String.eqb k k0); [reflexivity|apply IH].
Qed.

Lemma fold_set_wf :
  forall {V W} (g : V -> W) (l : Dict.t V) (acc : Dict.t W),
    Dict.wf l ->
    (forall k, In k (Dict.keys l) -> Dict.get k acc = None) ->
    fold_left (fun result item => Dict.set (fst item) (g (snd item)) result)
              l acc
    = (acc ++ List.map (fun e => (fst e, g (snd e))) l)%list.
Proof.
  intros V W g l. induction l as [|[k v] l IH]; intros acc Hwf Hdis.
  - cbn. now rewrite app_nil_r.
  - cbn [fold_left fst snd List.map]. unfold Dict.wf in Hwf. cbn in Hwf.
    inversion Hwf as [|? ? Hnot Hnd]; subst.
    rewrite set_absent by (apply Hdis; cbn; auto).
    rewrite IH; [now rewrite <- app_assoc|exact Hnd|].
    intros k0 Hk0. rewrite get_app_None by (apply Hdis; cbn; auto).
    cbn. destruct (String.eqb_spec k0 k) as [->|Hne]; [tauto|reflexivity].
Qed.

Lemma get_all_chunk_performance_map :
  forall u w,
    Dict.wf (ledger_of w u) ->
    fst (get_all_chunk_performance u w)
    = List.map (fun e => (fst e, metrics_of (snd e))) (ledger_of w u).
Proof.
  intros u w Hwf.
  unfold get_all_chunk_performance, bind, load_state, ret, ledger_of in *.
  destruct (chunk_performance (store w u)) as [l|]; cbn in *; [|reflexivity].
  now rewrite fold_set_wf.
Qed.

(** X4. get_all_chunk_performance lists the keys of the ledger in their
    order and, for every key, the counters, accuracy, source reference and
    last attempt that get_chunk_performance reports for it, together with
    the stored filename; it writes nothing. *)
Theorem get_all_chunk_performance_agrees :
  forall (username : option string) (w : World),
    Dict.wf (ledger_of w username) ->
    let all_perf := fst (get_all_chunk_performance username w) in
    Dict.keys all_perf = Dict.keys (ledger_of w username)
    /\ snd (get_all_chunk_performance username w) = w
    /\ forall k m,
         Dict.get k all_perf = Some m ->
         let one := fst (get_chunk_performance k username w) in
         m_attempts m = m_attempts one /\ m_correct m = m_correct one
         /\ m_incorrect m = m_incorrect one
         /\ m_accuracy m = m_accuracy one
         /\ m_source_reference m = m_source_reference one
         /\ m_last_attempt m = m_last_attempt one
         /\ m_filename m = field (entry k username w) cr_filename None.
Proof.
  intros u w Hwf all_perf. subst all_perf.
  rewrite get_all_chunk_performance_map by exact Hwf.
  split; [|split].
  - unfold Dict.keys. rewrite map_map. reflexivity.
  - unfold get_all_chunk_performance, bind, load_state, ret.
    destruct (chunk_performance (store w u)); reflexivity.
  - intros k m Hm. rewrite get_map_values in Hm.
    fold (entry k u w) in Hm.
    unfold get_chunk_performance, bind, load_state, ret.
    unfold entry, ledger_of in *.
    destruct (chunk_performance (store w u)) as [l|]; cbn in *;
      [|discriminate].
    destruct (Dict.get k l) as [r|]; cbn in *; [|discriminate].
    inversion Hm; subst m. cbn. repeat split.
Qed.

Lemma run_calls_wf : forall calls w u,
  Dict.wf (ledger_of w u) -> Dict.wf (ledger_of (run_calls calls w) u).
Proof.
  induction calls as [|c calls IH]; intros w u Hwf; [exact Hwf|].
  cbn [run_calls]. apply IH. unfold do_call.
  destruct (record_quiz_answer_effect (c_chunk_id c) (c_source_reference c)
              (c_is_correct c) (c_question_text c) (c_username c)
              (c_filename c) w) as (_ & _ & Hother & _ & r & Hperf & _).
  destruct (user_eqb u (c_username c)) eqn:Hu.
  - apply user_eqb_eq in Hu. subst u. unfold ledger_of at 1.
    rewrite Hperf. cbn. now apply wf_set.
  - unfold ledger_of. rewrite Hother; [exact Hwf|].
    intros ->. now rewrite user_eqb_refl in Hu.
Qed.

Lemma get_all_chunk_performance_agrees_witness :
  Dict.keys (fst (get_all_chunk_performance
                    None (run_calls sample_calls (world_of empty_state))))
  = Dict.keys (ledger_of (run_calls sample_calls (world_of empty_state))
                         None).
Proof.
  refine (proj1 (get_all_chunk_performance_agrees
                   None (run_calls sample_calls (world_of empty_state)) _)).
  apply run_calls_wf. constructor.
Defined.

(** ** Summary *)

Lemma py_sum_total : forall {V} (f : V -> Z) (d : Dict.t V),
  py_sum (List.map f (Dict.values d)) = total f d.
Proof.
  intros V f d. unfold py_sum.
  assert (H : forall l a, fold_left Z.add l a = (a + fold_right Z.add 0 l)%Z).
  { induction l as [|x l IH]; intros a; cbn [fold_left fold_right]; [lia|].
    rewrite IH. lia. }
  rewrite H, Z.add_0_l. unfold total, Dict.values.
  induction d as [|[k v] d IH]; cbn [List.map fold_right snd];
    [reflexivity|]. now rewrite IH.
Qed.

Lemma total_map_values : forall {V W} (g : V -> W) (f : W -> Z) (d : Dict.t V),
  total f (List.map (fun e => (fst e, g (snd e))) d)
  = total (fun v => f (g v)) d.
Proof.
  unfold total.
  induction d as [|[k v] d IH]; cbn [List.map fold_right fst snd];
    [reflexivity|]. now rewrite IH.
Qed.

Lemma total_balanced : forall (d : Dict.t ChunkRecord),
  (forall k r, In (k, r) d -> balanced r) ->
  total cr_attempts d = (total cr_correct d + total cr_incorrect d)%Z.
Proof.
  unfold total.
  induction d as [|[k r] d IH]; intros H; cbn [fold_right snd];
    [reflexivity|].
  rewrite IH by (intros; eapply H; right; eauto).
  specialize (H k r (or_introl eq_refl)). unfold balanced in H. lia.
Qed.

(** X5. get_performance_summary reports the number of records of the
    ledger, the sums of their attempts, correct and incorrect answers, the
    number of records with an attempt (which is at most the number of
    records) and the accuracy of the sums; an absent or empty ledger gives
    the same figures, all zero.  When every record has
    attempts = correct + incorrect, so has the summary. *)
Theorem get_performance_summary_totals :
  forall (username : option string) (w : World),
    Dict.wf (ledger_of w username) ->
    let s := fst (get_performance_summary username w) in
    let ledger := ledger_of w username in
    s_total_chunks s = Z.of_nat (List.length ledger)
    /\ s_total_attempts s = total cr_attempts ledger
    /\ s_total_correct s = total cr_correct ledger
    /\ s_total_incorrect s = total cr_incorrect ledger
    /\ s_chunks_with_data s
       = Z.of_nat (List.length
                     (List.filter (fun e => (0 <? cr_attempts (snd e))%Z)
                                  ledger))
    /\ (0 <= s_chunks_with_data s <= s_total_chunks s)%Z
    /\ s_overall_accuracy s
       = accuracy_of (s_total_correct s) (s_total_attempts s)
    /\ ((forall k r, entry k username w = Some r -> balanced r) ->
        s_total_attempts s = (s_total_correct s + s_total_incorrect s)%Z).
Proof.
  intros u w Hwf s ledger.
  assert (Hs : s = mkSummary
                 (Z.of_nat (List.length ledger)) (total cr_attempts ledger)
                 (total cr_correct ledger) (total cr_incorrect ledger)
                 (accuracy_of (total cr_correct ledger)
                              (total cr_attempts ledger))
                 (Z.of_nat (List.length
                     (List.filter (fun e => (0 <? cr_attempts (snd e))%Z)
                                  ledger)))).
  { subst s. unfold get_performance_summary, bind, ret.
    pose proof (get_all_chunk_performance_map u w Hwf) as Hall.
    destruct (get_all_chunk_performance u w) as [all_perf w1].
    cbn [fst] in Hall. fold ledger in Hall. subst all_perf.
    destruct ledger as [|e ledger']; [reflexivity|].
    assert (Hne : forall (g : string * ChunkRecord -> string * Metrics),
               Dict.nonempty (List.map g (e :: ledger')) = true)
      by reflexivity.
    rewrite Hne. cbn [negb fst].
    generalize (e :: ledger'). intros l.
    rewrite !py_sum_total, !total_map_values, length_map.
    cbn [metrics_of m_attempts m_correct m_incorrect].
    f_equal. f_equal. unfold Dict.values. rewrite map_map.
    induction l as [|[k r] l IH]; [reflexivity|].
    simpl in IH |- *. destruct (0 <? cr_attempts r)%Z; simpl; congruence. }
  rewrite Hs. cbn. repeat split.
  - lia.
  - pose proof (filter_length_le (fun e => (0 <? cr_attempts (snd e))%Z)
                                 ledger). lia.
  - intros Hbal. apply total_balanced. intros k r HIn.
    apply (Hbal k). unfold entry. fold ledger. now apply In_get_wf.
Qed.

Lemma balanced_after_calls :
  forall calls k r,
    entry k None (run_calls calls (world_of empty_state)) = Some r ->
    balanced r.
Proof.
  intros calls.
  assert (H : forall w u,
             (forall k r, entry k u w = Some r -> balanced r) ->
             forall k r, entry k u (run_calls calls w) = Some r ->
                         balanced r).
  { induction calls as [|c calls IH]; intros w u Hinv; [exact Hinv|].
    cbn [run_calls]. apply IH. now apply balanced_step. }
  apply H. intros k r Hk. discriminate Hk.
Qed.

Lemma get_performance_summary_totals_witness :
  let s := fst (get_performance_summary
                  None (run_calls sample_calls (world_of empty_state))) in
  s_total_attempts s = (s_total_correct s + s_total_incorrect s)%Z.
Proof.
  refine (proj2 (proj2 (proj2 (proj2 (proj2 (proj2 (proj2
            (get_performance_summary_totals
               None (run_calls sample_calls (world_of empty_state)) _)))))))
            _).
  - apply run_calls_wf. constructor.
  - apply balanced_after_calls.
Defined.

(** ** Rollups, one by one *)

Lemma set_not_nil : forall {V} (d : Dict.t V) k v, Dict.set k v d <> [].
Proof.
  intros V [|[k0 v0] d] k v; cbn; [discriminate|].
  destruct (String.eqb k k0); discriminate.
Qed.

Lemma add_chunk_sound :
  forall fh r k m,
    f_file_hash r = fh ->
    f_total_attempts r = total m_attempts (f_chunks r) ->
    f_total_correct r = total m_correct (f_chunks r) ->
    f_total_incorrect r = total m_incorrect (f_chunks r) ->
    f_chunks_with_data r = total with_data (f_chunks r) ->
    Dict.get k (f_chunks r) = None ->
    rollup_sound fh (add_chunk k m r).
Proof.
  intros fh r k m Hh Ha Hc Hi Hd Hk.
  constructor; cbn [add_chunk f_file_hash f_total_attempts f_total_correct
                    f_total_incorrect f_chunks_with_data f_chunks].
  - exact Hh.
  - rewrite total_set, Hk. cbv beta iota. lia.
  - rewrite total_set, Hk. cbv beta iota. lia.
  - rewrite total_set, Hk. cbv beta iota. lia.
  - rewrite total_set, Hk. cbv beta iota. unfold with_data at 2.
    destruct (0 <? m_attempts m)%Z; lia.
  - apply set_not_nil.
Qed.

Lemma mem_false_get : forall {V} (d : Dict.t V) k,
  Dict.mem k d <> true -> Dict.get k d = None.
Proof.
  intros V d k H. unfold Dict.mem in H.
  destruct (Dict.get k d); [exfalso; auto|reflexivity].
Qed.

Lemma group_step_sound :
  forall u files k m w,
    (forall fh r, Dict.get fh files = Some r -> rollup_sound fh r) ->
    (forall fh r, Dict.get fh files = Some r ->
                  Dict.mem k (f_chunks r) <> true) ->
    forall fh r,
      Dict.get fh (fst (group_step u files (k, m) w)) = Some r ->
      rollup_sound fh r.
Proof.
  intros u files k m w Hs Hfresh fh r Hget.
  destruct (group_step_shape u files k m w) as [fn Hshape].
  rewrite Hshape in Hget.
  destruct (String.eqb_spec (bucket_of k) fh) as [<-|Hne].
  - rewrite get_set_same in Hget. inversion Hget; subst r. clear Hget.
    destruct (Dict.get (bucket_of k) files) as [r0|] eqn:E.
    + destruct (Hs _ _ E) as [H1 H2 H3 H4 H5 H6].
      apply add_chunk_sound; auto.
      cbn. apply mem_false_get. eapply Hfresh; eauto.
    + apply add_chunk_sound; reflexivity.
  - rewrite get_set_other in Hget by exact Hne. eauto.
Qed.

Lemma group_loop_sound :
  forall u items files w,
    Dict.wf items ->
    (forall fh r, Dict.get fh files = Some r -> rollup_sound fh r) ->
    (forall fh r k, Dict.get fh files = Some r ->
                    Dict.mem k (f_chunks r) = true ->
                    ~ In k (Dict.keys items)) ->
    forall fh r,
      Dict.get fh (fst (for_each items (group_step u) files w)) = Some r ->
      rollup_sound fh r.
Proof.
  intros u items. induction items as [|[k m] items IH];
    intros files w Hwf Hs Hfresh fh r Hget.
  - cbn in Hget. eauto.
  - cbn [for_each] in Hget. unfold bind in Hget.
    destruct (group_step u files (k, m) w) as [files1 w1] eqn:E1.
    assert (Hf1 : files1 = fst (group_step u files (k, m) w))
      by now rewrite E1.
    unfold Dict.wf in Hwf. cbn in Hwf.
    inversion Hwf as [|? ? Hnot Hnd]; subst x l.
    apply (IH files1 w1 Hnd) with (fh := fh); [| |exact Hget].
    + intros fh0 r0 H0. rewrite Hf1 in H0.
      eapply group_step_sound; eauto.
      intros fh1 r1 H1 Hm. apply (Hfresh fh1 r1 k H1 Hm). cbn. auto.
    + intros fh0 r0 k0 H0 Hm0 HIn.
      pose proof (group_step_get u files k m w fh0) as Hstep.
      cbv zeta in Hstep. rewrite <- Hf1 in Hstep.
      destruct (String.eqb (bucket_of k) fh0).
      * destruct Hstep as (r1 & Hr1 & Hch).
        assert (r1 = r0) by congruence. subst r1.
        rewrite Hch, mem_set in Hm0.
        destruct (String.eqb_spec k k0) as [<-|Hk]; [tauto|].
        cbn in Hm0.
        destruct (Dict.get fh0 files) as [r2|] eqn:E2; [|discriminate].
        apply (Hfresh fh0 r2 k0 E2 Hm0). cbn. auto.
      * rewrite Hstep in H0. apply (Hfresh fh0 r0 k0 H0 Hm0). cbn. auto.
Qed.

(** X6. In the result of group_chunks_by_file, the rollup stored under a
    file identifier carries that identifier in its file_hash field and has at
    least one chunk; its totals are the sums over its own chunk map, its
    chunks_with_data is the number of its chunks with attempts > 0, and its
    accuracy is that of its totals (0 when it has no attempts). *)
Theorem group_chunks_by_file_rollups_sound :
  forall (all_perf : Dict.t Metrics) (username : option string) (w : World)
         (fh : string) (r : FileRollup),
    Dict.wf all_perf ->
    Dict.get fh (fst (group_chunks_by_file all_perf username w)) = Some r ->
    rollup_sound fh r
    /\ f_accuracy r = accuracy_of (f_total_correct r) (f_total_attempts r)
    /\ f_last_attempt r
       = PyStr.max_opt (last_attempts (Dict.values (f_chunks r)))
    /\ ((f_total_attempts r <= 0)%Z -> f_accuracy r = PyFloat.zero).
Proof.
  intros all_perf u w fh r Hwf Hget.
  rewrite group_chunks_by_file_unfold, get_close in Hget.
  destruct (Dict.get fh _) as [r0|] eqn:E; [|discriminate].
  cbn in Hget. inversion Hget; subst r. clear Hget.
  assert (Hs : rollup_sound fh r0).
  { eapply group_loop_sound; [exact Hwf| | |exact E].
    - intros fh0 r1 H. discriminate H.
    - intros fh0 r1 k H. discriminate H. }
  destruct Hs as [H1 H2 H3 H4 H5 H6].
  split; [constructor; assumption|].
  split; [reflexivity|]. split; [reflexivity|].
  intros Hle. cbn in Hle |- *. unfold accuracy_of.
  apply Z.ltb_ge in Hle. now rewrite Hle.
Qed.

Lemma sample_perf_wf : Dict.wf sample_perf.
Proof.
  unfold Dict.wf. repeat constructor; cbn; intuition discriminate.
Defined.

Lemma group_chunks_by_file_rollups_sound_witness :
  exists r,
    Dict.get "36975731"
             (fst (group_chunks_by_file sample_perf None
                                        (world_of empty_state))) = Some r
    /\ rollup_sound "36975731" r.
Proof.
  eexists. split; [vm_compute; reflexivity|].
  refine (proj1 (group_chunks_by_file_rollups_sound
                   sample_perf None (world_of empty_state) "36975731" _
                   sample_perf_wf _)).
  vm_compute. reflexivity.
Defined.

(** ** Rollups and the summary *)

Lemma group_step_with_data :
  forall u files k m w,
    total f_chunks_with_data (fst (group_step u files (k, m) w))
    = (total f_chunks_with_data files + with_data m)%Z.
Proof.
  intros u files k m w.
  destruct (group_step_shape u files k m w) as [fn ->].
  rewrite total_set. unfold with_data.
  destruct (Dict.get (bucket_of k) files) as [r|];
    cbn [add_chunk f_chunks_with_data rollup_with_filename new_rollup];
    destruct (0 <? m_attempts m)%Z; lia.
Qed.

Lemma group_loop_with_data :
  forall u items files w,
    total f_chunks_with_data (fst (for_each items (group_step u) files w))
    = (total f_chunks_with_data files + total with_data items)%Z.
Proof.
  intros u items. induction items as [|[k m] items IH]; intros files w.
  - cbn [for_each]. unfold ret, total. cbn [fst fold_right]. lia.
  - cbn [for_each]. unfold bind.
    pose proof (group_step_with_data u files k m w) as Hs.
    destruct (group_step u files (k, m) w) as [files1 w1].
    cbn [fst] in Hs. rewrite IH, Hs. unfold total. cbn [fold_right snd]. lia.
Qed.

Lemma with_data_count : forall (d : Dict.t Metrics),
  total with_data d
  = Z.of_nat (List.length (List.filter (fun p => (0 <? m_attempts p)%Z)
                                       (Dict.values d))).
Proof.
  unfold total, Dict.values.
  induction d as [|[k m] d IH]; [reflexivity|].
  cbn [fold_right List.map filter snd]. rewrite IH. unfold with_data.
  destruct (0 <? m_attempts m)%Z; cbn [List.length]; lia.
Qed.

(** X7. The file rollups and the summary agree: grouping all the metrics of
    a ledger gives rollups whose attempts, correct and incorrect answers and
    chunks with data add up to the figures of get_performance_summary. *)
Theorem group_totals_match_summary :
  forall (username : option string) (w : World)
         (username' : option string) (w' : World),
    let all_perf := fst (get_all_chunk_performance username w) in
    let files := fst (group_chunks_by_file all_perf username' w') in
    let s := fst (get_performance_summary username w) in
    total f_total_attempts files = s_total_attempts s
    /\ total f_total_correct files = s_total_correct s
    /\ total f_total_incorrect files = s_total_incorrect s
    /\ total f_chunks_with_data files = s_chunks_with_data s.
Proof.
  intros u w u' w' all_perf files s.
  assert (Hs : s_total_attempts s = total m_attempts all_perf
               /\ s_total_correct s = total m_correct all_perf
               /\ s_total_incorrect s = total m_incorrect all_perf
               /\ s_chunks_with_data s = total with_data all_perf).
  { subst s all_perf. unfold get_performance_summary, bind, ret.
    destruct (get_all_chunk_performance u w) as [a w1]. cbn [fst].
    destruct a as [|e a]; [cbn; auto|].
    assert (Hne : Dict.nonempty (e :: a) = true) by reflexivity.
    rewrite Hne. cbn [negb fst s_total_attempts s_total_correct
                      s_total_incorrect s_chunks_with_data].
    rewrite !py_sum_total, with_data_count. auto. }
  destruct Hs as (-> & -> & -> & ->).
  subst files. rewrite group_chunks_by_file_unfold.
  set (w1 := snd (backfill_file_mapping_from_chunks u' w')).
  destruct (group_loop u' all_perf [] w1) as ((Ha & Hc & Hi) & _).
  pose proof (group_loop_with_data u' all_perf [] w1) as Hd.
  rewrite !total_close by reflexivity.
  rewrite Ha, Hc, Hi, Hd. unfold total. cbn [fold_right]. auto.
Qed.

(** ** Backfilling the registry *)

Lemma backfill_step_candidate :
  forall mapping updated item w,
    backfill_step (mapping, updated) item w
    = match backfill_candidate item with
      | Some (fh, fn) =>
          if Dict.mem fh mapping then ((mapping, updated), w)
          else ((Dict.set fh fn mapping, true),
                snd (info ("Backfilled file mapping: " ++ fn ++ " -> " ++ fh)
                          w))
      | None => ((mapping, updated), w)
      end.
Proof.
  intros mapping updated [k r] w.
  unfold backfill_step, backfill_candidate, real_filename. cbn [fst snd].
  destruct (cr_filename r) as [fn|]; [|reflexivity].
  cbn [PyStr.truthy is_unknown_file].
  destruct (PyStr.nonempty fn && negb (fn =? "unknown_file")%string);
    [|reflexivity].
  cbn [andb].
  destruct (PyStr.contains "_chunk_" k); [|reflexivity].
  destruct (Dict.mem (PyStr.split_head "_chunk_" k) mapping); reflexivity.
Qed.

Lemma backfill_loop :
  forall items mapping updated w,
    let res := for_each items backfill_step (mapping, updated) w in
    let mapping' := fst (fst res) in
    let w' := snd res in
    (forall fh v, Dict.get fh mapping = Some v ->
                  Dict.get fh mapping' = Some v)
    /\ (forall fh v,
          Dict.get fh mapping' = Some v ->
          Dict.get fh mapping = Some v
          \/ exists item, In item items
                          /\ backfill_candidate item = Some (fh, v))
    /\ (forall item fh v,
          In item items -> backfill_candidate item = Some (fh, v) ->
          Dict.mem fh mapping' = true)
    /\ (snd (fst res) = false -> updated = false /\ mapping' = mapping
                                 /\ w' = w)
    /\ (updated = true -> snd (fst res) = true)
    /\ store w' = store w /\ clock w' = clock w /\ ticks w' = ticks w
    /\ exists infos,
         trace w' = (trace w ++ infos)%list
         /\ forallb is_info infos = true
         /\ snd (fst res)
            = (updated || match infos with [] => false | _ => true end).
Proof.
  induction items as [|item items IH]; intros mapping updated w.
  - cbv zeta. cbn [for_each]. unfold ret. cbn [fst snd].
    split; [auto|]. split; [auto|]. split; [intros item fh v []|].
    split; [auto|]. split; [auto|].
    split; [reflexivity|]. split; [reflexivity|]. split; [reflexivity|].
    exists []. rewrite app_nil_r, orb_false_r. auto.
  - cbn [for_each]. unfold bind.
    rewrite backfill_step_candidate.
    destruct (backfill_candidate item) as [[fh0 fn0]|] eqn:Hc.
    + destruct (Dict.mem fh0 mapping) eqn:Hm.
      * specialize (IH mapping updated w). cbv zeta in IH |- *.
        destruct IH as (H1 & H2 & H3 & H4 & H5 & H6 & H7 & H8 & H9).
        split; [exact H1|].
        split; [intros fh v Hg; destruct (H2 fh v Hg) as [|(it & Hi & Hci)];
                [auto | right; exists it; cbn; auto]|].
        split.
        { intros it fh v [<-|HIn] Hci.
          - rewrite Hc in Hci. inversion Hci; subst fh0 fn0.
            unfold Dict.mem in *.
            destruct (Dict.get fh mapping) as [v0|] eqn:E; [|discriminate].
            now rewrite (H1 fh v0 E).
          - eapply H3; eauto. }
        exact (conj H4 (conj H5 (conj H6 (conj H7 (conj H8 H9))))).
      * specialize (IH (Dict.set fh0 fn0 mapping) true
                       (snd (info ("Backfilled file mapping: " ++ fn0
                                   ++ " -> " ++ fh0) w))).
        cbv zeta in IH |- *.
        destruct IH as (H1 & H2 & H3 & H4 & H5 & H6 & H7 & H8 & H9).
        assert (Hnone : Dict.get fh0 mapping = None).
        { unfold Dict.mem in Hm. now destruct (Dict.get fh0 mapping). }
        split.
        { intros fh v Hg. apply H1. rewrite get_set_other; [exact Hg|].
          intros ->. congruence. }
        split.
        { intros fh v Hg. destruct (H2 fh v Hg) as [Hs|(it & Hi & Hci)].
          - destruct (String.eqb_spec fh0 fh) as [<-|Hne].
            + rewrite get_set_same in Hs. inversion Hs; subst v.
              right. exists item. cbn. auto.
            + rewrite get_set_other in Hs by exact Hne. auto.
          - right. exists it. cbn. auto. }
        split.
        { intros it fh v [<-|HIn] Hci.
          - rewrite Hc in Hci. inversion Hci; subst fh0 fn0.
            unfold Dict.mem. now rewrite (H1 fh v (get_set_same _ _ _)).
          - eapply H3; eauto. }
        split.
        { intros Hf. rewrite H5 in Hf by reflexivity. discriminate. }
        split; [intros _; now apply H5|].
        split; [exact H6|]. split; [exact H7|]. split; [exact H8|].
        destruct H9 as (infos & Ht & Hi & _).
        exists (Info ("Backfilled file mapping: " ++ fn0 ++ " -> " ++ fh0)
                  :: infos).
        split; [|split].
        { rewrite Ht. cbn. now rewrite <- app_assoc. }
        { cbn. exact Hi. }
        { rewrite H5 by reflexivity. now rewrite orb_true_r. }
    + specialize (IH mapping updated w). cbv zeta in IH |- *.
      destruct IH as (H1 & H2 & H3 & H4 & H5 & H6 & H7 & H8 & H9).
      split; [exact H1|].
      split; [intros fh v Hg; destruct (H2 fh v Hg) as [|(it & Hi & Hci)];
              [auto | right; exists it; cbn; auto]|].
      split.
      { intros it fh v [<-|HIn] Hci; [congruence|eapply H3; eauto]. }
      exact (conj H4 (conj H5 (conj H6 (conj H7 (conj H8 H9))))).
Qed.

Lemma backfill_loop_noop :
  forall items mapping updated w,
    (forall item fh v,
        In item items -> backfill_candidate item = Some (fh, v) ->
        Dict.mem fh mapping = true) ->
    for_each items backfill_step (mapping, updated) w
    = ((mapping, updated), w).
Proof.
  induction items as [|item items IH]; intros mapping updated w H;
    [reflexivity|].
  cbn [for_each]. unfold bind. rewrite backfill_step_candidate.
  destruct (backfill_candidate item) as [[fh fn]|] eqn:Hc.
  - rewrite (H item fh fn (or_introl eq_refl) Hc).
    apply IH. intros it fh' v HIn. apply H. now right.
  - apply IH. intros it fh' v HIn. apply H. now right.
Qed.

Lemma backfill_candidate_real :
  forall item fh v,
    backfill_candidate item = Some (fh, v) ->
    real_filename (Some v) = true
    /\ cr_filename (snd item) = Some v
    /\ PyStr.contains "_chunk_" (fst item) = true
    /\ fh = bucket_of (fst item).
Proof.
  intros [k r] fh v. unfold backfill_candidate, bucket_of. cbn [fst snd].
  destruct (cr_filename r) as [fn|]; [|discriminate].
  destruct (real_filename (Some fn)) eqn:Hr; [|discriminate].
  destruct (PyStr.contains "_chunk_" k) eqn:Hc; [|discriminate].
  cbn. intros H. inversion H; subst. auto.
Qed.

Lemma backfill_unfold :
  forall u w,
    let ledger := ledger_of w u in
    let res := for_each ledger backfill_step (registry_of w u, false) w in
    snd (backfill_file_mapping_from_chunks u w)
    = if negb (Dict.nonempty ledger) then w
      else if snd (fst res)
           then snd (save_state (mkState (Some (fst (fst res)))
                                         (chunk_performance (store w u)))
                                u (snd res))
           else snd res.
Proof.
  intros u w. cbv zeta.
  unfold backfill_file_mapping_from_chunks, bind, load_state, ret.
  fold (ledger_of w u). fold (registry_of w u).
  destruct (negb (Dict.nonempty (ledger_of w u))); [reflexivity|].
  destruct (for_each (ledger_of w u) backfill_step (registry_of w u, false) w)
    as [[mapping updated] w1].
  cbn [fst snd]. destruct updated; reflexivity.
Qed.

Lemma backfill_effects :
  forall (username : option string) (w : World),
    let w' := snd (backfill_file_mapping_from_chunks username w) in
    let ledger := ledger_of w username in
    chunk_performance (store w' username)
    = chunk_performance (store w username)
    /\ (forall u', store w' u'
                   = if user_eqb u' username then store w' username
                     else store w u')
    /\ (forall fh v,
          Dict.get fh (registry_of w username) = Some v ->
          Dict.get fh (registry_of w' username) = Some v)
    /\ (forall fh v,
          Dict.get fh (registry_of w' username) = Some v ->
          Dict.get fh (registry_of w username) = Some v
          \/ exists item,
               In item ledger /\ backfill_candidate item = Some (fh, v))
    /\ (forall item fh v,
          In item ledger -> backfill_candidate item = Some (fh, v) ->
          Dict.mem fh (registry_of w' username) = true)
    /\ exists infos,
         forallb is_info infos = true
         /\ trace w'
            = (trace w ++ infos
               ++ match infos with
                  | [] => []
                  | _ :: _ => [Saved username (store w' username)]
                  end)%list.
Proof.
  intros u w w' ledger. subst w'. rewrite backfill_unfold. fold ledger.
  destruct (Dict.nonempty ledger) eqn:Hne; cbn [negb].
  2:{ destruct ledger; [|discriminate].
      split; [reflexivity|].
      split; [intros u'; destruct (user_eqb u' u) eqn:E;
              [apply user_eqb_eq in E; now subst|reflexivity]|].
      split; [auto|]. split; [auto|]. split; [intros item fh v []|].
      exists []. cbn. now rewrite app_nil_r. }
  pose proof (backfill_loop ledger (registry_of w u) false w) as HL.
  cbv zeta in HL.
  destruct (for_each ledger backfill_step (registry_of w u, false) w)
    as [[mapping updated] w1].
  cbn [fst snd] in HL |- *.
  destruct HL as (H1 & H2 & H3 & H4 & _ & H6 & _ & _ & infos & Ht & Hi & Hu).
  cbn [orb] in Hu.
  destruct updated.
  - unfold save_state, registry_of. cbn. rewrite user_eqb_refl. cbn.
    split; [reflexivity|].
    split; [intros u'; rewrite H6; destruct (user_eqb u' u); reflexivity|].
    split; [exact H1|]. split; [exact H2|]. split; [exact H3|].
    exists infos. split; [exact Hi|].
    destruct infos as [|i infos]; [discriminate|].
    rewrite Ht, <- app_assoc. reflexivity.
  - destruct (H4 eq_refl) as (_ & -> & ->).
    split; [reflexivity|].
    split; [intros u'; destruct (user_eqb u' u) eqn:E;
            [apply user_eqb_eq in E; now subst|reflexivity]|].
    split; [exact H1|]. split; [exact H2|]. split; [exact H3|].
    destruct infos as [|i infos]; [|discriminate].
    exists []. cbn. now rewrite app_nil_r.
Qed.

(** X8. backfill_file_mapping_from_chunks is idempotent: a second call
    right after the first finds every identifier registered, and leaves the
    world as it is, without a write or an event. *)
Theorem backfill_idempotent :
  forall (username : option string) (w : World),
    let w1 := snd (backfill_file_mapping_from_chunks username w) in
    snd (backfill_file_mapping_from_chunks username w1) = w1.
Proof.
  intros u w w1.
  destruct (backfill_effects u w) as (Hcp & _ & _ & _ & Hall & _).
  fold w1 in Hcp, Hall.
  rewrite backfill_unfold.
  assert (Hl : ledger_of w1 u = ledger_of w u)
    by (unfold ledger_of; now rewrite Hcp).
  rewrite Hl.
  destruct (negb (Dict.nonempty (ledger_of w u))); [reflexivity|].
  rewrite backfill_loop_noop; [reflexivity|].
  exact Hall.
Qed.

(** X9. backfill_file_mapping_from_chunks only adds to the registry of its
    user: the ledger and the other users are untouched, an identifier that
    is registered keeps its filename, and every new entry maps the
    identifier of a chunk key of the ledger to the filename of that record,
    which is neither empty nor "unknown_file".  The events precede the
    single write, and there is a write exactly when there is an event. *)
Theorem backfill_only_adds :
  forall (username : option string) (w : World),
    let w' := snd (backfill_file_mapping_from_chunks username w) in
    chunk_performance (store w' username)
    = chunk_performance (store w username)
    /\ (forall u', store w' u'
                   = if user_eqb u' username then store w' username
                     else store w u')
    /\ (forall fh v,
          Dict.get fh (registry_of w username) = Some v ->
          Dict.get fh (registry_of w' username) = Some v)
    /\ (forall fh v,
          Dict.get fh (registry_of w' username) = Some v ->
          Dict.get fh (registry_of w username) = Some v
          \/ (real_filename (Some v) = true
              /\ exists k r,
                   In (k, r) (ledger_of w username)
                   /\ cr_filename r = Some v
                   /\ PyStr.contains "_chunk_" k = true
                   /\ fh = bucket_of k))
    /\ exists infos,
         forallb is_info infos = true
         /\ trace w'
            = (trace w ++ infos
               ++ match infos with
                  | [] => []
                  | _ :: _ => [Saved username (store w' username)]
                  end)%list.
Proof.
  intros u w w'.
  destruct (backfill_effects u w) as (H1 & H2 & H3 & H4 & _ & H6).
  fold w' in H1, H2, H3, H4, H6.
  split; [exact H1|]. split; [exact H2|]. split; [exact H3|].
  split; [|exact H6].
  intros fh v Hg. destruct (H4 fh v Hg) as [Ho|([k r] & HIn & Hc)];
    [now left|right].
  destruct (backfill_candidate_real _ _ _ Hc) as (Hr & Hf & Hk & Hb).
  split; [exact Hr|]. exists k, r. auto.
Qed.

Lemma backfill_only_adds_witness :
  Dict.get "36975731"
    (registry_of
       (snd (backfill_file_mapping_from_chunks
               None
               (world_of (mkState (Some [("36975731", "notes.txt")])
                                  (Some sample_ledger)))))
       None)
  = Some "notes.txt".
Proof.
  refine (proj1 (proj2 (proj2 (backfill_only_adds
            None (world_of (mkState (Some [("36975731", "notes.txt")])
                                    (Some sample_ledger))))))
            "36975731" "notes.txt" _).
  reflexivity.
Defined.

(** X10. After backfill_file_mapping_from_chunks the registry knows the
    file of every ledger record that has a chunk key and a filename that is
    neither empty nor "unknown_file": its identifier is registered, and
    when it was not registered before and the records of that identifier
    agree on the filename, it is registered under that filename. *)
Theorem backfill_registers_every_file :
  forall (username : option string) (w : World) (k : string)
         (r : ChunkRecord) (filename : string),
    In (k, r) (ledger_of w username) ->
    cr_filename r = Some filename ->
    real_filename (Some filename) = true ->
    PyStr.contains "_chunk_" k = true ->
    let registry' :=
      registry_of (snd (backfill_file_mapping_from_chunks username w))
                  username in
    Dict.mem (bucket_of k) registry' = true
    /\ (Dict.get (bucket_of k) (registry_of w username) = None ->
        (forall k0 r0,
            In (k0, r0) (ledger_of w username) ->
            bucket_of k0 = bucket_of k ->
            real_filename (cr_filename r0) = true ->
            cr_filename r0 = Some filename) ->
        Dict.get (bucket_of k) registry' = Some filename).
Proof.
  intros u w k r fn HIn Hf Hr Hk registry'.
  destruct (backfill_effects u w) as (_ & _ & _ & H4 & H5 & _).
  fold registry' in H4, H5.
  assert (Hc : backfill_candidate (k, r) = Some (bucket_of k, fn)).
  { unfold backfill_candidate, bucket_of. cbn [fst snd].
    now rewrite Hf, Hr, Hk. }
  assert (Hm : Dict.mem (bucket_of k) registry' = true)
    by (eapply H5; eauto).
  split; [exact Hm|].
  intros Hnone Hagree. unfold Dict.mem in Hm.
  destruct (Dict.get (bucket_of k) registry') as [v|] eqn:E; [|discriminate].
  destruct (H4 _ _ E) as [Ho|([k0 r0] & HIn0 & Hc0)]; [congruence|].
  destruct (backfill_candidate_real _ _ _ Hc0) as (Hr0 & Hf0 & _ & Hb0).
  cbn [fst snd] in *.
  rewrite (Hagree k0 r0 HIn0 (eq_sym Hb0)) in Hf0; [congruence|].
  now rewrite Hf0.
Qed.

Lemma backfill_registers_every_file_witness :
  Dict.mem (bucket_of "36975731_chunk_1")
    (registry_of
       (snd (backfill_file_mapping_from_chunks
               None (world_of (mkState None (Some sample_ledger)))))
       None)
  = true.
Proof.
  refine (proj1 (backfill_registers_every_file
                   None (world_of (mkState None (Some sample_ledger)))
                   "36975731_chunk_1"
                   (mkChunkRecord 3 1 4 (Some "2024-01-02T10:00:00")
                                  "Chunk 1 - Introduction" (Some "doc.pdf")
                                  [])
                   "doc.pdf" (or_introl eq_refl) eq_refl eq_refl eq_refl)).
Defined.

(** ** What grouping does to the world *)

Lemma registry_extends_refl : forall u w, registry_extends u w w.
Proof. intros u w. unfold registry_extends. repeat split; auto. Qed.

Lemma registry_extends_trans :
  forall u w1 w2 w3,
    registry_extends u w1 w2 -> registry_extends u w2 w3 ->
    registry_extends u w1 w3.
Proof.
  intros u w1 w2 w3 (A1 & A2 & A3 & A4 & A5 & A6) (B1 & B2 & B3 & B4 & B5 & B6).
  unfold registry_extends. repeat split; try congruence.
  - intros u' Hu. rewrite B2, A2; auto.
  - auto.
  - intros fh v Hg. destruct (B4 fh v Hg) as [H|H]; auto.
Qed.

Lemma register_extends :
  forall u w fh name msg,
    Dict.mem fh (registry_of w u) = false ->
    real_filename (Some name) = true ->
    registry_extends u w
      (snd (info msg
              (snd (save_state
                      (mkState (Some (Dict.set fh name (registry_of w u)))
                               (chunk_performance (store w u))) u w)))).
Proof.
  intros u w fh name msg Hm Hr. unfold registry_extends, registry_of.
  cbn. rewrite user_eqb_refl. cbn. repeat split.
  - intros u' Hu. now rewrite Hu.
  - intros fh' v Hg. rewrite get_set_other; [exact Hg|].
    intros ->. unfold Dict.mem, registry_of in Hm. now rewrite Hg in Hm.
  - intros fh' v Hg. destruct (String.eqb_spec fh fh') as [<-|Hne].
    + rewrite get_set_same in Hg. inversion Hg; subst. now right.
    + rewrite get_set_other in Hg by exact Hne. now left.
Qed.

Lemma seed_filename_world : forall fh perf u w,
  snd (seed_filename fh perf u w) = w.
Proof.
  intros. unfold seed_filename, bind, load_state, ret.
  destruct (negb _ || _); reflexivity.
Qed.

Lemma refresh_filename_world : forall fh perf r u w,
  registry_extends u w (snd (refresh_filename fh perf r u w)).
Proof.
  intros fh perf r u w. unfold refresh_filename, bind, load_state, ret.
  destruct (PyStr.truthy (m_filename perf)
            && negb (PyStr.truthy (f_filename r))) eqn:E1.
  - destruct (is_unknown_file (m_filename perf)) eqn:E2; cbn [negb].
    + apply registry_extends_refl.
    + fold (registry_of w u).
      destruct (Dict.mem fh (registry_of w u)) eqn:E3; cbn [negb].
      * apply registry_extends_refl.
      * apply andb_true_iff in E1. destruct E1 as [E1 _].
        destruct (m_filename perf) as [name|] eqn:E4; [|discriminate].
        apply register_extends; [exact E3|].
        unfold real_filename. now rewrite E1, E2.
  - destruct (negb (PyStr.truthy (f_filename r))
              || is_unknown_file (f_filename r)).
    + destruct (PyStr.truthy (mapping_lookup (store w u) fh None));
        apply registry_extends_refl.
    + apply registry_extends_refl.
Qed.

Lemma group_step_world : forall u files item w,
  registry_extends u w (snd (group_step u files item w)).
Proof.
  intros u files [k m] w. unfold group_step, bind, ret.
  destruct (Dict.get (bucket_of k) files) as [r|].
  - pose proof (refresh_filename_world (bucket_of k) m r u w) as H.
    destruct (refresh_filename (bucket_of k) m r u w) as [fn w1].
    exact H.
  - pose proof (seed_filename_world (bucket_of k) m u w) as H.
    destruct (seed_filename (bucket_of k) m u w) as [fn w1].
    cbn [snd] in *. subst w1. apply registry_extends_refl.
Qed.

Lemma group_loop_world : forall u items files w,
  registry_extends u w (snd (for_each items (group_step u) files w)).
Proof.
  intros u items. induction items as [|item items IH]; intros files w.
  - apply registry_extends_refl.
  - cbn [for_each]. unfold bind.
    pose proof (group_step_world u files item w) as H.
    destruct (group_step u files item w) as [files1 w1]. cbn [snd] in H.
    eapply registry_extends_trans; [exact H|apply IH].
Qed.

Lemma backfill_extends : forall u w,
  registry_extends u w (snd (backfill_file_mapping_from_chunks u w)).
Proof.
  intros u w.
  destruct (backfill_effects u w) as (H1 & H2 & H3 & H4 & _ & _).
  unfold registry_extends.
  split; [exact H1|].
  split; [intros u' Hu; rewrite H2; now rewrite Hu|].
  split; [exact H3|].
  split.
  { intros fh v Hg. destruct (H4 fh v Hg) as [Ho|(item & _ & Hc)];
      [now left|right].
    now destruct (backfill_candidate_real _ _ _ Hc). }
  rewrite backfill_unfold.
  destruct (negb _); [auto|].
  pose proof (backfill_loop (ledger_of w u) (registry_of w u) false w) as HL.
  cbv zeta in HL.
  destruct HL as (_ & _ & _ & _ & _ & _ & Hc & Ht & _).
  destruct (snd (fst _)); cbn; auto.
Qed.

Lemma group_chunks_by_file_world : forall all_perf u w,
  registry_extends u w (snd (group_chunks_by_file all_perf u w)).
Proof.
  intros all_perf u w. unfold group_chunks_by_file, bind, ret.
  pose proof (backfill_extends u w) as H1.
  destruct (backfill_file_mapping_from_chunks u w) as [[] w1].
  pose proof (group_loop_world u all_perf [] w1) as H2.
  destruct (for_each all_perf (group_step u) [] w1) as [files w2].
  cbn [snd] in *. eapply registry_extends_trans; eauto.
Qed.

(** X11. group_chunks_by_file changes nothing but the registry of its user,
    and the registry only grows: the ledger, the other users and the clock
    are untouched, an identifier that is registered keeps its filename, and
    a filename that is newly registered is neither empty nor
    "unknown_file". *)
Theorem group_chunks_by_file_only_registers :
  forall (all_perf : Dict.t Metrics) (username : option string) (w : World),
    let w' := snd (group_chunks_by_file all_perf username w) in
    chunk_performance (store w' username)
    = chunk_performance (store w username)
    /\ (forall u', store w' u'
                   = if user_eqb u' username then store w' username
                     else store w u')
    /\ (forall fh v,
          Dict.get fh (registry_of w username) = Some v ->
          Dict.get fh (registry_of w' username) = Some v)
    /\ (forall fh v,
          Dict.get fh (registry_of w' username) = Some v ->
          Dict.get fh (registry_of w username) = Some v
          \/ (PyStr.nonempty v = true /\ v <> "unknown_file"))
    /\ clock w' = clock w /\ ticks w' = ticks w.
Proof.
  intros all_perf u w w'.
  destruct (group_chunks_by_file_world all_perf u w)
    as (H1 & H2 & H3 & H4 & H5 & H6).
  fold w' in H1, H2, H3, H4, H5, H6.
  split; [exact H1|].
  split.
  { intros u'. destruct (user_eqb u' u) eqn:E; [|now apply H2].
    apply user_eqb_eq in E. now subst. }
  split; [exact H3|].
  split; [|auto].
  intros fh v Hg. destruct (H4 fh v Hg) as [Ho|Hr]; [now left|right].
  unfold real_filename in Hr. cbn in Hr.
  apply andb_true_iff in Hr. destruct Hr as [Hn Hs].
  split; [exact Hn|]. intros ->. discriminate Hs.
Qed.

Lemma group_chunks_by_file_only_registers_witness :
  Dict.get "36975731"
    (registry_of
       (snd (group_chunks_by_file
               sample_perf None
               (world_of (mkState (Some [("36975731", "notes.txt")])
                                  (Some sample_ledger)))))
       None)
  = Some "notes.txt".
Proof.
  refine (proj1 (proj2 (proj2 (group_chunks_by_file_only_registers
            sample_perf None
            (world_of (mkState (Some [("36975731", "notes.txt")])
                               (Some sample_ledger))))))
            "36975731" "notes.txt" _).
  reflexivity.
Defined.

(** ** The filename of a rollup *)

Lemma group_step_filename :
  forall u files k m w,
    fst (group_step u files (k, m) w)
    = Dict.set (bucket_of k)
        (add_chunk k m
           (match Dict.get (bucket_of k) files with
            | Some r =>
                rollup_with_filename
                  r (fst (refresh_filename (bucket_of k) m r u w))
            | None =>
                new_rollup (bucket_of k)
                           (fst (seed_filename (bucket_of k) m u w))
            end))
        files.
Proof.
  intros u files k m w. unfold group_step, bind, ret.
  destruct (Dict.get (bucket_of k) files) as [r|].
  - destruct (refresh_filename (bucket_of k) m r u w) as [fn w1]. reflexivity.
  - destruct (seed_filename (bucket_of k) m u w) as [fn w1]. reflexivity.
Qed.

Lemma refresh_keeps_real : forall fh perf r u w,
  real_filename (f_filename r) = true ->
  fst (refresh_filename fh perf r u w) = f_filename r.
Proof.
  intros fh perf r u w Hr. unfold real_filename in Hr.
  apply andb_true_iff in Hr. destruct Hr as [Ht Hs].
  apply negb_true_iff in Hs.
  unfold refresh_filename. rewrite Ht, Hs, andb_false_r. reflexivity.
Qed.

Lemma group_loop_keeps_filename :
  forall u items files w fh r,
    Dict.get fh files = Some r ->
    real_filename (f_filename r) = true ->
    exists r',
      Dict.get fh (fst (for_each items (group_step u) files w)) = Some r'
      /\ f_filename r' = f_filename r.
Proof.
  intros u items. induction items as [|[k m] items IH];
    intros files w fh r Hg Hr.
  - exists r. auto.
  - cbn [for_each]. unfold bind.
    pose proof (group_step_filename u files k m w) as Hs.
    destruct (group_step u files (k, m) w) as [files1 w1]. cbn [fst] in Hs.
    destruct (String.eqb_spec (bucket_of k) fh) as [Hb|Hb].
    + rewrite Hb, Hg in Hs. rewrite refresh_keeps_real in Hs by exact Hr.
      destruct (IH files1 w1 fh
                   (add_chunk k m (rollup_with_filename r (f_filename r))))
        as (r' & Hr' & Hf'); [rewrite Hs; apply get_set_same|exact Hr|].
      exists r'. auto.
    + destruct (IH files1 w1 fh r) as (r' & Hr' & Hf');
        [rewrite Hs, get_set_other; auto|exact Hr|].
      exists r'. auto.
Qed.

Lemma group_loop_other_buckets :
  forall u items files w fh,
    (forall item, In item items -> bucket_of (fst item) <> fh) ->
    Dict.get fh (fst (for_each items (group_step u) files w))
    = Dict.get fh files.
Proof.
  intros u items. induction items as [|[k m] items IH];
    intros files w fh Hne; [reflexivity|].
  cbn [for_each]. unfold bind.
  pose proof (group_step_get u files k m w fh) as Hs. cbv zeta in Hs.
  destruct (group_step u files (k, m) w) as [files1 w1]. cbn [fst] in Hs.
  destruct (String.eqb_spec (bucket_of k) fh) as [Hb|Hb].
  - exfalso. apply (Hne (k, m)); [now left|exact Hb].
  - rewrite IH; [exact Hs|]. intros item HIn. apply Hne. now right.
Qed.

Lemma for_each_app :
  forall {A S} (body : S -> A -> M S) (l1 l2 : list A) (s : S) (w : World),
    for_each (l1 ++ l2) body s w
    = for_each l2 body (fst (for_each l1 body s w))
               (snd (for_each l1 body s w)).
Proof.
  intros A S body l1. induction l1 as [|x l1 IH]; intros l2 s w;
    [reflexivity|].
  cbn [app for_each]. unfold bind.
  destruct (body s x w) as [s1 w1]. apply IH.
Qed.

(** The rollup of the first chunk of a file identifier, and what the loop
    makes of a filename that is neither empty nor the placeholder. *)
Lemma group_first_chunk :
  forall u pre k m post w1,
    (forall item, In item pre -> bucket_of (fst item) <> bucket_of k) ->
    let w2 := snd (for_each pre (group_step u) [] w1) in
    let seeded := fst (seed_filename (bucket_of k) m u w2) in
    real_filename seeded = true ->
    exists r,
      Dict.get (bucket_of k)
               (fst (for_each (pre ++ (k, m) :: post)%list (group_step u) [] w1))
      = Some r
      /\ f_filename r = seeded.
Proof.
  intros u pre k m post w1 Hpre w2 seeded Hreal.
  rewrite for_each_app. fold w2.
  set (files0 := fst (for_each pre (group_step u) [] w1)).
  assert (H0 : Dict.get (bucket_of k) files0 = None).
  { subst files0. rewrite group_loop_other_buckets by exact Hpre.
    reflexivity. }
  cbn [for_each]. unfold bind.
  pose proof (group_step_filename u files0 k m w2) as Hs.
  destruct (group_step u files0 (k, m) w2) as [files1 w3]. cbn [fst] in Hs.
  rewrite H0 in Hs. fold seeded in Hs.
  destruct (group_loop_keeps_filename u post files1 w3 (bucket_of k)
              (add_chunk k m (new_rollup (bucket_of k) seeded)))
    as (r' & Hr' & Hf'); [rewrite Hs; apply get_set_same|exact Hreal|].
  exists r'. auto.
Qed.

(** X12. The filename of a rollup is settled by the first chunk of its file
    identifier.  When that chunk carries a filename that is neither empty
    nor "unknown_file", the rollup has this filename, whatever the later
    chunks and the registry say.  When it carries none, and the registry
    knows the identifier under such a filename, the rollup has the
    registered filename. *)
Theorem rollup_filename_resolution :
  forall (pre post : Dict.t Metrics) (k : string) (m : Metrics)
         (username : option string) (w : World),
    (forall item, In item pre -> bucket_of (fst item) <> bucket_of k) ->
    let files :=
      fst (group_chunks_by_file (pre ++ (k, m) :: post)%list username w) in
    (real_filename (m_filename m) = true ->
     exists r,
       Dict.get (bucket_of k) files = Some r
       /\ f_filename r = m_filename m)
    /\ (forall name,
          real_filename (m_filename m) = false ->
          Dict.get (bucket_of k) (registry_of w username) = Some name ->
          real_filename (Some name) = true ->
          exists r,
            Dict.get (bucket_of k) files = Some r
            /\ f_filename r = Some name).
Proof.
  intros pre post k m u w Hpre files. subst files.
  rewrite group_chunks_by_file_unfold.
  set (w1 := snd (backfill_file_mapping_from_chunks u w)).
  pose proof (group_first_chunk u pre k m post w1 Hpre) as Hfirst.
  cbv zeta in Hfirst.
  set (w2 := snd (for_each pre (group_step u) [] w1)) in *.
  split.
  - intros Hreal.
    assert (Hseed : fst (seed_filename (bucket_of k) m u w2) = m_filename m).
    { unfold seed_filename, real_filename in *.
      apply andb_true_iff in Hreal. destruct Hreal as [Ht Hs].
      apply negb_true_iff in Hs. now rewrite Ht, Hs. }
    rewrite Hseed in Hfirst. destruct (Hfirst Hreal) as (r & Hr & Hf).
    exists (close_rollup r). rewrite get_close, Hr. auto.
  - intros name Hnot Hreg Hname.
    assert (Hext : registry_extends u w w2).
    { eapply registry_extends_trans;
        [apply backfill_extends|apply group_loop_world]. }
    destruct Hext as (_ & _ & Hkeep & _).
    specialize (Hkeep _ _ Hreg).
    assert (Hseed : fst (seed_filename (bucket_of k) m u w2) = Some name).
    { unfold seed_filename, bind, load_state, ret, mapping_lookup.
      unfold real_filename in Hnot.
      assert (Hc : negb (PyStr.truthy (m_filename m))
                   || is_unknown_file (m_filename m) = true).
      { destruct (PyStr.truthy (m_filename m)); cbn in *; [|reflexivity].
        now apply negb_false_iff in Hnot. }
      rewrite Hc. cbn [fst].
      unfold registry_of in Hkeep.
      destruct (file_mapping (store w2 u)) as [mapping|];
        [|discriminate Hkeep].
      cbn in Hkeep. destruct mapping; [discriminate Hkeep|exact Hkeep]. }
    rewrite Hseed in Hfirst. destruct (Hfirst Hname) as (r & Hr & Hf).
    exists (close_rollup r). rewrite get_close, Hr. auto.
Qed.

Lemma rollup_filename_resolution_witness :
  exists r,
    Dict.get (bucket_of "36975731_chunk_1")
      (fst (group_chunks_by_file
              ([("legacy key", sample_metrics None)]
               ++ ("36975731_chunk_1", sample_metrics (Some "doc.pdf"))
               :: [("36975731_chunk_2", sample_metrics (Some "other.pdf"))])%list
              None (world_of empty_state)))
    = Some r
    /\ f_filename r = Some "doc.pdf".
Proof.
  refine (proj1 (rollup_filename_resolution
                   [("legacy key", sample_metrics None)]
                   [("36975731_chunk_2", sample_metrics (Some "other.pdf"))]
                   "36975731_chunk_1" (sample_metrics (Some "doc.pdf"))
                   None (world_of empty_state) _) eq_refl).
  intros item [<-|[]]. vm_compute. discriminate.
Defined.

(** ** Chunk keys and file identifiers *)

(** X13. bucket_of splits a chunk key at its first "_chunk_": a key that
    contains "_chunk_" is its file identifier, then "_chunk_", then the
    rest, and no shorter prefix of the key is followed by "_chunk_"; a key
    has the identifier "unknown" exactly when "_chunk_" occurs nowhere in
    it (or when its own identifier is "unknown"). *)
Theorem bucket_of_first_marker :
  forall (chunk_id : string),
    if PyStr.contains "_chunk_" chunk_id then
      (exists rest, chunk_id = bucket_of chunk_id ++ "_chunk_" ++ rest)
      /\ (forall a b, chunk_id = a ++ "_chunk_" ++ b ->
                      String.length (bucket_of chunk_id) <= String.length a)
    else
      bucket_of chunk_id = "unknown"
      /\ (forall a b, chunk_id <> a ++ "_chunk_" ++ b).
Proof.
  intros k. unfold bucket_of, PyStr.split_head.
  destruct (PyStr.contains "_chunk_" k) eqn:Hc.
  - unfold PyStr.contains in Hc.
    destruct (PyStr.split_first "_chunk_" k) as [[l r]|] eqn:E;
      [|discriminate].
    split.
    + exists r. now apply split_first_sound.
    + intros a b Hk. eapply split_first_leftmost; eauto.
  - split; [reflexivity|].
    intros a b Hk. rewrite Hk, split_first_complete in Hc. discriminate.
Qed.

Lemma hexdigit_is_hex : forall n, is_hex (MD5.hexdigit n) = true.
Proof.
  intros n. unfold MD5.hexdigit. generalize (Z.to_nat n). intros k.
  do 16 (destruct k as [|k]; [reflexivity|]). destruct k; reflexivity.
Qed.

Lemma hexdigest_is_hex : forall msg,
  all_chars is_hex (MD5.hexdigest msg) = true.
Proof.
  intros msg. unfold MD5.hexdigest.
  destruct (MD5.digest_state msg) as [[[a b] c] d].
  unfold MD5.hex_word, MD5.hex_byte. cbn [all_chars].
  rewrite !hexdigit_is_hex. reflexivity.
Qed.

Lemma all_chars_take : forall p n s,
  all_chars p s = true -> all_chars p (PyStr.take n s) = true.
Proof.
  intros p n. induction n as [|n IH]; intros [|c s] H; cbn in *; auto.
  apply andb_true_iff in H. destruct H as [Hc H]. now rewrite Hc, IH.
Qed.

Lemma split_first_after_plain : forall h sep rest c sep',
  sep = String c sep' ->
  all_chars (fun a => negb (Ascii.eqb c a)) h = true ->
  PyStr.split_first sep (h ++ sep ++ rest) = Some (h, rest).
Proof.
  intros h sep rest c sep' Hsep. induction h as [|a h IH]; intros Hh.
  - cbn [append].
    assert (Hst : PyStr.startswith sep (sep ++ rest) = true)
      by apply startswith_app.
    assert (Hd : PyStr.drop (String.length sep) (sep ++ rest) = rest).
    { clear. induction sep as [|x sep IH]; [now destruct rest|exact IH]. }
    subst sep. cbn [append PyStr.split_first] in *. rewrite Hst.
    now rewrite Hd.
  - cbn in Hh. apply andb_true_iff in Hh. destruct Hh as [Ha Hh].
    apply negb_true_iff in Ha.
    cbn [append PyStr.split_first]. subst sep.
    cbn [PyStr.startswith]. rewrite Ha. cbn [andb].
    now rewrite IH.
Qed.

Lemma hex_not_underscore : forall s,
  all_chars is_hex s = true ->
  all_chars (fun a => negb (Ascii.eqb "_" a)) s = true.
Proof.
  induction s as [|c s IH]; intros H; cbn in *; [reflexivity|].
  apply andb_true_iff in H. destruct H as [Hc H]. rewrite IH by exact H.
  rewrite andb_true_r.
  destruct c as [[] [] [] [] [] [] [] []]; try reflexivity;
    vm_compute in Hc; discriminate Hc.
Qed.

(** X14. The identifier of a file is made of 8 characters among 0-9 and
    a-f; register_file returns it whatever the state; and the chunk key that
    extract_chunk_id_from_reference builds with a non-empty filename is
    grouped by group_chunks_by_file under exactly this identifier, never
    under "unknown". *)
Theorem chunk_key_recovers_file_hash :
  forall (source_reference filename : string) (username : option string)
         (w : World),
    PyStr.nonempty filename = true ->
    let key :=
      extract_chunk_id_from_reference source_reference (Some filename) in
    String.length (file_hash_of filename) = 8
    /\ all_chars is_hex (file_hash_of filename) = true
    /\ fst (register_file filename username w) = file_hash_of filename
    /\ PyStr.contains "_chunk_" key = true
    /\ bucket_of key = file_hash_of filename
    /\ bucket_of key <> "unknown".
Proof.
  intros ref fn u w Hfn key.
  assert (Hhex : all_chars is_hex (file_hash_of fn) = true)
    by (apply all_chars_take, hexdigest_is_hex).
  assert (Hkey : exists num,
             key = file_hash_of fn ++ "_chunk_" ++ num).
  { subst key. unfold extract_chunk_id_from_reference.
    cbn [PyStr.truthy]. rewrite Hfn. eexists. reflexivity. }
  destruct Hkey as [num Hkey].
  assert (Hsplit : PyStr.split_first "_chunk_" key
                   = Some (file_hash_of fn, num)).
  { rewrite Hkey.
    apply (split_first_after_plain _ _ _ "_"%char "chunk_"); [reflexivity|].
    now apply hex_not_underscore. }
  assert (Hb : bucket_of key = file_hash_of fn).
  { unfold bucket_of, PyStr.contains, PyStr.split_head. now rewrite Hsplit. }
  split; [apply file_hash_of_length|].
  split; [exact Hhex|].
  split.
  { unfold register_file, bind, load_state, ret.
    destruct (negb _); reflexivity. }
  split; [unfold PyStr.contains; now rewrite Hsplit|].
  split; [exact Hb|].
  rewrite Hb. intros Heq.
  pose proof (file_hash_of_length fn) as Hl. rewrite Heq in Hl.
  discriminate Hl.
Qed.

Lemma chunk_key_recovers_file_hash_witness :
  bucket_of (extract_chunk_id_from_reference "Chunk 3 - Intro"
                                             (Some "doc.pdf"))
  = file_hash_of "doc.pdf".
Proof.
  exact (proj1 (proj2 (proj2 (proj2 (proj2
           (chunk_key_recovers_file_hash
              "Chunk 3 - Intro" "doc.pdf" None (world_of empty_state)
              eq_refl)))))).
Defined.

Lemma bucket_of_first_marker_witness :
  String.length (bucket_of "36975731_chunk_1_chunk_2")
  <= String.length "36975731".
Proof.
  exact (proj2 (bucket_of_first_marker "36975731_chunk_1_chunk_2")
               "36975731" "1_chunk_2" eq_refl).
Defined.

(** ** The slug of a reference *)

Lemma map_length : forall f s,
  String.length (PyStr.map f s) = String.length s.
Proof. induction s as [|c s IH]; cbn; congruence. Qed.

Lemma all_chars_map : forall (p : ascii -> bool) f s,
  (forall c, p (f c) = true) -> all_chars p (PyStr.map f s) = true.
Proof.
  intros p f s H. induction s as [|c s IH]; cbn; [reflexivity|].
  now rewrite H, IH.
Qed.

Lemma lower_char_plain : forall c,
  negb (is_upper_ascii (PyStr.lower_char c)) = true
  /\ (Ascii.eqb c " " = false ->
      Ascii.eqb (PyStr.lower_char c) " " = false).
Proof.
  intros c. destruct c as [[] [] [] [] [] [] [] []];
    split; try reflexivity; intros H; try reflexivity; discriminate H.
Qed.

(** X15. Without a filename (None or the empty string)
    extract_chunk_id_from_reference returns a slug of the reference, which
    contains no space and no capital letter A-Z.  For a reference of code
    points below 256, the strings of this development, [str.lower] maps
    every character to one character, and the slug has as many characters
    as the reference, but at most 50. *)
Theorem extract_chunk_id_slug :
  forall (source_reference : string) (filename : option string),
    PyStr.truthy filename = false ->
    let slug := extract_chunk_id_from_reference source_reference filename in
    slug = PyStr.lower (PyStr.replace_space (PyStr.take 50 source_reference))
    /\ String.length slug = Nat.min 50 (String.length source_reference)
    /\ all_chars (fun c => negb (Ascii.eqb c " ") && negb (is_upper_ascii c))
                 slug = true.
Proof.
  intros ref fn Hfn slug. subst slug.
  unfold extract_chunk_id_from_reference. rewrite Hfn.
  split; [reflexivity|]. split.
  - unfold PyStr.lower, PyStr.replace_space.
    now rewrite !map_length, take_length.
  - unfold PyStr.lower, PyStr.replace_space.
    generalize (PyStr.take 50 ref). intros s.
    induction s as [|c s IH]; [reflexivity|].
    cbn [PyStr.map all_chars]. rewrite IH, andb_true_r.
    destruct (lower_char_plain
                (if Ascii.eqb c " " then "_"%char else c)) as [Hu Hs].
    rewrite Hu, andb_true_r. apply negb_true_iff, Hs.
    destruct (Ascii.eqb c " ") eqn:E; [reflexivity|exact E].
Qed.

Lemma extract_chunk_id_slug_witness :
  String.length (extract_chunk_id_from_reference
                   "Some free text without chunk marker" (Some ""))
  = Nat.min 50 (String.length "Some free text without chunk marker").
Proof.
  exact (proj1 (proj2 (extract_chunk_id_slug
                         "Some free text without chunk marker" (Some "")
                         eq_refl))).
Defined.

(** ** References without a marker *)

Lemma no_colon_tail : forall c s, no_colon (String c s) -> no_colon s.
Proof.
  unfold no_colon. cbn. intros c s H. apply andb_true_iff in H. tauto.
Qed.

Lemma rep_fails :
  forall {R} p s min n (k : string -> nat -> option R),
    (forall s' n', no_colon s' -> k s' n' = None) ->
    no_colon s -> Re.rep p min s n k = None.
Proof.
  intros R p s. induction s as [|c s IH]; intros min n k Hk Hs.
  - cbn. destruct (Nat.eqb min 0); auto.
  - cbn. rewrite (IH _ _ _ Hk (no_colon_tail _ _ Hs)).
    destruct (p c); destruct (Nat.eqb min 0); auto.
Qed.

Lemma run_fails :
  forall {R} r s n g (k : string -> nat -> option string -> option R),
    (forall s' n' g', no_colon s' -> k s' n' g' = None) ->
    no_colon s -> Re.run r s n g k = None.
Proof.
  intros R r. induction r as [p|r1 IH1 r2 IH2|min p|r1 IH1];
    intros s n g k Hk Hs; cbn [Re.run].
  - destruct s as [|c s]; [reflexivity|].
    destruct (p c); [|reflexivity]. apply Hk. eapply no_colon_tail; eauto.
  - apply IH1; [|exact Hs]. intros s' n' g' Hs'. now apply IH2.
  - apply rep_fails; [|exact Hs]. intros s' n' Hs'. now apply Hk.
  - apply IH1; [|exact Hs]. intros s' n' g' Hs'. now apply Hk.
Qed.

Lemma run_needs_colon :
  forall {R} r s n g (k : string -> nat -> option string -> option R),
    ends_with_colon r -> no_colon s -> Re.run r s n g k = None.
Proof.
  intros R r. induction r as [p|r1 IH1 r2 IH2|min p|r1 IH1];
    intros s n g k Hr Hs; cbn [Re.run ends_with_colon] in *.
  - destruct s as [|c s]; [reflexivity|].
    destruct (p c) eqn:E; [|reflexivity].
    apply Hr in E. subst c. unfold no_colon in Hs. cbn in Hs. discriminate.
  - apply run_fails; [|exact Hs]. intros s' n' g' Hs'. now apply IH2.
  - contradiction.
  - contradiction.
Qed.

Lemma delete_nothing :
  forall r s,
    ends_with_colon r -> no_colon s -> Re.sub_delete r s = s.
Proof.
  intros r s Hr. unfold Re.sub_delete.
  induction s as [|c s IH]; intros Hs; [reflexivity|].
  cbn [Re.delete_from]. unfold Re.match_at.
  rewrite run_needs_colon by assumption.
  now rewrite IH by (eapply no_colon_tail; eauto).
Qed.

Lemma delete_shortens : forall r s skip,
  String.length (Re.delete_from r skip s) <= String.length s.
Proof.
  intros r s. induction s as [|c s IH]; intros skip; [apply Nat.le_refl|].
  cbn [Re.delete_from String.length].
  destruct skip as [|k]; [|specialize (IH k); lia].
  destruct (Re.match_at r (String c s)) as [[[|k] g]|]; cbn [String.length].
  - specialize (IH 0). lia.
  - specialize (IH k). lia.
  - specialize (IH 0). lia.
Qed.

Lemma exact_quote_ends_with_colon : ends_with_colon Re.exact_quote_re.
Proof.
  unfold Re.exact_quote_re. cbn [ends_with_colon Re.lit].
  intros c H. unfold Re.chr in H. apply Ascii.eqb_eq in H. now subst.
Qed.

Lemma quote_ends_with_colon : ends_with_colon Re.quote_re.
Proof.
  unfold Re.quote_re. cbn [ends_with_colon Re.lit].
  intros c H. unfold Re.chr in H. apply Ascii.eqb_eq in H. now subst.
Qed.

(** X16. Step 1 of format_topic_name only deletes: its result is never
    longer than the reference, and a reference without a colon is left as it
    is, since both markers end with a colon. *)
Theorem format_topic_name_step1_only_deletes :
  forall (source_reference : string),
    String.length (format_topic_name_step1 source_reference)
    <= String.length source_reference
    /\ (no_colon source_reference ->
        format_topic_name_step1 source_reference = source_reference).
Proof.
  intros ref. unfold format_topic_name_step1, Re.sub_delete. split.
  - etransitivity; apply delete_shortens.
  - intros Hs. fold (Re.sub_delete Re.exact_quote_re ref).
    rewrite (delete_nothing _ _ exact_quote_ends_with_colon Hs).
    exact (delete_nothing _ _ quote_ends_with_colon Hs).
Qed.

Lemma format_topic_name_step1_only_deletes_witness :
  format_topic_name_step1 "Chunk 3 - EXACT quote without the sign"
  = "Chunk 3 - EXACT quote without the sign".
Proof.
  exact (proj2 (format_topic_name_step1_only_deletes
                  "Chunk 3 - EXACT quote without the sign") eq_refl).
Defined.

(** ** The chunk number *)

Lemma run_inv :
  forall {R} r s n g (k : string -> nat -> option string -> option R) x,
    Re.run r s n g k = Some x ->
    exists s' n' g', k s' n' g' = Some x.
Proof.
  intros R r. induction r as [p|r1 IH1 r2 IH2|min p|r1 IH1];
    intros s n g k x H; cbn [Re.run] in H.
  - destruct s as [|c s]; [discriminate|].
    destruct (p c); [eauto|discriminate].
  - destruct (IH1 _ _ _ _ _ H) as (s1 & n1 & g1 & H1). eapply IH2; eauto.
  - destruct (rep_inv _ _ _ _ _ _ H) as (ws & rest & _ & _ & _ & Hk). eauto.
  - destruct (IH1 _ _ _ _ _ H) as (s1 & n1 & g1 & H1). eauto.
Qed.

Lemma digits_group :
  forall s n g x,
    Re.run (Re.Grp (Re.Rep 1 Re.is_digit)) s n g
           (fun _ n' g' => Some (n', g')) = Some x ->
    exists d, snd x = Some d /\ all_chars Re.is_digit d = true
              /\ PyStr.nonempty d = true.
Proof.
  intros s n g x H. cbn [Re.run] in H.
  destruct (rep_inv _ _ _ _ _ _ H) as (ws & rest & Hs & Hall & Hmin & Hk).
  inversion Hk; subst x. cbn [snd]. exists ws.
  replace (n + String.length ws - n) with (String.length ws) by lia.
  rewrite Hs, take_app_length. repeat split; auto.
  destruct ws; [cbn in Hmin; lia|reflexivity].
Qed.

Lemma run_seq_inv :
  forall {R} r1 r2 s n g (k : string -> nat -> option string -> option R) x,
    Re.run (Re.Seq r1 r2) s n g k = Some x ->
    exists s1 n1 g1, Re.run r2 s1 n1 g1 k = Some x.
Proof.
  intros R r1 r2 s n g k x H. cbn [Re.run] in H.
  exact (run_inv _ _ _ _ _ _ H).
Qed.

Lemma run_lit_inv :
  forall {R} word r s n g (k : string -> nat -> option string -> option R) x,
    Re.run (Re.lit word r) s n g k = Some x ->
    exists s1 n1 g1, Re.run r s1 n1 g1 k = Some x.
Proof.
  intros R word. induction word as [|c word IH]; intros r s n g k x H.
  - cbn [Re.lit] in H. eauto.
  - cbn [Re.lit] in H. apply run_seq_inv in H.
    destruct H as (s1 & n1 & g1 & H). eapply IH; eauto.
Qed.

Lemma chunk_re_group :
  forall s x,
    Re.match_at Re.chunk_re s = Some x ->
    exists d, snd x = Some d /\ all_chars Re.is_digit d = true
              /\ PyStr.nonempty d = true.
Proof.
  intros s x H. unfold Re.match_at, Re.chunk_re in H.
  apply run_seq_inv in H. destruct H as (s1 & n1 & g1 & H).
  apply run_lit_inv in H. destruct H as (s2 & n2 & g2 & H).
  apply run_seq_inv in H. destruct H as (s3 & n3 & g3 & H).
  eapply digits_group; eauto.
Qed.

Lemma search_group1_digits :
  forall s d,
    Re.search_group1 Re.chunk_re s = Some d ->
    all_chars Re.is_digit d = true /\ PyStr.nonempty d = true.
Proof.
  induction s as [|c s IH]; intros d H; cbn [Re.search_group1] in H.
  - destruct (Re.match_at Re.chunk_re "") as [[n g]|] eqn:E; [|discriminate].
    destruct (chunk_re_group _ _ E) as (d0 & Hg & Hd & Hn). cbn in Hg.
    subst g. inversion H; subst. auto.
  - destruct (Re.match_at Re.chunk_re (String c s)) as [[n g]|] eqn:E.
    + destruct (chunk_re_group _ _ E) as (d0 & Hg & Hd & Hn). cbn in Hg.
      subst g. inversion H; subst. auto.
    + now apply IH.
Qed.

(** X17. With a non-empty filename, extract_chunk_id_from_reference returns
    the file identifier, "_chunk_", and a chunk number that is either the
    word "unknown" or a non-empty run of decimal digits, the characters of
    the class [\d]; among the code points below 256, the characters of this
    development, these are the digits 0-9. *)
Theorem extract_chunk_id_key_format :
  forall (source_reference filename : string),
    PyStr.nonempty filename = true ->
    exists number,
      extract_chunk_id_from_reference source_reference (Some filename)
      = file_hash_of filename ++ "_chunk_" ++ number
      /\ (number = "unknown"
          \/ (PyStr.nonempty number = true
              /\ all_chars Re.is_digit number = true)).
Proof.
  intros ref fn Hfn. unfold extract_chunk_id_from_reference.
  cbn [PyStr.truthy]. rewrite Hfn.
  destruct (Re.search_group1 Re.chunk_re ref) as [d|] eqn:E.
  - exists d. split; [reflexivity|]. right.
    destruct (search_group1_digits _ _ E). auto.
  - exists "unknown". auto.
Qed.

Lemma extract_chunk_id_key_format_witness :
  exists number,
    extract_chunk_id_from_reference "Chunk 12 - Intro" (Some "doc.pdf")
    = file_hash_of "doc.pdf" ++ "_chunk_" ++ number
    /\ (number = "unknown"
        \/ (PyStr.nonempty number = true
            /\ all_chars Re.is_digit number = true)).
Proof.
  exact (extract_chunk_id_key_format "Chunk 12 - Intro" "doc.pdf" eq_refl).
Defined.

(** ** Floats *)

Ltac float_order :=
  unfold PyFloat.ltb, PyFloat.leb, PyFloat.eqb, PyFloat.is_nan,
         SFltb, SFleb, SFeqb, SFcompare;
  intros;
  repeat match goal with
         | x : PyFloat.t |- _ => destruct x as [[]|[]| |[] ? ?]
         end;
  try discriminate; try reflexivity;
  change (Pos.compare_cont Eq) with Pos.compare in *;
  repeat match goal with
         | H : context [Z.compare ?a ?b] |- _ =>
             destruct (Z.compare_spec a b); try subst
         | |- context [Z.compare ?a ?b] =>
             destruct (Z.compare_spec a b); try subst
         | H : context [Pos.compare ?a ?b] |- _ =>
             destruct (Pos.compare_spec a b); try subst
         | |- context [Pos.compare ?a ?b] =>
             destruct (Pos.compare_spec a b); try subst
         end;
  cbn in *; try discriminate; try reflexivity; try lia.

Lemma ltb_asym : forall x y : PyFloat.t,
  PyFloat.ltb x y = true -> PyFloat.ltb y x = false.
Proof. float_order. Qed.

Lemma not_ltb_trans : forall x y z : PyFloat.t,
  PyFloat.is_nan y = false ->
  PyFloat.ltb y x = false -> PyFloat.ltb z y = false ->
  PyFloat.ltb z x = false.
Proof. float_order. Qed.

Lemma not_ltb_leb : forall x y : PyFloat.t,
  PyFloat.is_nan x = false -> PyFloat.is_nan y = false ->
  PyFloat.ltb y x = false -> PyFloat.leb x y = true.
Proof. float_order. Qed.

Lemma ltb_leb_leb : forall a t s : PyFloat.t,
  PyFloat.ltb a t = true -> PyFloat.leb t s = true ->
  PyFloat.leb s a = true -> False.
Proof. float_order. Qed.

Lemma eqb_not_ltb : forall q a b : PyFloat.t,
  PyFloat.eqb a q = true -> PyFloat.eqb b q = true ->
  PyFloat.ltb b a = false.
Proof. float_order. Qed.

(** The arithmetic on values computed by Python, [c / a * 100] for a few
    pairs: 75.0, 33.33333333333333, 66.66666666666666, 57.99999999999999,
    14.285714285714285, 0.0, 100.0 and 3.002399751580331e+17; in the last
    one the quotient of the integers differs from the quotient of the two
    operands converted to floats first. *)
Example accuracy_of_samples :
  List.map (fun p => accuracy_of (fst p) (snd p))
           [(3, 4); (1, 3); (2, 3); (29, 50); (1, 7); (0, 5); (7, 7);
            (9007199254740993, 3)]%Z
  = [S754_finite false 5277655813324800 (-46);
     S754_finite false 4691249611844266 (-47);
     S754_finite false 4691249611844266 (-46);
     S754_finite false 8162774324609023 (-47);
     S754_finite false 8042142191733028 (-49);
     S754_zero false;
     S754_finite false 7036874417766400 (-46);
     S754_finite false 4691249611844267 6].
Proof. vm_compute. reflexivity. Qed.

(** [float(58)], [float(60)], [float(80)] and [float(100)]. *)
Example of_int_samples :
  List.map PyFloat.of_int [58; 60; 80; 100]%Z
  = [S754_finite false 8162774324609024 (-47);
     S754_finite false 8444249301319680 (-47);
     S754_finite false 5629499534213120 (-46);
     S754_finite false 7036874417766400 (-46)].
Proof. vm_compute. reflexivity. Qed.

(** Rounding a mantissa that is not negative never gives NaN. *)
Lemma shr_1_nonneg : forall mrs,
  (0 <= shr_m mrs)%Z -> (0 <= shr_m (shr_1 mrs))%Z.
Proof.
  intros [m r s] H. cbn in *. destruct m as [|[p|p|]|p]; cbn; lia.
Qed.

Lemma iter_shr_1_nonneg : forall p mrs,
  (0 <= shr_m mrs)%Z -> (0 <= shr_m (iter_pos shr_1 p mrs))%Z.
Proof.
  induction p as [p IH|p IH|]; intros mrs H; cbn.
  - apply IH, IH, shr_1_nonneg, H.
  - apply IH, IH, H.
  - apply shr_1_nonneg, H.
Qed.

Lemma shr_fexp_nonneg : forall m e l,
  (0 <= m)%Z ->
  (0 <= shr_m (fst (shr_fexp PyFloat.prec PyFloat.emax m e l)))%Z.
Proof.
  intros m e l H. unfold shr_fexp, shr.
  assert (H0 : (0 <= shr_m (shr_record_of_loc m l))%Z)
    by (destruct l as [|[]]; exact H).
  destruct (_ - e)%Z; cbn [fst]; auto using iter_shr_1_nonneg.
Qed.

Lemma binary_round_aux_not_nan : forall s m e l,
  (0 <= m)%Z ->
  PyFloat.is_nan (binary_round_aux PyFloat.prec PyFloat.emax s m e l) = false.
Proof.
  intros s m e l H. unfold binary_round_aux.
  pose proof (shr_fexp_nonneg m e l H) as H1.
  destruct (shr_fexp PyFloat.prec PyFloat.emax m e l) as [mrs1 e1].
  cbn [fst] in H1.
  assert (H2 : (0 <= round_nearest_even (shr_m mrs1)
                      (loc_of_shr_record mrs1))%Z).
  { unfold round_nearest_even.
    destruct (loc_of_shr_record mrs1) as [|[]]; try exact H1; try lia.
    destruct (Z.even _); lia. }
  pose proof (shr_fexp_nonneg _ e1 loc_Exact H2) as H3.
  destruct (shr_fexp PyFloat.prec PyFloat.emax _ e1 loc_Exact) as [mrs2 e2].
  cbn [fst] in H3.
  destruct (shr_m mrs2); [reflexivity| |lia].
  destruct (_ <=? _)%Z; reflexivity.
Qed.

Lemma true_div_not_nan : forall a b,
  (0 < b)%Z -> PyFloat.is_nan (PyFloat.true_div a b) = false.
Proof.
  intros a b Hb. unfold PyFloat.true_div.
  destruct b as [|pb|pb]; try lia. cbn [PyFloat.exact].
  assert (H : forall sa pa,
             PyFloat.is_nan (SFdiv PyFloat.prec PyFloat.emax
                               (S754_finite sa pa 0) (S754_finite false pb 0))
             = false).
  { intros sa pa. unfold SFdiv, SFdiv_core_binary.
    set (m' := match _ with Z0 => Z.pos pa | Z.pos _ => Z.shiftl (Z.pos pa) _
                          | Z.neg _ => 0%Z end).
    assert (Hm : (0 <= m')%Z).
    { subst m'. destruct (_ - _)%Z; try lia.
      apply Z.shiftl_nonneg. lia. }
    pose proof (Z.div_pos m' (Z.pos pb) Hm ltac:(lia)) as Hq.
    unfold Z.div in Hq. destruct (Z.div_eucl m' (Z.pos pb)) as [q r].
    now apply binary_round_aux_not_nan. }
  destruct a; cbn [PyFloat.exact]; [reflexivity|apply H|apply H].
Qed.

(** An accuracy is a number: zero, finite or, beyond the floats, infinite. *)
Lemma accuracy_of_not_nan : forall correct attempts,
  PyFloat.is_nan (accuracy_of correct attempts) = false.
Proof.
  intros c a. unfold accuracy_of.
  destruct (0 <? a)%Z eqn:E; [|reflexivity].
  apply Z.ltb_lt in E. pose proof (true_div_not_nan c a E) as H.
  assert (H100 : PyFloat.of_int 100
                 = S754_finite false 7036874417766400 (-46))
    by (vm_compute; reflexivity).
  rewrite H100. unfold PyFloat.mul, SFmul.
  destruct (PyFloat.true_div c a); try reflexivity; try discriminate.
  apply binary_round_aux_not_nan. lia.
Qed.

(** ** Sorting *)

Section StableSort.
Context {A : Type} (may_precede : A -> A -> bool) (comparable : A -> Prop).
Hypothesis total_order :
  forall x y, may_precede x y = false -> may_precede y x = true.
Hypothesis transitive :
  forall x y z, comparable y ->
                may_precede x y = true -> may_precede y z = true ->
                may_precede x z = true.

Lemma insert_by_perm : forall x l,
  Permutation (insert_by may_precede x l) (x :: l).
Proof.
  intros x l. induction l as [|y l IH]; cbn; [auto|].
  destruct (may_precede x y); [auto|].
  rewrite IH. apply perm_swap.
Qed.

Lemma sort_by_perm : forall l, Permutation (sort_by may_precede l) l.
Proof.
  induction l as [|x l IH]; cbn; [auto|].
  rewrite insert_by_perm. now constructor.
Qed.

Lemma insert_by_sorted : forall x l,
  Forall comparable l ->
  StronglySorted (fun a b => may_precede a b = true) l ->
  StronglySorted (fun a b => may_precede a b = true)
                 (insert_by may_precede x l).
Proof.
  intros x l. induction l as [|y l IH]; intros Hc Hs; cbn.
  - repeat constructor.
  - inversion Hs as [|? ? Hs' Hall]; subst.
    inversion Hc as [|? ? Hy Hc']; subst.
    destruct (may_precede x y) eqn:E.
    + constructor; [exact Hs|]. constructor; [exact E|].
      rewrite Forall_forall in *. intros z Hz. eapply transitive; eauto.
    + constructor; [now apply IH|].
      rewrite Forall_forall in *. intros z Hz.
      apply (Permutation_in _ (insert_by_perm x l)) in Hz.
      destruct Hz as [<-|Hz]; [now apply total_order|auto].
Qed.

Lemma sort_by_sorted : forall l,
  Forall comparable l ->
  StronglySorted (fun a b => may_precede a b = true) (sort_by may_precede l).
Proof.
  induction l as [|x l IH]; intros Hc; cbn; [constructor|].
  inversion Hc as [|? ? Hx Hc']; subst.
  apply insert_by_sorted; [|now apply IH].
  eapply Permutation_Forall; [|exact Hc'].
  apply Permutation_sym, sort_by_perm.
Qed.

Lemma insert_by_stable : forall (same : A -> bool) x l,
  (forall a b, same a = true -> same b = true -> may_precede a b = true) ->
  filter same (insert_by may_precede x l) = filter same (x :: l).
Proof.
  intros same x l Hsame. induction l as [|y l IH]; [reflexivity|].
  cbn [insert_by]. destruct (may_precede x y) eqn:E; [reflexivity|].
  cbn [filter] in *. rewrite IH.
  destruct (same x) eqn:Ex; destruct (same y) eqn:Ey; try reflexivity.
  rewrite (Hsame x y Ex Ey) in E. discriminate.
Qed.

Lemma sort_by_stable : forall (same : A -> bool) l,
  (forall a b, same a = true -> same b = true -> may_precede a b = true) ->
  filter same (sort_by may_precede l) = filter same l.
Proof.
  intros same l Hsame. induction l as [|x l IH]; [reflexivity|].
  cbn [sort_by fold_right]. fold (sort_by may_precede l).
  rewrite insert_by_stable by exact Hsame. cbn [filter]. now rewrite IH.
Qed.
End StableSort.

Lemma StronglySorted_weaken : forall {A} (P : A -> Prop) (R R' : A -> A -> Prop) l,
  Forall P l ->
  (forall a b, P a -> P b -> R a b -> R' a b) ->
  StronglySorted R l -> StronglySorted R' l.
Proof.
  intros A P R R' l HP HR Hs.
  induction Hs as [|x l Hs IH Hall]; constructor;
    inversion HP as [|? ? Hx HP']; subst; [now apply IH|].
  rewrite Forall_forall in *. intros b Hb. apply HR; auto.
Qed.

Lemma worst_first_total : forall x y,
  worst_first x y = false -> worst_first y x = true.
Proof.
  unfold worst_first. intros x y H. apply negb_false_iff in H.
  now rewrite (ltb_asym _ _ H).
Qed.

Lemma worst_first_trans : forall x y z,
  accuracy_is_number y ->
  worst_first x y = true -> worst_first y z = true -> worst_first x z = true.
Proof.
  unfold worst_first, accuracy_is_number. intros x y z Hy H1 H2.
  apply negb_true_iff in H1, H2. apply negb_true_iff.
  exact (not_ltb_trans _ _ _ Hy H1 H2).
Qed.

Lemma best_first_total : forall x y,
  best_first x y = false -> best_first y x = true.
Proof.
  unfold best_first. intros x y H. apply negb_false_iff in H.
  now rewrite (ltb_asym _ _ H).
Qed.

Lemma best_first_trans : forall x y z,
  accuracy_is_number y ->
  best_first x y = true -> best_first y z = true -> best_first x z = true.
Proof.
  unfold best_first, accuracy_is_number. intros x y z Hy H1 H2.
  apply negb_true_iff in H1, H2. apply negb_true_iff.
  exact (not_ltb_trans _ _ _ Hy H2 H1).
Qed.

Lemma same_accuracy_not_less : forall q a b,
  same_accuracy q a = true -> same_accuracy q b = true ->
  PyFloat.ltb (a_accuracy b) (a_accuracy a) = false.
Proof.
  unfold same_accuracy. intros q a b Ha Hb. exact (eqb_not_ltb _ _ _ Ha Hb).
Qed.

(** ** Weak and strong areas *)

Lemma get_all_chunk_performance_wf : forall u w,
  Dict.wf (fst (get_all_chunk_performance u w)).
Proof.
  intros u w. unfold get_all_chunk_performance, bind, load_state, ret.
  destruct (chunk_performance (store w u)) as [ledger|]; cbn [fst];
    [|constructor].
  assert (H : forall l acc,
             Dict.wf acc ->
             Dict.wf (fold_left
                        (fun result (item : string * ChunkRecord) =>
                           Dict.set (fst item) (metrics_of (snd item)) result)
                        l acc)).
  { induction l as [|x l IH]; intros acc Hacc; [exact Hacc|].
    cbn [fold_left]. apply IH. now apply wf_set. }
  apply H. constructor.
Qed.

Lemma get_weak_areas_unfold : forall threshold min_attempts u w,
  get_weak_areas threshold min_attempts u w
  = (sort_by worst_first
       (List.map (fun item => area_of (fst item) (snd item))
          (List.filter (weak_item threshold min_attempts)
                       (fst (get_all_chunk_performance u w)))),
     w).
Proof.
  intros. unfold get_weak_areas, bind, ret.
  assert (Hw : snd (get_all_chunk_performance u w) = w).
  { unfold get_all_chunk_performance, bind, load_state, ret.
    destruct (chunk_performance (store w u)); reflexivity. }
  destruct (get_all_chunk_performance u w) as [all_perf w1].
  cbn [fst snd] in *. now subst w1.
Qed.

Lemma get_strong_areas_unfold : forall threshold min_attempts u w,
  get_strong_areas threshold min_attempts u w
  = (sort_by best_first
       (List.map (fun item => area_of (fst item) (snd item))
          (List.filter (strong_item threshold min_attempts)
                       (fst (get_all_chunk_performance u w)))),
     w).
Proof.
  intros. unfold get_strong_areas, bind, ret.
  assert (Hw : snd (get_all_chunk_performance u w) = w).
  { unfold get_all_chunk_performance, bind, load_state, ret.
    destruct (chunk_performance (store w u)); reflexivity. }
  destruct (get_all_chunk_performance u w) as [all_perf w1].
  cbn [fst snd] in *. now subst w1.
Qed.

Lemma In_set : forall {V} (d : Dict.t V) k v x,
  In x (Dict.set k v d) -> x = (k, v) \/ In x d.
Proof.
  induction d as [|[k0 v0] d IH]; intros k v x H; cbn in *.
  - destruct H as [<-|[]]. now left.
  - destruct (String.eqb k k0); cbn in H.
    + destruct H as [<-|H]; auto.
    + destruct H as [<-|H]; auto.
      destruct (IH _ _ _ H); auto.
Qed.

Lemma get_all_chunk_performance_values : forall u w k m,
  In (k, m) (fst (get_all_chunk_performance u w)) ->
  exists r, m = metrics_of r.
Proof.
  intros u w k m. unfold get_all_chunk_performance, bind, load_state, ret.
  destruct (chunk_performance (store w u)) as [ledger|]; cbn [fst];
    [|intros []].
  assert (H : forall l acc,
             (forall k m, In (k, m) acc -> exists r, m = metrics_of r) ->
             forall k m,
               In (k, m)
                  (fold_left
                     (fun result (item : string * ChunkRecord) =>
                        Dict.set (fst item) (metrics_of (snd item)) result)
                     l acc) ->
               exists r, m = metrics_of r).
  { induction l as [|x l IH]; intros acc Hacc; [exact Hacc|].
    cbn [fold_left]. apply IH. intros k0 m0 Hin.
    apply In_set in Hin. destruct Hin as [E|Hin]; [|eauto].
    inversion E; subst. eauto. }
  apply H. intros ? ? [].
Qed.

Lemma areas_are_numbers : forall u w (keep : string * Metrics -> bool),
  Forall accuracy_is_number
    (List.map (fun item => area_of (fst item) (snd item))
       (List.filter keep (fst (get_all_chunk_performance u w)))).
Proof.
  intros u w keep. apply Forall_forall. intros a Ha.
  apply in_map_iff in Ha. destruct Ha as ([k m] & <- & Hin).
  apply filter_In in Hin. destruct Hin as [Hin _].
  apply get_all_chunk_performance_values in Hin. destruct Hin as [r ->].
  apply accuracy_of_not_nan.
Qed.

(** X18. get_weak_areas lists exactly the chunks with at least min_attempts
    attempts and an accuracy below the threshold, each once, worst accuracy
    first; the accuracy compared is the float of correct / attempts * 100,
    which for 29 of 50 is 57.99999999999999 and lies below 58.0; chunks of
    equal accuracy keep the order of the ledger; nothing is written. *)
Theorem get_weak_areas_sorted_and_complete :
  forall (threshold : PyFloat.t) (min_attempts : Z)
         (username : option string) (w : World),
    let all_perf := fst (get_all_chunk_performance username w) in
    let weak := fst (get_weak_areas threshold min_attempts username w) in
    Permutation weak
      (List.map (fun item => area_of (fst item) (snd item))
         (List.filter (weak_item threshold min_attempts) all_perf))
    /\ (forall a,
          In a weak ->
          (min_attempts <= a_attempts a)%Z
          /\ PyFloat.ltb (a_accuracy a) threshold = true
          /\ a_accuracy a = accuracy_of (a_correct a) (a_attempts a)
          /\ exists m, In (a_chunk_id a, m) all_perf
                       /\ a = area_of (a_chunk_id a) m)
    /\ StronglySorted
         (fun a b => PyFloat.leb (a_accuracy a) (a_accuracy b) = true) weak
    /\ (forall q,
          List.filter (same_accuracy q) weak
          = List.filter (same_accuracy q)
              (List.map (fun item => area_of (fst item) (snd item))
                 (List.filter (weak_item threshold min_attempts) all_perf)))
    /\ snd (get_weak_areas threshold min_attempts username w) = w.
Proof.
  intros thr mn u w all_perf weak. subst weak.
  rewrite get_weak_areas_unfold. cbn [fst snd]. fold all_perf.
  pose proof (areas_are_numbers u w (weak_item thr mn)) as Hnum.
  fold all_perf in Hnum.
  set (cands := List.map (fun item => area_of (fst item) (snd item))
                  (List.filter (weak_item thr mn) all_perf)) in *.
  split; [apply sort_by_perm|].
  split.
  { intros a Ha. apply (Permutation_in _ (sort_by_perm worst_first cands))
      in Ha.
    subst cands. apply in_map_iff in Ha. destruct Ha as ([k m] & <- & Hin).
    apply filter_In in Hin. destruct Hin as [Hin Hw].
    unfold weak_item in Hw. cbn [fst snd] in *.
    apply andb_true_iff in Hw. destruct Hw as [Hm Hq].
    apply Z.leb_le in Hm.
    destruct (get_all_chunk_performance_values u w k m Hin) as [r ->].
    cbn. repeat split; auto. exists (metrics_of r). auto. }
  split.
  { pose proof (sort_by_sorted worst_first accuracy_is_number
                  worst_first_total worst_first_trans cands Hnum) as Hs.
    eapply (StronglySorted_weaken accuracy_is_number); [| |exact Hs].
    - eapply Permutation_Forall; [|exact Hnum].
      apply Permutation_sym, sort_by_perm.
    - intros a b Ha Hb Hab. unfold worst_first in Hab.
      apply negb_true_iff in Hab. now apply not_ltb_leb. }
  split; [|reflexivity].
  intros q. apply sort_by_stable. intros a b Ha Hb. unfold worst_first.
  now rewrite (same_accuracy_not_less q a b).
Qed.

Lemma get_weak_areas_sorted_and_complete_witness :
  PyFloat.ltb (a_accuracy (area_of "36975731_chunk_3"
                             (metrics_of (mkChunkRecord
                                29 21 50 (Some "2024-01-04T08:00:00")
                                "Chunk 3 - Rounding" None []))))
              (PyFloat.of_int 58)
  = true.
Proof.
  refine (proj1 (proj2 (proj1 (proj2 (get_weak_areas_sorted_and_complete
                   (PyFloat.of_int 58) 2 None
                   (world_of (mkState None (Some rounding_ledger)))))
                _ _))).
  vm_compute. left. reflexivity.
Defined.

(** X19. get_strong_areas lists exactly the chunks with at least
    min_attempts attempts and an accuracy of at least the threshold, each
    once, best accuracy first; the accuracy compared is the float of
    correct / attempts * 100; chunks of equal accuracy keep the order of the
    ledger; nothing is written. *)
Theorem get_strong_areas_sorted_and_complete :
  forall (threshold : PyFloat.t) (min_attempts : Z)
         (username : option string) (w : World),
    let all_perf := fst (get_all_chunk_performance username w) in
    let strong := fst (get_strong_areas threshold min_attempts username w) in
    Permutation strong
      (List.map (fun item => area_of (fst item) (snd item))
         (List.filter (strong_item threshold min_attempts) all_perf))
    /\ (forall a,
          In a strong ->
          (min_attempts <= a_attempts a)%Z
          /\ PyFloat.leb threshold (a_accuracy a) = true
          /\ a_accuracy a = accuracy_of (a_correct a) (a_attempts a)
          /\ exists m, In (a_chunk_id a, m) all_perf
                       /\ a = area_of (a_chunk_id a) m)
    /\ StronglySorted
         (fun a b => PyFloat.leb (a_accuracy b) (a_accuracy a) = true) strong
    /\ (forall q,
          List.filter (same_accuracy q) strong
          = List.filter (same_accuracy q)
              (List.map (fun item => area_of (fst item) (snd item))
                 (List.filter (strong_item threshold min_attempts)
                              all_perf)))
    /\ snd (get_strong_areas threshold min_attempts username w) = w.
Proof.
  intros thr mn u w all_perf strong. subst strong.
  rewrite get_strong_areas_unfold. cbn [fst snd]. fold all_perf.
  pose proof (areas_are_numbers u w (strong_item thr mn)) as Hnum.
  fold all_perf in Hnum.
  set (cands := List.map (fun item => area_of (fst item) (snd item))
                  (List.filter (strong_item thr mn) all_perf)) in *.
  split; [apply sort_by_perm|].
  split.
  { intros a Ha. apply (Permutation_in _ (sort_by_perm best_first cands))
      in Ha.
    subst cands. apply in_map_iff in Ha. destruct Ha as ([k m] & <- & Hin).
    apply filter_In in Hin. destruct Hin as [Hin Hw].
    unfold strong_item in Hw. cbn [fst snd] in *.
    apply andb_true_iff in Hw. destruct Hw as [Hm Hq].
    apply Z.leb_le in Hm.
    destruct (get_all_chunk_performance_values u w k m Hin) as [r ->].
    cbn. repeat split; auto. exists (metrics_of r). auto. }
  split.
  { pose proof (sort_by_sorted best_first accuracy_is_number
                  best_first_total best_first_trans cands Hnum) as Hs.
    eapply (StronglySorted_weaken accuracy_is_number); [| |exact Hs].
    - eapply Permutation_Forall; [|exact Hnum].
      apply Permutation_sym, sort_by_perm.
    - intros a b Ha Hb Hab. unfold best_first in Hab.
      apply negb_true_iff in Hab. now apply not_ltb_leb. }
  split; [|reflexivity].
  intros q. apply sort_by_stable. intros a b Ha Hb. unfold best_first.
  now rewrite (same_accuracy_not_less q b a).
Qed.

Lemma get_strong_areas_sorted_and_complete_witness :
  PyFloat.leb (PyFloat.of_int 70)
              (a_accuracy (area_of "36975731_chunk_1"
                             (metrics_of (mkChunkRecord
                                3 1 4 (Some "2024-01-02T10:00:00")
                                "Chunk 1 - Introduction" (Some "doc.pdf")
                                []))))
  = true.
Proof.
  refine (proj1 (proj2 (proj1 (proj2 (get_strong_areas_sorted_and_complete
                   (PyFloat.of_int 70) 2 None
                   (world_of (mkState None (Some mixed_ledger)))))
                _ _))).
  vm_compute. left. reflexivity.
Defined.

Lemma In_wf_unique : forall {V} (d : Dict.t V) k v1 v2,
  Dict.wf d -> In (k, v1) d -> In (k, v2) d -> v1 = v2.
Proof.
  intros V d k v1 v2 Hwf H1 H2.
  apply (In_get_wf d k v1 Hwf) in H1. apply (In_get_wf d k v2 Hwf) in H2.
  congruence.
Qed.

(** X20. No chunk is both weak and strong: when the weak threshold is at
    most the strong threshold, the chunk keys of get_weak_areas and of
    get_strong_areas on the same state are disjoint, whatever the minimal
    numbers of attempts. *)
Theorem weak_and_strong_areas_disjoint :
  forall (weak_threshold strong_threshold : PyFloat.t)
         (min_weak min_strong : Z)
         (username : option string) (w : World) (a b : Area),
    PyFloat.leb weak_threshold strong_threshold = true ->
    In a (fst (get_weak_areas weak_threshold min_weak username w)) ->
    In b (fst (get_strong_areas strong_threshold min_strong username w)) ->
    a_chunk_id a <> a_chunk_id b.
Proof.
  intros wt st mw ms u w a b Hle Ha Hb Heq.
  rewrite get_weak_areas_unfold in Ha. rewrite get_strong_areas_unfold in Hb.
  cbn [fst] in Ha, Hb.
  apply (Permutation_in _ (sort_by_perm worst_first _)) in Ha.
  apply (Permutation_in _ (sort_by_perm best_first _)) in Hb.
  apply in_map_iff in Ha. destruct Ha as ([k1 m1] & <- & Hin1).
  apply in_map_iff in Hb. destruct Hb as ([k2 m2] & <- & Hin2).
  apply filter_In in Hin1. destruct Hin1 as [Hin1 Hw].
  apply filter_In in Hin2. destruct Hin2 as [Hin2 Hs].
  cbn in Heq. subst k2.
  assert (m1 = m2)
    by (eapply In_wf_unique; eauto using get_all_chunk_performance_wf).
  subst m2. unfold weak_item, strong_item in *. cbn [snd] in *.
  apply andb_true_iff in Hw. destruct Hw as [_ Hw].
  apply andb_true_iff in Hs. destruct Hs as [_ Hs].
  exact (ltb_leb_leb _ _ _ Hw Hle Hs).
Qed.

Lemma weak_and_strong_areas_disjoint_witness :
  a_chunk_id (area_of "36975731_chunk_2"
                      (metrics_of (mkChunkRecord
                         1 3 4 (Some "2024-01-03T09:00:00")
                         "Chunk 2 - Outlook" None [])))
  <> a_chunk_id (area_of "36975731_chunk_1"
                         (metrics_of (mkChunkRecord
                            3 1 4 (Some "2024-01-02T10:00:00")
                            "Chunk 1 - Introduction" (Some "doc.pdf") []))).
Proof.
  refine (weak_and_strong_areas_disjoint
            (PyFloat.of_int 60) (PyFloat.of_int 70) 2 2 None
            (world_of (mkState None (Some mixed_ledger)))
            _ _ _ _ _).
  - vm_compute. reflexivity.
  - vm_compute. left. reflexivity.
  - vm_compute. left. reflexivity.
Defined.

(** ** Registration and lookup *)

Lemma register_file_unfold : forall filename u w,
  register_file filename u w
  = (file_hash_of filename,
     if Dict.mem (file_hash_of filename) (registry_of w u) then w
     else snd (info ("Registered file: " ++ filename ++ " -> "
                     ++ file_hash_of filename)
                    (snd (save_state
                            (mkState
                               (Some (Dict.set (file_hash_of filename)
                                               filename (registry_of w u)))
                               (chunk_performance (store w u))) u w)))).
Proof.
  intros fn u w. unfold register_file, bind, load_state, ret.
  fold (registry_of w u).
  destruct (Dict.mem (file_hash_of fn) (registry_of w u)); reflexivity.
Qed.

(** X21. After register_file the registry maps the returned identifier to a
    filename: to the one it had when it was registered before (the first
    registration wins, also against another filename with the same
    identifier), and to the given filename otherwise.  Every other
    identifier, the ledger and the other users are as before. *)
Theorem register_file_lookup :
  forall (filename : string) (username : option string) (w : World),
    let file_hash := fst (register_file filename username w) in
    let w' := snd (register_file filename username w) in
    Dict.get file_hash (registry_of w' username)
    = Some (match Dict.get file_hash (registry_of w username) with
            | Some first => first
            | None => filename
            end)
    /\ (forall fh, fh <> file_hash ->
                   Dict.get fh (registry_of w' username)
                   = Dict.get fh (registry_of w username))
    /\ chunk_performance (store w' username)
       = chunk_performance (store w username)
    /\ (forall u', store w' u'
                   = if user_eqb u' username then store w' username
                     else store w u').
Proof.
  intros fn u w file_hash w'. subst file_hash w'.
  rewrite register_file_unfold. cbn [fst snd].
  unfold Dict.mem.
  destruct (Dict.get (file_hash_of fn) (registry_of w u)) as [first|] eqn:E.
  - rewrite E. repeat split; auto.
    intros u'. destruct (user_eqb u' u) eqn:Hu; [|reflexivity].
    apply user_eqb_eq in Hu. now subst.
  - unfold registry_of at 1 3. cbn. rewrite user_eqb_refl. cbn.
    split; [apply get_set_same|].
    split; [intros fh Hne; apply get_set_other; congruence|].
    split; [reflexivity|].
    intros u'. destruct (user_eqb u' u); reflexivity.
Qed.

Lemma register_file_lookup_witness :
  Dict.get "a5d5286f"
    (registry_of
       (snd (register_file
               "doc.pdf" None
               (world_of (mkState (Some [("a5d5286f", "notes.txt")]) None))))
       None)
  = Dict.get "a5d5286f"
      (registry_of (world_of (mkState (Some [("a5d5286f", "notes.txt")])
                                      None)) None).
Proof.
  refine (proj1 (proj2 (register_file_lookup
            "doc.pdf" None
            (world_of (mkState (Some [("a5d5286f", "notes.txt")]) None))))
            "a5d5286f" _).
  vm_compute. discriminate.
Defined.

(** ** From registration to the rollup *)

Lemma bucket_of_chunk_key : forall ref fn,
  PyStr.nonempty fn = true ->
  bucket_of (extract_chunk_id_from_reference ref (Some fn))
  = file_hash_of fn.
Proof.
  intros ref fn Hfn. unfold extract_chunk_id_from_reference.
  cbn [PyStr.truthy]. rewrite Hfn.
  unfold bucket_of, PyStr.contains, PyStr.split_head.
  rewrite (split_first_after_plain _ _ _ "_"%char "chunk_");
    [reflexivity|reflexivity|].
  apply hex_not_underscore, all_chars_take, hexdigest_is_hex.
Qed.

Lemma seed_from_registry : forall fh m u w name,
  real_filename (m_filename m) = false ->
  Dict.get fh (registry_of w u) = Some name ->
  fst (seed_filename fh m u w) = Some name.
Proof.
  intros fh m u w name Hnot Hreg.
  unfold seed_filename, bind, load_state, ret, mapping_lookup.
  unfold real_filename in Hnot.
  assert (Hc : negb (PyStr.truthy (m_filename m))
               || is_unknown_file (m_filename m) = true).
  { destruct (PyStr.truthy (m_filename m)); cbn in *; [|reflexivity].
    now apply negb_false_iff in Hnot. }
  rewrite Hc. cbn [fst]. unfold registry_of in Hreg.
  destruct (file_mapping (store w u)) as [mapping|]; [|discriminate Hreg].
  cbn in Hreg. destruct mapping; [discriminate Hreg|exact Hreg].
Qed.

(** X22. A registered file shows in the rollups: after register_file has
    registered a filename (neither empty nor "unknown_file") under a new
    identifier, grouping metrics whose first chunk has a key built by
    extract_chunk_id_from_reference with that filename, and no filename of
    its own, gives the rollup of the identifier the registered filename. *)
Theorem registered_filename_reaches_rollup :
  forall (filename source_reference : string) (m : Metrics)
         (post : Dict.t Metrics) (username : option string) (w : World),
    real_filename (Some filename) = true ->
    Dict.get (file_hash_of filename) (registry_of w username) = None ->
    real_filename (m_filename m) = false ->
    let w1 := snd (register_file filename username w) in
    let key :=
      extract_chunk_id_from_reference source_reference (Some filename) in
    exists r,
      Dict.get (fst (register_file filename username w))
               (fst (group_chunks_by_file ((key, m) :: post) username w1))
      = Some r
      /\ f_filename r = Some filename
      /\ Dict.mem key (f_chunks r) = true.
Proof.
  intros fn ref m post u w Hreal Hnew Hnot w1 key.
  assert (Hne : PyStr.nonempty fn = true).
  { unfold real_filename in Hreal. cbn in Hreal.
    apply andb_true_iff in Hreal. tauto. }
  assert (Hb : bucket_of key = file_hash_of fn)
    by (apply bucket_of_chunk_key; exact Hne).
  assert (Hw1 : Dict.get (file_hash_of fn) (registry_of w1 u) = Some fn).
  { subst w1. rewrite register_file_unfold. cbn [snd].
    unfold Dict.mem. rewrite Hnew.
    unfold registry_of at 1. cbn. rewrite user_eqb_refl. cbn.
    apply get_set_same. }
  rewrite register_file_unfold. cbn [fst].
  rewrite group_chunks_by_file_unfold.
  set (w2 := snd (backfill_file_mapping_from_chunks u w1)).
  destruct (backfill_extends u w1) as (_ & _ & Hkeep & _). fold w2 in Hkeep.
  pose proof (group_first_chunk u [] key m post w2) as Hfirst.
  cbv zeta in Hfirst.
  change (snd (for_each [] (group_step u) [] w2)) with w2 in Hfirst.
  change ([] ++ (key, m) :: post)%list with ((key, m) :: post) in Hfirst.
  rewrite Hb in Hfirst.
  rewrite (seed_from_registry _ _ _ _ fn Hnot (Hkeep _ _ Hw1)) in Hfirst.
  destruct Hfirst as (r & Hr & Hf); [intros item []|exact Hreal|].
  destruct (group_loop u ((key, m) :: post) [] w2)
    as (_ & _ & _ & _ & _ & _ & Hin).
  destruct (Hin key m (or_introl eq_refl)) as (r' & Hr' & Hm' & _).
  rewrite Hb in Hr'. assert (r' = r) by congruence. subst r'.
  exists (close_rollup r). rewrite get_close, Hr. cbn. auto.
Qed.

Lemma registered_filename_reaches_rollup_witness :
  exists r,
    Dict.get (fst (register_file "doc.pdf" None (world_of empty_state)))
      (fst (group_chunks_by_file
              ((extract_chunk_id_from_reference "Chunk 3 - Intro"
                                                (Some "doc.pdf"),
                sample_metrics None)
               :: [("legacy key", sample_metrics None)])
              None
              (snd (register_file "doc.pdf" None (world_of empty_state)))))
    = Some r
    /\ f_filename r = Some "doc.pdf"
    /\ Dict.mem (extract_chunk_id_from_reference "Chunk 3 - Intro"
                                                 (Some "doc.pdf"))
                (f_chunks r) = true.
Proof.
  exact (registered_filename_reaches_rollup
           "doc.pdf" "Chunk 3 - Intro" (sample_metrics None)
           [("legacy key", sample_metrics None)] None (world_of empty_state)
           eq_refl eq_refl eq_refl).
Defined.

(** ** The most recent attempt of a rollup *)

Lemma ascii_compare_lt_trans : forall a b c,
  Ascii.compare a b = Lt -> Ascii.compare b c = Lt -> Ascii.compare a c = Lt.
Proof.
  unfold Ascii.compare. intros a b c H1 H2.
  rewrite N.compare_lt_iff in *. lia.
Qed.

Lemma string_compare_lt_trans : forall a b c,
  String.compare a b = Lt -> String.compare b c = Lt ->
  String.compare a c = Lt.
Proof.
  induction a as [|x a IH]; intros [|y b] [|z c] H1 H2; cbn in *;
    try discriminate; auto.
  destruct (Ascii.compare x y) eqn:Exy; try discriminate;
    destruct (Ascii.compare y z) eqn:Eyz; try discriminate.
  - apply Ascii.compare_eq_iff in Exy, Eyz. subst.
    assert (Ascii.compare z z = Eq) as ->.
    { unfold Ascii.compare. apply N.compare_refl. }
    eauto.
  - apply Ascii.compare_eq_iff in Exy. subst. now rewrite Eyz.
  - apply Ascii.compare_eq_iff in Eyz. subst. now rewrite Exy.
  - now rewrite (ascii_compare_lt_trans _ _ _ Exy Eyz).
Qed.

Lemma string_compare_refl : forall a, String.compare a a = Eq.
Proof.
  induction a as [|x a IH]; cbn; [reflexivity|].
  assert (Ascii.compare x x = Eq) as ->; [|exact IH].
  unfold Ascii.compare. apply N.compare_refl.
Qed.

Lemma leb_trans : forall a b c,
  String.leb a b = true -> String.leb b c = true -> String.leb a c = true.
Proof.
  unfold String.leb. intros a b c H1 H2.
  destruct (String.compare a b) eqn:Eab; try discriminate;
    destruct (String.compare b c) eqn:Ebc; try discriminate.
  - apply String.compare_eq_iff in Eab, Ebc. subst.
    now rewrite string_compare_refl.
  - apply String.compare_eq_iff in Eab. subst. now rewrite Ebc.
  - apply String.compare_eq_iff in Ebc. subst. now rewrite Eab.
  - now rewrite (string_compare_lt_trans _ _ _ Eab Ebc).
Qed.

Lemma max_from_greatest : forall l m,
  let r := PyStr.max_from m l in
  In r (m :: l) /\ forall t, In t (m :: l) -> String.leb t r = true.
Proof.
  induction l as [|x l IH]; intros m; cbn [PyStr.max_from].
  - cbv zeta. split; [now left|].
    intros t [<-|[]]. unfold String.leb. now rewrite string_compare_refl.
  - specialize (IH (if String.ltb m x then x else m)). cbv zeta in IH |- *.
    destruct IH as [Hin Hmax]. split.
    + destruct Hin as [Hin|Hin]; [|right; now right].
      rewrite <- Hin. destruct (String.ltb m x); [right|]; now left.
    + intros t Ht.
      assert (Hm : String.leb m (if String.ltb m x then x else m) = true
                   /\ String.leb x (if String.ltb m x then x else m) = true).
      { unfold String.ltb, String.leb.
        destruct (String.compare m x) eqn:E;
          rewrite ?string_compare_refl, ?E;
          rewrite ?(String.compare_antisym x m), ?E; cbn; auto. }
      destruct Hm as [Hm Hx].
      destruct Ht as [<-|[<-|Ht]].
      * eapply leb_trans; [exact Hm|]. apply Hmax. now left.
      * eapply leb_trans; [exact Hx|]. apply Hmax. now left.
      * apply Hmax. now right.
Qed.

Lemma last_attempts_In : forall chunks t,
  In t (last_attempts chunks)
  <-> PyStr.nonempty t = true
      /\ exists p, In p chunks /\ m_last_attempt p = Some t.
Proof.
  induction chunks as [|p chunks IH]; intros t; cbn [last_attempts].
  - split; [intros []|intros (_ & p & [] & _)].
  - destruct (m_last_attempt p) as [t0|] eqn:E.
    + destruct (PyStr.nonempty t0) eqn:En.
      * cbn [In]. rewrite IH. split.
        -- intros [<-|(Hn & q & Hq & Ht)].
           ++ split; [exact En|]. exists p. split; [now left|exact E].
           ++ split; [exact Hn|]. exists q. split; [now right|exact Ht].
        -- intros (Hn & q & [<-|Hq] & Ht).
           ++ left. congruence.
           ++ right. split; [exact Hn|]. exists q. auto.
      * rewrite IH. split.
        -- intros (Hn & q & Hq & Ht). split; [exact Hn|].
           exists q. split; [now right|exact Ht].
        -- intros (Hn & q & [<-|Hq] & Ht).
           ++ rewrite E in Ht. inversion Ht; subst. congruence.
           ++ split; [exact Hn|]. exists q. auto.
    + rewrite IH. split.
      * intros (Hn & q & Hq & Ht). split; [exact Hn|].
        exists q. split; [now right|exact Ht].
      * intros (Hn & q & [<-|Hq] & Ht); [congruence|].
        split; [exact Hn|]. exists q. auto.
Qed.

(** X23. The last_attempt of a rollup is the greatest last_attempt of its
    chunks in the order of strings: it is the non-empty last_attempt of one
    of them and none of them has a greater one; it is None exactly when no
    chunk of the rollup has a non-empty last_attempt. *)
Theorem rollup_last_attempt_is_latest :
  forall (all_perf : Dict.t Metrics) (username : option string) (w : World)
         (fh : string) (r : FileRollup),
    Dict.get fh (fst (group_chunks_by_file all_perf username w)) = Some r ->
    match f_last_attempt r with
    | Some t =>
        PyStr.nonempty t = true
        /\ (exists p, In p (Dict.values (f_chunks r))
                      /\ m_last_attempt p = Some t)
        /\ (forall p t',
              In p (Dict.values (f_chunks r)) ->
              m_last_attempt p = Some t' -> String.leb t' t = true)
    | None =>
        forall p, In p (Dict.values (f_chunks r)) ->
                  PyStr.truthy (m_last_attempt p) = false
    end.
Proof.
  intros all_perf u w fh r Hget.
  rewrite group_chunks_by_file_unfold, get_close in Hget.
  destruct (Dict.get fh _) as [r0|]; [|discriminate].
  cbn in Hget. inversion Hget; subst r. clear Hget.
  cbn [close_rollup f_last_attempt f_chunks].
  set (chunks := Dict.values (f_chunks r0)).
  pose proof (last_attempts_In chunks) as HIn.
  destruct (last_attempts chunks) as [|t0 ts] eqn:E; cbn [PyStr.max_opt].
  - intros p Hp. destruct (m_last_attempt p) as [t|] eqn:Et; [|reflexivity].
    cbn. destruct (PyStr.nonempty t) eqn:En; [|reflexivity].
    exfalso. apply (proj2 (HIn t)). eauto.
  - destruct (max_from_greatest ts t0) as [Hin Hmax]. cbv zeta in Hin, Hmax.
    apply HIn in Hin. destruct Hin as (Hn & p & Hp & Ht).
    split; [exact Hn|]. split; [eauto|].
    intros q t' Hq Ht'. destruct (PyStr.nonempty t') eqn:En.
    + apply Hmax. apply HIn. eauto.
    + destruct t'; [|discriminate]. unfold String.leb.
      now destruct (PyStr.max_from t0 ts).
Qed.

Lemma rollup_last_attempt_is_latest_witness :
  exists r,
    Dict.get "36975731"
             (fst (group_chunks_by_file sample_perf None
                                        (world_of empty_state))) = Some r
    /\ match f_last_attempt r with
       | Some t =>
           PyStr.nonempty t = true
           /\ (exists p, In p (Dict.values (f_chunks r))
                         /\ m_last_attempt p = Some t)
           /\ (forall p t',
                 In p (Dict.values (f_chunks r)) ->
                 m_last_attempt p = Some t' -> String.leb t' t = true)
       | None =>
           forall p, In p (Dict.values (f_chunks r)) ->
                     PyStr.truthy (m_last_attempt p) = false
       end.
Proof.
  eexists. split; [vm_compute; reflexivity|].
  match goal with
  | |- match f_last_attempt ?r with _ => _ end =>
      apply (rollup_last_attempt_is_latest
               sample_perf None (world_of empty_state) "36975731" r)
  end.
  vm_compute. reflexivity.
Defined.

(** ** The order of the rollups and of their chunks *)

Lemma mem_existsb : forall {V} (d : Dict.t V) k,
  Dict.mem k d = existsb (String.eqb k) (Dict.keys d).
Proof.
  intros V d k. unfold Dict.mem.
  induction d as [|[k0 v0] d IH]; cbn; [reflexivity|].
  destruct (String.eqb k k0); [reflexivity|exact IH].
Qed.

Lemma group_loop_keys :
  forall u items files w,
    Dict.keys (fst (for_each items (group_step u) files w))
    = fold_left (fun seen k =>
                   if existsb (String.eqb k) seen then seen
                   else (seen ++ [k])%list)
                (List.map (fun item => bucket_of (fst item)) items)
                (Dict.keys files).
Proof.
  intros u items. induction items as [|[k m] items IH]; intros files w;
    [reflexivity|].
  cbn [for_each List.map fold_left fst]. unfold bind.
  destruct (group_step_shape u files k m w) as [fn Hs].
  destruct (group_step u files (k, m) w) as [files1 w1]. cbn [fst] in Hs.
  rewrite IH, Hs, keys_set, mem_existsb. reflexivity.
Qed.

Lemma group_loop_chunk_keys :
  forall u items files w,
    Dict.wf items ->
    (forall fh r k, Dict.get fh files = Some r ->
                    Dict.mem k (f_chunks r) = true ->
                    ~ In k (Dict.keys items)) ->
    forall fh,
      Dict.keys (chunks_of
                   (Dict.get fh (fst (for_each items (group_step u)
                                               files w))))
      = (Dict.keys (chunks_of (Dict.get fh files))
         ++ List.filter (fun k => String.eqb (bucket_of k) fh)
                        (Dict.keys items))%list.
Proof.
  intros u items. induction items as [|[k m] items IH];
    intros files w Hwf Hfresh fh.
  - cbn. now rewrite app_nil_r.
  - cbn [for_each]. unfold bind.
    pose proof (fun fh => group_step_get u files k m w fh) as Hstep.
    cbv zeta in Hstep.
    destruct (group_step u files (k, m) w) as [files1 w1].
    cbn [fst] in Hstep.
    unfold Dict.wf in Hwf. cbn in Hwf.
    inversion Hwf as [|? ? Hnot Hnd]; subst x l.
    rewrite IH; [|exact Hnd|].
    + cbn [Dict.keys List.map fst filter].
      fold (Dict.keys items). specialize (Hstep fh).
      destruct (String.eqb (bucket_of k) fh).
      * destruct Hstep as (r1 & Hr1 & Hch). rewrite Hr1. cbn [chunks_of].
        rewrite Hch, keys_set.
        assert (Hm : Dict.mem k (chunks_of (Dict.get fh files)) = false).
        { destruct (Dict.get fh files) as [r0|] eqn:E; [|reflexivity].
          cbn. destruct (Dict.mem k (f_chunks r0)) eqn:Em; [|reflexivity].
          exfalso. apply (Hfresh fh r0 k E Em). cbn. auto. }
        rewrite Hm, <- app_assoc. reflexivity.
      * now rewrite Hstep.
    + intros fh0 r0 k0 H0 Hm0 HIn. specialize (Hstep fh0).
      destruct (String.eqb (bucket_of k) fh0).
      * destruct Hstep as (r1 & Hr1 & Hch).
        assert (r1 = r0) by congruence. subst r1.
        rewrite Hch, mem_set in Hm0.
        destruct (String.eqb_spec k k0) as [<-|Hk]; [tauto|].
        cbn in Hm0.
        destruct (Dict.get fh0 files) as [r2|] eqn:E2; [|discriminate].
        apply (Hfresh fh0 r2 k0 E2 Hm0). cbn. auto.
      * rewrite Hstep in H0. apply (Hfresh fh0 r0 k0 H0 Hm0). cbn. auto.
Qed.

(** X24. group_chunks_by_file keeps the order of its input: the rollups
    appear in the order in which their file identifiers first occur among
    the chunk keys, and the chunk map of a rollup lists the chunk keys of
    its identifier in the order of the input. *)
Theorem group_chunks_by_file_keeps_order :
  forall (all_perf : Dict.t Metrics) (username : option string) (w : World),
    let files := fst (group_chunks_by_file all_perf username w) in
    Dict.keys files
    = first_seen (List.map (fun item => bucket_of (fst item)) all_perf)
    /\ (Dict.wf all_perf ->
        forall fh r,
          Dict.get fh files = Some r ->
          Dict.keys (f_chunks r)
          = List.filter (fun k => String.eqb (bucket_of k) fh)
                        (Dict.keys all_perf)).
Proof.
  intros all_perf u w files. subst files.
  rewrite group_chunks_by_file_unfold, keys_close, group_loop_keys.
  split; [reflexivity|].
  intros Hwf fh r Hget. rewrite get_close in Hget.
  set (w1 := snd (backfill_file_mapping_from_chunks u w)) in *.
  pose proof (group_loop_chunk_keys u all_perf [] w1 Hwf) as Hk.
  assert (Hfresh : forall fh0 r0 k0,
             Dict.get fh0 ([] : Dict.t FileRollup) = Some r0 ->
             Dict.mem k0 (f_chunks r0) = true ->
             ~ In k0 (Dict.keys all_perf))
    by (intros fh0 r0 k0 H; discriminate H).
  specialize (Hk Hfresh fh).
  destruct (Dict.get fh _) as [r0|]; [|discriminate].
  cbn in Hget. inversion Hget; subst r. exact Hk.
Qed.

Lemma group_chunks_by_file_keeps_order_witness :
  exists r,
    Dict.get "36975731"
             (fst (group_chunks_by_file sample_perf None
                                        (world_of empty_state))) = Some r
    /\ Dict.keys (f_chunks r)
       = List.filter (fun k => String.eqb (bucket_of k) "36975731")
                     (Dict.keys sample_perf).
Proof.
  eexists. split; [vm_compute; reflexivity|].
  match goal with
  | |- Dict.keys (f_chunks ?r) = _ =>
      apply (proj2 (group_chunks_by_file_keeps_order
                      sample_perf None (world_of empty_state))
                   sample_perf_wf "36975731" r)
  end.
  vm_compute. reflexivity.
Defined.

(** ** The digest on the test suite of RFC 1321 *)

Example md5_empty :
  MD5.hexdigest (PyStr.encode "") = "d41d8cd98f00b204e9800998ecf8427e".
Proof. vm_compute. reflexivity. Qed.

Example md5_abc :
  MD5.hexdigest (PyStr.encode "abc") = "900150983cd24fb0d6963f7d28e17f72".
Proof. vm_compute. reflexivity. Qed.

Example md5_message_digest :
  MD5.hexdigest (PyStr.encode "message digest")
  = "f96b697d7cb7938d525a2f31aaf161d0".
Proof. vm_compute. reflexivity. Qed.

Example md5_digits :
  MD5.hexdigest
    (PyStr.encode
       ("1234567890123456789012345678901234567890"
        ++ "1234567890123456789012345678901234567890"))
  = "57edf4a22be3c955ac49da2e2107b67a".
Proof. vm_compute. reflexivity. Qed.
